(** * Auto-reply polling and decision loop (backend/auto_reply.py)

    A shallow embedding of [AutoReplyManager] and of the wrappers it calls
    ([InstagramClient.check_new_messages], [InstagramClient.send_auto_reply],
    [GroqClient.analyze_message_intent], [GroqClient.generate_dm_response]),
    followed by the properties of the condition evaluator, the template
    resolver and the scheduler loop.

    Conventions of the embedding.
    - A Python [str] is the [string] of its UTF-8 bytes: concatenation and
      the tests [in], [startswith], [endswith] and [replace] on code points
      are the same operations on the encodings.  [str.lower] follows the
      Unicode tables of the interpreter and is a parameter of the embedding.
    - A [Dict] read by key only is a [gmap]; a [Dict] that the code iterates
      is an association list kept in insertion order.
    - [datetime] values are integers counting microseconds.
    - Side effects are threaded through a state-and-exception monad; a raised
      exception keeps the state reached so far.  Every call made to a
      collaborator and every log record is appended to a trace.
    - What is raised is an instance of [Exception], which [except Exception]
      catches, or another [BaseException] ([SystemExit], [KeyboardInterrupt],
      [asyncio.CancelledError]), which it lets through.
    - Third-party behaviour (instagrapi, the Groq SDK, the template file, the
      clock, the other asyncio tasks) is an oracle over an abstract world.

    Beside the manager the file embeds the code around it: the prompt of
    [GroqClient], the template variables of [FileParser], the sessions of
    [InstagramClient] ([login], [logout], [send_dm]), the accounts and
    templates of [Database], and of routers/dmer.py the route
    [configure_auto_reply] and the background task [process_bulk_dms]. *)

From Stdlib Require Import ZArith String Ascii List Lia Bool DecimalString.
From stdpp Require Import gmap strings list.
Import ListNotations.

Local Open Scope string_scope.
Local Open Scope list_scope.
Local Open Scope Z_scope.

(** ** Python strings *)

Module PyStr.

(** [s.lower()] on a [str] of ASCII characters: [A]-[Z] move to [a]-[z].
    On other strings [str.lower] is the parameter [str_lower] of the
    embedding; this function is the one of the concrete world at the end
    of the definitions. *)
Definition lower_char (c : ascii) : ascii :=
  let n := nat_of_ascii c in
  if ((65 <=? n)%nat && (n <=? 90)%nat)%bool then ascii_of_nat (n + 32) else c.

Fixpoint lower_ascii (s : string) : string :=
  match s with
  | EmptyString => EmptyString
  | String c s' => String (lower_char c) (lower_ascii s')
  end.

Definition lower_ascii_nonempty (s : string) : lower_ascii s = "" -> s = "" :=
  match s as s0 return lower_ascii s0 = "" -> s0 = "" with
  | EmptyString => fun _ => eq_refl
  | String c s' => fun H =>
      match H in (_ = y)
            return match y with EmptyString => String c s' = "" | String _ _ => True end
      with eq_refl => I end
  end.

(** [s.startswith(p)] *)
Fixpoint startswith (s p : string) {struct p} : bool :=
  match p, s with
  | EmptyString, _ => true
  | String _ _, EmptyString => false
  | String c p', String d s' => Ascii.eqb c d && startswith s' p'
  end.

(** [s.endswith(p)]: [p] is [s] itself or a suffix of the tail of [s]. *)
Fixpoint endswith (s p : string) : bool :=
  String.eqb s p ||
  match s with
  | EmptyString => false
  | String _ s' => endswith s' p
  end.

(** [p in s] *)
Fixpoint contains (s p : string) : bool :=
  startswith s p ||
  match s with
  | EmptyString => false
  | String _ s' => contains s' p
  end.

(** [s[n:]] for [n >= 0], on a string whose first [n] characters are
    ASCII (the code slices only behind the prefix ["AI:"]). *)
Fixpoint drop (n : nat) (s : string) : string :=
  match n, s with
  | O, _ => s
  | S _, EmptyString => EmptyString
  | S n', String _ s' => drop n' s'
  end.

(** The three tests as relations on strings. *)
Definition is_prefix (p s : string) : Prop := exists b, s = p +:+ b.
Definition is_suffix (p s : string) : Prop := exists a, s = a +:+ p.
Definition is_substring (p s : string) : Prop := exists a b, s = a +:+ p +:+ b.

End PyStr.

(** ** Python values, exceptions, results *)

(** The values found in the dictionaries the core reads. *)
Inductive PyVal : Type :=
| PyNone
| PyStr (s : string)
| PyInt (n : Z).

(** [str(v)], as an f-string formats it. *)
Definition py_str (v : PyVal) : string :=
  match v with
  | PyNone => "None"
  | PyStr s => s
  | PyInt n => NilZero.string_of_int (Z.to_int n)
  end.

(** Instances of [Exception]; the payload is [str(e)]. *)
Inductive exn : Type :=
| LoginRequired (msg : string)
| AttributeError (msg : string)
| KeyError (msg : string)
| OtherException (msg : string).

Definition exn_str (e : exn) : string :=
  match e with
  | LoginRequired m | AttributeError m | KeyError m | OtherException m => m
  end.

(** Everything a [raise] can carry: an instance of [Exception], or one of
    the exceptions that derive from [BaseException] only and that an
    [except Exception] clause does not catch. *)
Inductive BaseException : Type :=
| Exception (e : exn)
| SystemExit (code : string)
| KeyboardInterrupt
| CancelledError.

(** An exception that [except Exception] lets through. *)
Definition escapes (b : BaseException) : bool :=
  match b with
  | Exception _ => false
  | _ => true
  end.

(** How a call ends: it returns, or it raises an [E]. *)
Inductive outcome_of (E A : Type) : Type :=
| Ok (a : A)
| Raise (e : E).
Arguments Ok {E A} a.
Arguments Raise {E A} e.

(** The end of a call that raises instances of [Exception] only, and the
    end of any call. *)
Abbreviation outcome := (outcome_of exn).
Abbreviation flow := (outcome_of BaseException).

(** Whether a call ended by an exception that [except Exception] lets
    through. *)
Definition escaped {A : Type} (r : flow A) : bool :=
  match r with
  | Raise b => escapes b
  | Ok _ => false
  end.

(** A message dictionary as [check_new_messages] builds it. *)
Abbreviation Message := (gmap string PyVal).

(** [message.get(key, default)] *)
Definition msg_get (message : Message) (key : string) (default : PyVal) : PyVal :=
  match message !! key with
  | Some v => v
  | None => default
  end.

(** [message[key]] *)
Definition msg_index (message : Message) (key : string) : outcome PyVal :=
  match message !! key with
  | Some v => Ok v
  | None => Raise (KeyError ("'" +:+ key +:+ "'"))
  end.

(** ** models.py *)

Record Template : Type := {
  tpl_id : option string;      (* id *)
  tpl_name : string;           (* name *)
  content : string;
  variables : list string
}.

Record AutoReplyConfig : Type := {
  is_enabled : bool;
  template_id : option string;
  conditions : list (string * string)
}.

(** ** config.py *)

Module settings.
Definition DM_DELAY_SECONDS : Z := 30.
Definition AUTO_REPLY_CHECK_INTERVAL : Z := 60.
Definition MAX_RETRIES : Z := 3.
End settings.

(** ** Insertion-ordered dictionaries (the ones the code iterates) *)

Module PyDict.
Section Ops.
Context {V : Type}.

(** [key in d] / [d.get(key)] *)
Fixpoint get (key : string) (d : list (string * V)) : option V :=
  match d with
  | [] => None
  | (k, v) :: d' => if String.eqb k key then Some v else get key d'
  end.

(** [d[key] = value]: an existing key keeps its position. *)
Fixpoint set (key : string) (value : V) (d : list (string * V)) : list (string * V) :=
  match d with
  | [] => [(key, value)]
  | (k, v) :: d' =>
      if String.eqb k key then (k, value) :: d' else (k, v) :: set key value d'
  end.

(** [d.pop(key, None)], the popped value dropped. *)
Fixpoint pop (key : string) (d : list (string * V)) : list (string * V) :=
  match d with
  | [] => []
  | (k, v) :: d' => if String.eqb k key then d' else (k, v) :: pop key d'
  end.

Definition keys (d : list (string * V)) : list string := map fst d.

(** What a [dict] guarantees: no key twice. *)
Definition wf (d : list (string * V)) : Prop := NoDup (keys d).
End Ops.
End PyDict.

(** ** The world outside the core *)

Inductive Level : Type := INFO | ERROR.

(** The [context] dictionary literal of [_get_reply_template]: exactly the
    keys ['intent_analysis'] and ['template_guide']. *)
Record GenContext : Type := {
  intent_analysis : PyVal;
  template_guide : string
}.

(** What the trace records: log records, sleeps, and the calls made to the
    gateway, the response generator and the template store. *)
Inductive Event : Type :=
| Log (level : Level) (msg : string)
| AsyncSleep (seconds : Z)
| TimeSleep (seconds : Z)
| CallCheckNewMessages (username : string)
| CallSendAutoReply (username : string) (thread_id : PyVal) (text : string)
| CallAnalyzeIntent (text : PyVal)
| CallGenerateResponse (text : PyVal) (context : GenContext)
| CallGetTemplate (template_id : option string).

(** The entry points other asyncio tasks call while the loop is suspended. *)
Inductive Control : Type :=
| CtlStop
| CtlUpdateConfig (username : string) (config : AutoReplyConfig).

(** What lies outside the repository: the interpreter's [str.lower] and the
    third-party behaviour.  Each oracle reads and advances the world; the
    ones that stand for library code may raise.
    - [str_lower]: [str.lower()]; the empty string is the only one it maps
      to the empty string;
    - [datetime_now]: [datetime.now()], in microseconds;
    - [ig_unseen_messages]: the [try] body of [check_new_messages]
      ([direct_threads], [direct_messages], the [seen_at] filter);
    - [ig_direct_answer]: [client.direct_answer(thread_id, message)];
    - [groq_intent]: the [try] body of [analyze_message_intent], [None]
      being [PyNone]; it ends with [eval] of the completion, which can
      raise anything, [SystemExit] included;
    - [groq_response]: the [try] body of [generate_dm_response];
    - [db_get_template]: [Database.get_template] over the template file;
    - [pending_controls]: the calls other tasks make during a suspension;
    - [task_cancelled]: whether the task of the loop was cancelled during
      the suspension. *)
Class Collaborators : Type := {
  World : Type;
  str_lower : string -> string;
  str_lower_empty : str_lower "" = "";
  str_lower_nonempty : forall s, str_lower s = "" -> s = "";
  datetime_now : World -> Z * World;
  ig_unseen_messages : string -> World -> outcome (list Message) * World;
  ig_direct_answer : string -> PyVal -> string -> World -> outcome unit * World;
  groq_intent : PyVal -> World -> flow PyVal * World;
  groq_response : PyVal -> GenContext -> World -> outcome (option string) * World;
  db_get_template : option string -> World -> outcome (option Template) * World;
  pending_controls : World -> list Control * World;
  task_cancelled : World -> bool * World
}.

(** [(now - last).total_seconds() < seconds] for a difference given in
    microseconds: the quotient by 10^6 is below an integer exactly when the
    difference is below that integer times 10^6. *)
Definition total_seconds_lt (delta : Z) (seconds : Z) : bool :=
  delta <? seconds * 1000000.

(** Truth value of an [Optional[str]]: [None] and [''] are false. *)
Definition str_truthy (o : option string) : bool :=
  match o with
  | Some (String _ _) => true
  | _ => false
  end.

(** An [Optional[str]] inside an f-string. *)
Definition opt_str (o : option string) : string :=
  match o with
  | Some s => s
  | None => "None"
  end.

Section Model.
Context {env : Collaborators}.

(** [v.lower()]: only a [str] has the method. *)
Definition py_lower (v : PyVal) : outcome string :=
  match v with
  | PyStr s => Ok (str_lower s)
  | PyNone => Raise (AttributeError "'NoneType' object has no attribute 'lower'")
  | PyInt _ => Raise (AttributeError "'int' object has no attribute 'lower'")
  end.

(** ** State: the manager, the gateway's session map, the world, the trace *)

Record State : Type := mkState {
  is_running : bool;                                   (* AutoReplyManager *)
  active_configs : list (string * AutoReplyConfig);    (* AutoReplyManager *)
  last_check_times : gmap string Z;                    (* AutoReplyManager *)
  clients : gset string;                               (* InstagramClient: keys of [clients] *)
  world : World;
  trace : list Event
}.

Definition set_is_running (b : bool) (st : State) : State :=
  mkState b (active_configs st) (last_check_times st) (clients st) (world st) (trace st).
Definition set_active_configs (d : list (string * AutoReplyConfig)) (st : State) : State :=
  mkState (is_running st) d (last_check_times st) (clients st) (world st) (trace st).
Definition set_last_check_times (d : gmap string Z) (st : State) : State :=
  mkState (is_running st) (active_configs st) d (clients st) (world st) (trace st).
Definition set_world (w : World) (st : State) : State :=
  mkState (is_running st) (active_configs st) (last_check_times st) (clients st) w (trace st).
Definition add_event (ev : Event) (st : State) : State :=
  mkState (is_running st) (active_configs st) (last_check_times st) (clients st) (world st)
          (trace st ++ [ev]).

(** ** The monad *)

Definition M (A : Type) : Type := State -> flow A * State.

#[global] Instance M_ret : MRet M := fun A (a : A) st => (Ok a, st).

#[global] Instance M_bind : MBind M := fun A B (k : A -> M B) (c : M A) st =>
  match c st with
  | (Ok a, st') => k a st'
  | (Raise b, st') => (Raise b, st')
  end.

(** [try: body  except Exception as e: handler] *)
Definition try_except {A : Type} (body : M A) (handler : exn -> M A) : M A := fun st =>
  match body st with
  | (Ok a, st') => (Ok a, st')
  | (Raise (Exception e), st') => handler e st'
  | (Raise b, st') => (Raise b, st')
  end.

(** An outcome whose exceptions are instances of [Exception], as the end of
    any call. *)
Definition as_flow {A : Type} (o : outcome A) : flow A :=
  match o with
  | Ok a => Ok a
  | Raise e => Raise (Exception e)
  end.

Definition raise {A : Type} (b : BaseException) : M A := fun st => (Raise b, st).
Definition lift_outcome {A : Type} (o : outcome A) : M A := fun st => (as_flow o, st).
Definition gets {A : Type} (f : State -> A) : M A := fun st => (Ok (f st), st).
Definition modify (f : State -> State) : M unit := fun st => (Ok tt, f st).
Definition emit (ev : Event) : M unit := modify (add_event ev).

Definition oracle {A : Type} (f : World -> outcome A * World) : M A := fun st =>
  let (r, w) := f (world st) in (as_flow r, set_world w st).
Definition oracle_any {A : Type} (f : World -> flow A * World) : M A := fun st =>
  let (r, w) := f (world st) in (r, set_world w st).
Definition oracle_total {A : Type} (f : World -> A * World) : M A := fun st =>
  let (a, w) := f (world st) in (Ok a, set_world w st).

(** [for x in l: body(x)] *)
Fixpoint for_each {A : Type} (l : list A) (body : A -> M unit) : M unit :=
  match l with
  | [] => mret tt
  | x :: l' => body x ;; for_each l' body
  end.

Definition logger_info (msg : string) : M unit := emit (Log INFO msg).
Definition logger_error (msg : string) : M unit := emit (Log ERROR msg).

(** Final state and result of a computation. *)
Definition exec {A : Type} (c : M A) (st : State) : State := snd (c st).
Definition result {A : Type} (c : M A) (st : State) : flow A := fst (c st).

(** ** utils/instagram_client.py *)

(** [InstagramClient.check_new_messages] *)
Definition check_new_messages (username : string) : M (list Message) :=
  emit (CallCheckNewMessages username) ;;
  logged_in ← gets (fun st => bool_decide (username ∈ clients st));
  if negb logged_in then
    logger_error ("Client not logged in for " +:+ username) ;;
    mret []
  else
    try_except
      (oracle (ig_unseen_messages username))
      (fun e =>
         match e with
         | LoginRequired _ =>
             logger_error ("Login required for " +:+ username) ;; mret []
         | _ =>
             logger_error ("Error checking messages for " +:+ username +:+ ": " +:+ exn_str e) ;;
             mret []
         end).

(** [InstagramClient.send_auto_reply] *)
Definition send_auto_reply (username : string) (thread_id : PyVal) (message : string)
  : M (bool * option string) :=
  emit (CallSendAutoReply username thread_id message) ;;
  logged_in ← gets (fun st => bool_decide (username ∈ clients st));
  if negb logged_in then mret (false, Some "Client not logged in")
  else
    try_except
      (oracle (ig_direct_answer username thread_id message) ;;
       emit (TimeSleep settings.DM_DELAY_SECONDS) ;;
       logger_info ("Successfully sent auto-reply in thread " +:+ py_str thread_id) ;;
       mret (true, None))
      (fun e =>
         match e with
         | LoginRequired _ =>
             logger_error ("Login required for " +:+ username) ;;
             mret (false, Some "Login required")
         | _ =>
             let error_msg := "Failed to send auto-reply: " +:+ exn_str e in
             logger_error error_msg ;;
             mret (false, Some error_msg)
         end).

(** ** utils/groq_client.py *)

(** [GroqClient.generate_dm_response] *)
Definition generate_dm_response (message_content : PyVal) (context : GenContext)
  : M (option string) :=
  emit (CallGenerateResponse message_content context) ;;
  try_except
    (oracle (groq_response message_content context))
    (fun e =>
       logger_error ("Error generating response with Groq: " +:+ exn_str e) ;;
       mret None).

(** [GroqClient.analyze_message_intent] *)
Definition analyze_message_intent (message_content : PyVal) : M PyVal :=
  emit (CallAnalyzeIntent message_content) ;;
  try_except
    (oracle_any (groq_intent message_content))
    (fun e =>
       logger_error ("Error analyzing message intent with Groq: " +:+ exn_str e) ;;
       mret PyNone).

(** ** database.py *)

(** [Database.get_template] *)
Definition get_template (template_id : option string) : M (option Template) :=
  emit (CallGetTemplate template_id) ;;
  oracle (db_get_template template_id).

(** ** auto_reply.py: AutoReplyManager *)

(** [AutoReplyManager.__init__], for a given gateway session map and world. *)
Definition init (logged_in : gset string) (w : World) : State :=
  mkState false [] ∅ logged_in w [].

(** [AutoReplyManager.stop] *)
Definition stop : M unit :=
  modify (set_is_running false) ;;
  logger_info "Stopping auto-reply manager".

(** [AutoReplyManager.update_config] *)
Definition update_config (username : string) (config : AutoReplyConfig) : M unit :=
  if is_enabled config then
    modify (fun st => set_active_configs (PyDict.set username config (active_configs st)) st) ;;
    logger_info ("Updated auto-reply config for " +:+ username)
  else
    modify (fun st => set_active_configs (PyDict.pop username (active_configs st)) st) ;;
    logger_info ("Disabled auto-reply for " +:+ username).

(** The condition loop of [_should_reply]: the first failing test returns
    [False]; a kind that is none of the three falls through every [elif]. *)
Fixpoint check_conditions (message_text : string) (items : list (string * string)) : bool :=
  match items with
  | [] => true
  | (condition_type, condition_value) :: rest =>
      if String.eqb condition_type "contains" then
        if negb (PyStr.contains message_text (str_lower condition_value)) then false
        else check_conditions message_text rest
      else if String.eqb condition_type "starts_with" then
        if negb (PyStr.startswith message_text (str_lower condition_value)) then false
        else check_conditions message_text rest
      else if String.eqb condition_type "ends_with" then
        if negb (PyStr.endswith message_text (str_lower condition_value)) then false
        else check_conditions message_text rest
      else check_conditions message_text rest
  end.

(** [AutoReplyManager._should_reply] *)
Definition _should_reply (message : Message) (config : AutoReplyConfig) : M bool :=
  try_except
    (message_text ← lift_outcome (py_lower (msg_get message "text" (PyStr "")));
     mret (check_conditions message_text (conditions config)))
    (fun e =>
       logger_error ("Error checking reply conditions: " +:+ exn_str e) ;;
       mret false).

(** [AutoReplyManager._get_reply_template] *)
Definition _get_reply_template (template_id : option string) (message : Message)
  : M (option string) :=
  try_except
    (template ← get_template template_id;
     match template with
     | None =>
         logger_error ("Template " +:+ opt_str template_id +:+ " not found") ;;
         mret None
     | Some template =>
         if PyStr.startswith (content template) "AI:" then
           intent ← analyze_message_intent (msg_get message "text" (PyStr ""));
           response ← generate_dm_response
                        (msg_get message "text" (PyStr ""))
                        {| intent_analysis := intent;
                           template_guide := PyStr.drop 3 (content template) |};
           mret (if str_truthy response then response else Some (content template))
         else mret (Some (content template))
     end)
    (fun e =>
       logger_error ("Error getting reply template: " +:+ exn_str e) ;;
       mret None).

(** The [try] block of [_process_message]. *)
Definition process_message_body (username : string) (message : Message)
           (config : AutoReplyConfig) : M unit :=
  should ← _should_reply message config;
  if negb should then mret tt
  else
    template ← _get_reply_template (template_id config) message;
    match template with
    | None | Some EmptyString => mret tt
    | Some (String _ _ as template) =>
        thread_id ← lift_outcome (msg_index message "thread_id");
        '(success, error) ← send_auto_reply username thread_id template;
        if success : bool then
          thread_id' ← lift_outcome (msg_index message "thread_id");
          logger_info ("Auto-reply sent successfully in thread " +:+ py_str thread_id')
        else
          logger_error ("Failed to send auto-reply: " +:+ opt_str error)
    end.

(** [AutoReplyManager._process_message] *)
Definition _process_message (username : string) (message : Message) (config : AutoReplyConfig)
  : M unit :=
  try_except
    (process_message_body username message config)
    (fun e => logger_error ("Error processing message: " +:+ exn_str e)).

(** The body of the [for] loop of [_check_new_messages] for one
    [(username, config)] item: the per-account check. *)
Definition check_account (username : string) (config : AutoReplyConfig) : M unit :=
  try_except
    (now ← oracle_total datetime_now;
     last ← gets (fun st => last_check_times st !! username);
     let recently :=
       match last with
       | Some last_check =>
           total_seconds_lt (now - last_check) settings.AUTO_REPLY_CHECK_INTERVAL
       | None => false
       end in
     if recently then mret tt
     else
       messages ← check_new_messages username;
       modify (fun st => set_last_check_times (<[username := now]> (last_check_times st)) st) ;;
       for_each messages (fun message => _process_message username message config))
    (fun e =>
       logger_error ("Error checking messages for " +:+ username +:+ ": " +:+ exn_str e)).

(** [AutoReplyManager._check_new_messages]: one tick. *)
Definition _check_new_messages : M unit :=
  items ← gets active_configs;
  for_each items (fun item => check_account (fst item) (snd item)).

(** Delivery of one call made by another task. *)
Definition deliver (c : Control) : M unit :=
  match c with
  | CtlStop => stop
  | CtlUpdateConfig username config => update_config username config
  end.

(** [await asyncio.sleep(seconds)]: the loop is suspended and the calls of
    the other tasks run before it resumes; when the task was cancelled
    meanwhile, [CancelledError] is raised at the [await]. *)
Definition asyncio_sleep (seconds : Z) : M unit :=
  emit (AsyncSleep seconds) ;;
  calls ← oracle_total pending_controls;
  for_each calls deliver ;;
  cancelled ← oracle_total task_cancelled;
  if cancelled : bool then raise CancelledError else mret tt.

(** The body of the [while] loop of [start], for any tick. *)
Definition loop_body (tick : M unit) : M unit :=
  try_except
    (tick ;; asyncio_sleep settings.AUTO_REPLY_CHECK_INTERVAL)
    (fun e =>
       logger_error ("Error in auto-reply loop: " +:+ exn_str e) ;;
       asyncio_sleep settings.AUTO_REPLY_CHECK_INTERVAL).

(** How a bounded run of the loop ends. *)
Inductive LoopEnd : Type := Exited | StillRunning.

(** [while self.is_running: body], cut after [fuel] iterations of the body. *)
Fixpoint while_is_running (fuel : nat) (body : M unit) : M LoopEnd :=
  running ← gets is_running;
  if running : bool then
    match fuel with
    | O => mret StillRunning
    | S fuel' => body ;; while_is_running fuel' body
    end
  else mret Exited.

(** [start] with the tick as a parameter. *)
Definition start_with (tick : M unit) (fuel : nat) : M LoopEnd :=
  modify (set_is_running true) ;;
  logger_info "Starting auto-reply manager" ;;
  while_is_running fuel (loop_body tick).

(** [AutoReplyManager.start] *)
Definition start (fuel : nat) : M LoopEnd := start_with _check_new_messages fuel.

End Model.

(** ** Vocabulary of the statements *)

(** The three recognised condition kinds and what each one tests. *)
Definition condition_holds (kind operand text : string) : Prop :=
  (kind = "contains" -> PyStr.is_substring operand text) /\
  (kind = "starts_with" -> PyStr.is_prefix operand text) /\
  (kind = "ends_with" -> PyStr.is_suffix operand text).

Definition recognized (kind : string) : Prop :=
  kind = "contains" \/ kind = "starts_with" \/ kind = "ends_with".

(** The text [_should_reply] lowers, when lowering it does not fault: the
    empty string for a message without the key, the value when it is a
    string. *)
Definition message_text (message : Message) : option string :=
  match message !! "text" with
  | None => Some ""
  | Some (PyStr s) => Some s
  | Some _ => None
  end.

(** Gateway polls of one account in a list of events. *)
Definition is_poll (username : string) (ev : Event) : bool :=
  match ev with
  | CallCheckNewMessages u => String.eqb u username
  | _ => false
  end.

Definition polls (username : string) (evs : list Event) : nat :=
  length (List.filter (is_poll username) evs).


(** The record [check_new_messages] logs when the fetch raises [e]. *)
Definition fetch_error_log (username : string) (e : exn) : string :=
  match e with
  | LoginRequired _ => "Login required for " +:+ username
  | _ => "Error checking messages for " +:+ username +:+ ": " +:+ exn_str e
  end.

(** An event that is not a gateway poll. *)
Definition no_poll (ev : Event) : Prop :=
  match ev with
  | CallCheckNewMessages _ => False
  | _ => True
  end.

(** A log record. *)
Definition is_log (ev : Event) : Prop :=
  match ev with
  | Log _ _ => True
  | _ => False
  end.

(** Calls to the response generator in a list of events. *)
Definition is_generator_call (ev : Event) : bool :=
  match ev with
  | CallAnalyzeIntent _ | CallGenerateResponse _ _ => true
  | _ => false
  end.

Definition generator_calls (evs : list Event) : nat :=
  length (List.filter is_generator_call evs).

Section Vocabulary.
Context {env : Collaborators}.

(** The cooldown test of [check_account], for the clock reading [now]. *)
Definition due (username : string) (now : Z) (st : State) : bool :=
  match last_check_times st !! username with
  | Some last_check =>
      negb (total_seconds_lt (now - last_check) settings.AUTO_REPLY_CHECK_INTERVAL)
  | None => true
  end.

(** The items a tick visits before it reaches [username]. *)
Fixpoint before (username : string) (items : list (string * AutoReplyConfig))
  : list (string * AutoReplyConfig) :=
  match items with
  | [] => []
  | (k, v) :: rest =>
      if String.eqb k username then [] else (k, v) :: before username rest
  end.


(** The state in which the resolver has the template in hand. *)
Definition after_lookup (template_id : option string) (w : World) (st : State) : State :=
  set_world w (add_event (CallGetTemplate template_id) st).

(** The state in which the messages of a poll are processed: the poll time
    recorded. *)
Definition record_poll (username : string) (now : Z) (st : State) : State :=
  set_last_check_times (<[username := now]> (last_check_times st)) st.


(** A computation changes nothing that [f] observes. *)
Definition keeps {A B : Type} (f : State -> B) (c : M A) : Prop :=
  forall st, f (exec c st) = f st.

(** A computation only appends events, all of them satisfying [P]. *)
Definition only_emits {A : Type} (P : Event -> Prop) (c : M A) : Prop :=
  forall st, exists evs, trace (exec c st) = trace st ++ evs /\ Forall P evs.

(** A computation returns normally from every state. *)
Definition never_raises {A : Type} (c : M A) : Prop :=
  forall st, exists a, result c st = Ok a.

(** Whatever a computation raises is an instance of [Exception]. *)
Definition contained {A : Type} (c : M A) : Prop :=
  forall st, escaped (result c st) = false.

(** No instance of [Exception] leaves a computation. *)
Definition absorbs {A : Type} (c : M A) : Prop :=
  forall st (e : exn), result c st <> Raise (Exception e).

(** The worlds in which evaluating the completion of the intent analysis
    raises instances of [Exception] only, and the ones in which the task of
    the loop is never cancelled. *)
Definition generator_contained : Prop :=
  forall text w, escaped (fst (groq_intent text w)) = false.

Definition never_cancelled : Prop :=
  forall w, fst (task_cancelled w) = false.

(** [f] does not read the world or the trace. *)
Definition internal {B : Type} (f : State -> B) : Prop :=
  (forall w st, f (set_world w st) = f st) /\
  (forall ev st, f (add_event ev st) = f st).

End Vocabulary.

(** An event left behind by a send: a log record or the pause after it. *)
Definition send_aftermath (ev : Event) : Prop :=
  is_log ev \/ ev = TimeSleep settings.DM_DELAY_SECONDS.

(** ** utils/groq_client.py: the prompt *)

(** The line feed of the f-strings. *)
Definition nl : string := String (ascii_of_nat 10) EmptyString.

(** [GroqClient._prepare_prompt]; [context] is [None] or a dictionary, and
    an empty dictionary is as false as [None]. *)
Definition _prepare_prompt (message_content : PyVal) (context : option (gmap string PyVal))
  : string :=
  let base_prompt := "Message: " +:+ py_str message_content +:+ nl +:+ nl in
  let base_prompt :=
    match context with
    | Some context =>
        if bool_decide (context = ∅) then base_prompt
        else
          let base_prompt :=
            match context !! "previous_messages" with
            | Some v => base_prompt +:+ "Previous conversation: " +:+ py_str v +:+ nl
            | None => base_prompt
            end in
          let base_prompt :=
            match context !! "customer_info" with
            | Some v => base_prompt +:+ "Customer info: " +:+ py_str v +:+ nl
            | None => base_prompt
            end in
          match context !! "business_context" with
          | Some v => base_prompt +:+ "Business context: " +:+ py_str v +:+ nl
          | None => base_prompt
          end
    | None => base_prompt
    end in
  base_prompt +:+ nl +:+ "Generate a professional and engaging response:".

(** The [context] dictionary [_get_reply_template] passes to
    [generate_dm_response]. *)
Definition reply_context (context : GenContext) : gmap string PyVal :=
  {[ "intent_analysis" := intent_analysis context;
     "template_guide" := PyStr (template_guide context) ]}.

(** ** utils/file_parser.py: template variables *)

Module FileParser.
Section Variables.
Context {env : Collaborators}.

(** [s.replace(old, new)]: the occurrences of [old] are replaced from left
    to right without overlap; [skip] counts the characters of a match still
    to be dropped.  An empty [old] matches before every character and at
    the end. *)
Fixpoint replace_from (skip : nat) (s old new : string) : string :=
  match s with
  | EmptyString =>
      match skip, old with
      | O, EmptyString => new
      | _, _ => EmptyString
      end
  | String c s' =>
      match skip with
      | S skip' => replace_from skip' s' old new
      | O =>
          match old with
          | EmptyString => new +:+ String c (replace_from O s' old new)
          | String _ old' =>
              if PyStr.startswith s old
              then new +:+ replace_from (String.length old') s' old new
              else String c (replace_from O s' old new)
          end
      end
  end.

Definition replace (s old new : string) : string := replace_from O s old new.

(** [{k.lower(): v for k, v in user_data.items()}] *)
Definition lower_keys (user_data : list (string * PyVal)) : list (string * PyVal) :=
  fold_left (fun data item => PyDict.set (str_lower (fst item)) (snd item) data)
            user_data [].

(** [FileParser.process_template_variables], for a [user_data] whose keys
    are strings: then nothing in the [try] block raises. *)
Definition process_template_variables (template : string) (user_data : list (string * PyVal))
  : string :=
  fold_left (fun processed item =>
               replace processed ("{" +:+ fst item +:+ "}") (py_str (snd item)))
            (lower_keys user_data) template.

End Variables.
End FileParser.

(** ** models.py: accounts and API responses *)

Module models.

Record InstagramAccount : Type := {
  username : string;
  password : string;
  is_active : bool;
  last_login : option Z;
  login_status : string;
  error_message : option string
}.

(** [APIResponse] with [data] and [errors] left at [None]. *)
Record APIResponse : Type := {
  success : bool;
  message : string
}.

(** What a route gives back: its return value, or the [HTTPException] that
    leaves it. *)
Inductive Http (A : Type) : Type :=
| Respond (a : A)
| HTTPException (status_code : Z) (detail : string).
Arguments Respond {A} a.
Arguments HTTPException {A} status_code detail.

End models.

(** More third-party behaviour, over the same world.
    - [ig_new_client]: [Client()] and [set_device_settings];
    - [ig_login]: [client.login(username, password)];
    - [ig_logout]: [client.logout()];
    - [ig_direct_send]: [user_id_from_username] then [direct_send];
    - [db_get_account], [db_list_accounts]: [Database.get_account] and
      [Database.list_accounts] over the accounts file. *)
Class Services {env : Collaborators} : Type := {
  ig_new_client : string -> World -> outcome unit * World;
  ig_login : string -> string -> World -> outcome unit * World;
  ig_logout : string -> World -> outcome unit * World;
  ig_direct_send : string -> string -> string -> World -> outcome unit * World;
  db_get_account : string -> World -> outcome (option models.InstagramAccount) * World;
  db_list_accounts : World -> outcome (list models.InstagramAccount) * World
}.

Section Gateway.
Context {env : Collaborators} {services : Services}.

Definition set_clients (sessions : gset string) (st : State) : State :=
  mkState (is_running st) (active_configs st) (last_check_times st) sessions (world st)
          (trace st).

(** The gateway with its counter of failed logins beside the rest. *)
Record Sessions : Type := mkSessions {
  core : State;
  login_attempts : gmap string Z
}.

Definition G (A : Type) : Type := Sessions -> flow A * Sessions.

#[global] Instance G_ret : MRet G := fun A (a : A) s => (Ok a, s).

#[global] Instance G_bind : MBind G := fun A B (k : A -> G B) (c : G A) s =>
  match c s with
  | (Ok a, s') => k a s'
  | (Raise b, s') => (Raise b, s')
  end.

Definition g_try {A : Type} (body : G A) (handler : exn -> G A) : G A := fun s =>
  match body s with
  | (Ok a, s') => (Ok a, s')
  | (Raise (Exception e), s') => handler e s'
  | (Raise b, s') => (Raise b, s')
  end.

(** A computation on the core, run inside the gateway. *)
Definition on_core {A : Type} (c : M A) : G A := fun s =>
  let (r, st) := c (core s) in (r, mkSessions st (login_attempts s)).

Definition set_attempts (username : string) (n : Z) : G unit := fun s =>
  (Ok tt, mkSessions (core s) (<[username := n]> (login_attempts s))).

(** [InstagramClient._create_client] *)
Definition _create_client (username : string) : M unit :=
  oracle (ig_new_client username) ;;
  modify (fun st => set_clients ({[ username ]} ∪ clients st) st).

Definition g_gets {A : Type} (f : Sessions -> A) : G A := fun s => (Ok (f s), s).

(** [InstagramClient.login] *)
Definition login (account : models.InstagramAccount) : G (bool * option string) :=
  let username := models.username account in
  attempts ← g_gets (fun s => login_attempts s !! username);
  let refused :=
    match attempts with
    | Some n => settings.MAX_RETRIES <=? n
    | None => false
    end in
  if refused then mret (false, Some "Maximum login attempts exceeded")
  else
    g_try
      (on_core (_create_client username) ;;
       on_core (oracle (ig_login username (models.password account))) ;;
       set_attempts username 0 ;;
       on_core (logger_info ("Successfully logged in as " +:+ username)) ;;
       mret (true, None))
      (fun e =>
         attempts ← g_gets (fun s => login_attempts s !! username);
         set_attempts username (match attempts with Some n => n | None => 0 end + 1) ;;
         let error_msg := "Login failed for " +:+ username +:+ ": " +:+ exn_str e in
         on_core (logger_error error_msg) ;;
         mret (false, Some error_msg)).

(** The counter of failed logins of an account, [0] when it has none. *)
Definition failures (username : string) (s : Sessions) : Z :=
  match login_attempts s !! username with
  | Some n => n
  | None => 0
  end.

(** [InstagramClient.logout] *)
Definition logout (username : string) : M unit :=
  logged_in ← gets (fun st => bool_decide (username ∈ clients st));
  if logged_in : bool then
    try_except
      (oracle (ig_logout username) ;;
       modify (fun st => set_clients (clients st ∖ {[ username ]}) st) ;;
       logger_info ("Successfully logged out " +:+ username))
      (fun e =>
         logger_error ("Error logging out " +:+ username +:+ ": " +:+ exn_str e))
  else mret tt.

(** [InstagramClient.send_dm] *)
Definition send_dm (username target_username message : string)
  : M (bool * option string) :=
  logged_in ← gets (fun st => bool_decide (username ∈ clients st));
  if negb logged_in then mret (false, Some "Client not logged in")
  else
    try_except
      (oracle (ig_direct_send username target_username message) ;;
       emit (TimeSleep settings.DM_DELAY_SECONDS) ;;
       logger_info ("Successfully sent DM to " +:+ target_username) ;;
       mret (true, None))
      (fun e =>
         match e with
         | LoginRequired _ =>
             logger_error ("Login required for " +:+ username) ;;
             mret (false, Some "Login required")
         | _ =>
             let error_msg :=
               "Failed to send DM to " +:+ target_username +:+ ": " +:+ exn_str e in
             logger_error error_msg ;;
             mret (false, Some error_msg)
         end).

(** ** routers/dmer.py: configuring the auto-reply *)

(** [configure_auto_reply]; an [HTTPException] raised in the [try] block is
    re-raised by the first [except] clause, any other exception becomes a
    500 by the second. *)
Definition configure_auto_reply (username : string) (config : AutoReplyConfig)
  : M (models.Http models.APIResponse) :=
  try_except
    (account ← oracle (db_get_account username);
     match account with
     | None => mret (models.HTTPException 404 "Account not found")
     | Some _ =>
         let configure :=
           update_config username config ;;
           mret (models.Respond
                   {| models.success := true;
                      models.message := "Auto-reply " +:+
                                 (if is_enabled config then "enabled" else "disabled") +:+
                                 " for " +:+ username |}) in
         if (is_enabled config && str_truthy (template_id config))%bool then
           template ← get_template (template_id config);
           match template with
           | None => mret (models.HTTPException 404 "Template not found")
           | Some _ => configure
           end
         else configure
     end)
    (fun e =>
       logger_error ("Error configuring auto-reply: " +:+ exn_str e) ;;
       mret (models.HTTPException 500 (exn_str e))).

End Gateway.

(** ** database.py: the JSON files

    The two files are modelled by what [_read_json] finds in them, with rows
    that are the dumps of well-formed models; reading and writing the disk
    itself is taken to work. *)

Module Database.

(** A file that is missing or does not hold JSON reads as [{}]; a JSON
    object may lack the list. *)
Inductive JsonFile (Row : Type) : Type :=
| Unreadable
| Object (rows : option (list Row)).
Arguments Unreadable {Row}.
Arguments Object {Row} rows.

(** [self._read_json(path).get(key, [])] *)
Definition rows {Row : Type} (file : JsonFile Row) : list Row :=
  match file with
  | Object (Some l) => l
  | _ => []
  end.

(** [self._write_json(path, {key: l})] *)
Definition write {Row : Type} (l : list Row) : JsonFile Row := Object (Some l).

Definition has_username (username : string) (acc : models.InstagramAccount) : bool :=
  String.eqb (models.username acc) username.

(** [Database.add_account] *)
Definition add_account (account : models.InstagramAccount)
           (file : JsonFile models.InstagramAccount)
  : bool * JsonFile models.InstagramAccount :=
  let accounts := rows file in
  if existsb (has_username (models.username account)) accounts then (false, file)
  else (true, write (accounts ++ [account])).

(** [Database.get_account] *)
Definition get_account (username : string) (file : JsonFile models.InstagramAccount)
  : option models.InstagramAccount :=
  List.find (has_username username) (rows file).

(** [Database.list_accounts] *)
Definition list_accounts (file : JsonFile models.InstagramAccount)
  : list models.InstagramAccount :=
  rows file.

(** [Database.delete_account] *)
Definition delete_account (username : string) (file : JsonFile models.InstagramAccount)
  : bool * JsonFile models.InstagramAccount :=
  let accounts := rows file in
  let filtered_accounts := List.filter (fun acc => negb (has_username username acc)) accounts in
  if negb (Nat.eqb (length filtered_accounts) (length accounts))
  then (true, write filtered_accounts)
  else (false, file).

(** A stored template: the model with its two timestamps. *)
Record TemplateRow : Type := {
  template : Template;
  created_at : Z;
  updated_at : Z
}.

Definition has_id (template_id : string) (row : TemplateRow) : bool :=
  match tpl_id (template row) with
  | Some i => String.eqb i template_id
  | None => false
  end.

(** [f"template_{n}"] *)
Definition generated_id (n : nat) : string :=
  "template_" +:+ NilEmpty.string_of_uint (Nat.to_uint n).

(** [template.id = ...] *)
Definition with_id (template_id : string) (row : TemplateRow) : TemplateRow :=
  {| template := {| tpl_id := Some template_id;
                    tpl_name := tpl_name (template row);
                    content := content (template row);
                    variables := variables (template row) |};
     created_at := created_at row;
     updated_at := updated_at row |}.

(** [Database.add_template]: the id it returns, the row it appended (the
    template with its id set) and the file. *)
Definition add_template (row : TemplateRow) (file : JsonFile TemplateRow)
  : string * JsonFile TemplateRow :=
  let templates := rows file in
  let row :=
    if str_truthy (tpl_id (template row)) then row
    else with_id (generated_id (length templates + 1)) row in
  (opt_str (tpl_id (template row)), write (templates ++ [row])).

(** [Database.get_template] *)
Definition get_template (template_id : string) (file : JsonFile TemplateRow)
  : option TemplateRow :=
  List.find (has_id template_id) (rows file).

(** [Database.delete_template] *)
Definition delete_template (template_id : string) (file : JsonFile TemplateRow)
  : bool * JsonFile TemplateRow :=
  let templates := rows file in
  let filtered_templates := List.filter (fun row => negb (has_id template_id row)) templates in
  if negb (Nat.eqb (length filtered_templates) (length templates))
  then (true, write filtered_templates)
  else (false, file).

(** No username twice in the accounts file. *)
Definition unique_usernames (file : JsonFile models.InstagramAccount) : Prop :=
  List.NoDup (map models.username (rows file)).

End Database.

(** ** routers/dmer.py: the bulk campaign *)

Module campaigns.

(** [DMCampaignStatus]; an entry of [errors] is a small dictionary. *)
Record DMCampaignStatus : Type := {
  campaign_id : string;
  total_messages : Z;
  sent_messages : Z;
  failed_messages : Z;
  status : string;
  errors : list (list (string * PyVal));
  start_time : Z;
  end_time : option Z
}.

Definition count_sent (c : DMCampaignStatus) : DMCampaignStatus :=
  {| campaign_id := campaign_id c; total_messages := total_messages c;
     sent_messages := sent_messages c + 1; failed_messages := failed_messages c;
     status := status c; errors := errors c;
     start_time := start_time c; end_time := end_time c |}.

Definition count_failed (c : DMCampaignStatus) : DMCampaignStatus :=
  {| campaign_id := campaign_id c; total_messages := total_messages c;
     sent_messages := sent_messages c; failed_messages := failed_messages c + 1;
     status := status c; errors := errors c;
     start_time := start_time c; end_time := end_time c |}.

Definition append_error (entry : list (string * PyVal)) (c : DMCampaignStatus)
  : DMCampaignStatus :=
  {| campaign_id := campaign_id c; total_messages := total_messages c;
     sent_messages := sent_messages c; failed_messages := failed_messages c;
     status := status c; errors := errors c ++ [entry];
     start_time := start_time c; end_time := end_time c |}.

Definition finish (new_status : string) (now : Z) (c : DMCampaignStatus) : DMCampaignStatus :=
  {| campaign_id := campaign_id c; total_messages := total_messages c;
     sent_messages := sent_messages c; failed_messages := failed_messages c;
     status := new_status; errors := errors c;
     start_time := start_time c; end_time := Some now |}.

End campaigns.

Section Bulk.
Context {env : Collaborators} {services : Services}.
Import campaigns.

(** The gateway beside the campaigns the router keeps in memory. *)
Record Backend : Type := mkBackend {
  gateway : Sessions;
  active_campaigns : gmap string DMCampaignStatus
}.

Definition B (A : Type) : Type := Backend -> flow A * Backend.

#[global] Instance B_ret : MRet B := fun A (a : A) s => (Ok a, s).

#[global] Instance B_bind : MBind B := fun A B' (k : A -> B B') (c : B A) s =>
  match c s with
  | (Ok a, s') => k a s'
  | (Raise b, s') => (Raise b, s')
  end.

Definition b_try {A : Type} (body : B A) (handler : exn -> B A) : B A := fun s =>
  match body s with
  | (Ok a, s') => (Ok a, s')
  | (Raise (Exception e), s') => handler e s'
  | (Raise b, s') => (Raise b, s')
  end.

Definition b_raise {A : Type} (e : exn) : B A := fun s => (Raise (Exception e), s).
Definition b_lift {A : Type} (o : outcome A) : B A := fun s => (as_flow o, s).
Definition b_gets {A : Type} (f : Backend -> A) : B A := fun s => (Ok (f s), s).

(** A computation of the gateway, and one of the core, run in the backend. *)
Definition on_gateway {A : Type} (c : G A) : B A := fun s =>
  let (r, g) := c (gateway s) in (r, mkBackend g (active_campaigns s)).
Definition in_core {A : Type} (c : M A) : B A := on_gateway (on_core c).

(** A mutation of the campaign object; the object is the one the
    dictionary holds under [campaign_id]. *)
Definition mutate (campaign_id : string) (f : DMCampaignStatus -> DMCampaignStatus) : B unit :=
  fun s =>
    (Ok tt, mkBackend (gateway s)
                      (match active_campaigns s !! campaign_id with
                       | Some c => <[campaign_id := f c]> (active_campaigns s)
                       | None => active_campaigns s
                       end)).

Fixpoint b_for_each {A : Type} (l : list A) (body : A -> B unit) : B unit :=
  match l with
  | [] => mret tt
  | x :: l' => body x ;; b_for_each l' body
  end.

(** [recipient[key]] *)
Definition dict_index (d : list (string * PyVal)) (key : string) : outcome PyVal :=
  match PyDict.get key d with
  | Some v => Ok v
  | None => Raise (KeyError ("'" +:+ key +:+ "'"))
  end.

(** An [Optional[str]] as a value of a dictionary. *)
Definition opt_val (o : option string) : PyVal :=
  match o with
  | Some s => PyStr s
  | None => PyNone
  end.

(** The body of the [for] loop of [process_bulk_dms] for one recipient. *)
Definition process_recipient (campaign_id username content : string)
           (recipient : list (string * PyVal)) : B unit :=
  b_try
    (let message := FileParser.process_template_variables content recipient in
     target ← b_lift (dict_index recipient "username");
     '(success, error) ← in_core (send_dm username (py_str target) message);
     if success : bool then mutate campaign_id count_sent
     else
       mutate campaign_id count_failed ;;
       target' ← b_lift (dict_index recipient "username");
       mutate campaign_id
         (append_error [("username", target'); ("error", opt_val error)]))
    (fun e =>
       mutate campaign_id count_failed ;;
       target ← b_lift (dict_index recipient "username");
       mutate campaign_id
         (append_error [("username", target); ("error", PyStr (exn_str e))])).

(** [process_bulk_dms], the body of the function.  (The annotation
    [template: Template] of its signature names a class that
    routers/dmer.py does not import; the body is what runs wherever the
    module loads.)  Neither [login] nor [send_dm] suspends, so no other task
    runs while a campaign is processed and the campaign object stays the
    entry the dictionary holds under [campaign_id]. *)
Definition process_bulk_dms (campaign_id : string) (recipients : list (list (string * PyVal)))
           (template : Template) (instagram_account_username : option string) : B unit :=
  b_try
    (campaign ← b_gets (fun s => active_campaigns s !! campaign_id);
     match campaign with
     | None => b_raise (KeyError ("'" +:+ campaign_id +:+ "'"))
     | Some _ =>
         username ←
           (if str_truthy instagram_account_username
            then mret (opt_str instagram_account_username)
            else
              accounts ← in_core (oracle db_list_accounts);
              match accounts with
              | [] => b_raise (OtherException "No Instagram accounts available")
              | first :: _ => mret (models.username first)
              end);
         account ← in_core (oracle (db_get_account username));
         match account with
         | None => b_raise (OtherException ("Account " +:+ username +:+ " not found"))
         | Some account =>
             '(success, error) ← on_gateway (login account);
             if success : bool then
               b_for_each recipients
                 (process_recipient campaign_id username (content template)) ;;
               now ← in_core (oracle_total datetime_now);
               mutate campaign_id (finish "completed" now)
             else
               b_raise (OtherException
                          ("Failed to login as " +:+ username +:+ ": " +:+ opt_str error))
         end
     end)
    (fun e =>
       in_core (logger_error ("Campaign " +:+ campaign_id +:+ " failed: " +:+ exn_str e)) ;;
       present ← b_gets (fun s => active_campaigns s !! campaign_id);
       match present with
       | Some _ =>
           now ← in_core (oracle_total datetime_now);
           mutate campaign_id (finish "failed" now) ;;
           mutate campaign_id (append_error [("error", PyStr (exn_str e))])
       | None => mret tt
       end).

End Bulk.

(** ** A small concrete world, used to run the model *)

Module Demo.

Definition opens : Message :=
  {[ "thread_id" := PyStr "t1"; "sender_id" := PyStr "u9";
     "text" := PyStr "What time do you open?" ]}.

Definition great : Message :=
  {[ "thread_id" := PyStr "t2"; "sender_id" := PyStr "u7";
     "text" := PyStr "Great store!" ]}.

Definition hello : Message :=
  {[ "thread_id" := PyStr "t3"; "text" := PyStr "Hello" ]}.

(** A media message: instagrapi gives it no text. *)
Definition photo : Message :=
  {[ "thread_id" := PyStr "t4"; "text" := PyNone ]}.

(** A dictionary without the ['text'] key. *)
Definition bare : Message := {[ "thread_id" := PyStr "t5" ]}.

(** A dictionary without the ['thread_id'] key. *)
Definition orphan : Message := {[ "text" := PyStr "Hi" ]}.

Definition template (tid content : string) : Template :=
  {| tpl_id := Some tid; tpl_name := tid; content := content; variables := [] |}.

Definition store (template_id : option string) : option Template :=
  match template_id with
  | Some tid =>
      if String.eqb tid "T1" then Some (template "T1" "Thanks for asking!")
      else if String.eqb tid "T2" then Some (template "T2" "AI:be concise")
      else if String.eqb tid "T3" then Some (template "T3" "ai:be concise")
      else if String.eqb tid "T4" then Some (template "T4" "Ai:be concise")
      else None
  | None => None
  end.

(** The world is the clock, in microseconds.  The gateway fails for
    [shop_a], delivers two messages to [shop_b] and none to the others; the
    generator answers only the text [Hello]; another task calls [stop] once
    100 seconds have gone, and none cancels the loop.  The strings of this
    world are ASCII. *)
Definition env : Collaborators := {|
  World := Z;
  str_lower := PyStr.lower_ascii;
  str_lower_empty := eq_refl;
  str_lower_nonempty := PyStr.lower_ascii_nonempty;
  datetime_now := fun w => (w, w + 5000000);
  ig_unseen_messages := fun username w =>
    if String.eqb username "shop_a" then (Raise (OtherException "connection reset"), w + 1000000)
    else if String.eqb username "shop_b" then (Ok [opens; great], w + 1000000)
    else (Ok [], w + 1000000);
  ig_direct_answer := fun _ _ _ w => (Ok tt, w + 30000000);
  groq_intent := fun _ w => (Ok (PyStr "question"), w + 1000000);
  groq_response := fun text _ w =>
    match text with
    | PyStr s => if String.eqb s "Hello" then (Ok (Some "Thanks!"), w + 1000000)
                 else (Ok None, w + 1000000)
    | _ => (Ok None, w + 1000000)
    end;
  db_get_template := fun template_id w => (Ok (store template_id), w);
  pending_controls := fun w =>
    if 100000000 <=? w then ([CtlStop], w) else ([], w + 60000000);
  task_cancelled := fun w => (false, w)
|}.

Definition config (template_id : string) (conditions : list (string * string))
  : AutoReplyConfig :=
  {| is_enabled := true; template_id := Some template_id; conditions := conditions |}.

Definition disabled : AutoReplyConfig :=
  {| is_enabled := false; template_id := None; conditions := [] |}.

(** A fresh manager, three accounts logged in. *)
Definition fresh : State (env := env) :=
  init (env := env) ({[ "shop_a" ]} ∪ {[ "shop_b" ]} ∪ {[ "shop_c" ]}) 0.

(** The three accounts configured, [shop_a] first. *)
Definition configured : State (env := env) :=
  exec (update_config "shop_a" (config "T1" []) ;;
        update_config "shop_b" (config "T1" [("ends_with", "?")]) ;;
        update_config "shop_c" (config "T2" [])) fresh.

(** The state after one tick. *)
Definition polled : State (env := env) := exec _check_new_messages configured.

(** A tick that fails outside every inner guard. *)
Definition failing_tick : M (env := env) unit :=
  fun st => (Raise (Exception (OtherException "dictionary changed size during iteration")),
             st).

End Demo.

(** ** The concrete world, with accounts and a campaign *)

Module Backstage.
Import campaigns.

Definition account (username password : string) : models.InstagramAccount :=
  {| models.username := username; models.password := password;
     models.is_active := true; models.last_login := None;
     models.login_status := "pending"; models.error_message := None |}.

(** The accounts file: [shop_a] with the right password, [shop_b] with a
    wrong one. *)
Definition accounts_file : Database.JsonFile models.InstagramAccount :=
  Database.Object (Some [account "shop_a" "secret"; account "shop_b" "wrong"]).

(** The library accepts the password [secret] only, cannot log [shop_a]
    out, and knows no user [ghost]; the store reads [accounts_file]. *)
Definition services : Services (env := Demo.env) :=
  @Build_Services Demo.env
    (fun _ (w : Z) => (Ok tt, w))
    (fun _ password (w : Z) =>
       if String.eqb password "secret" then (Ok tt, w + 2000000)
       else (Raise (OtherException "bad password"), w + 2000000))
    (fun username (w : Z) =>
       if String.eqb username "shop_a" then (Raise (OtherException "connection reset"), w)
       else (Ok tt, w + 1000000))
    (fun _ target _ (w : Z) =>
       if String.eqb target "ghost" then (Raise (OtherException "User not found"), w + 1000000)
       else (Ok tt, w + 1000000))
    (fun username (w : Z) => (Ok (Database.get_account username accounts_file), w))
    (fun (w : Z) => (Ok (Database.list_accounts accounts_file), w)).

(** The gateway before any login, and with [shop_b] locked out. *)
Definition sessions : Sessions (env := Demo.env) := mkSessions Demo.configured ∅.

Definition locked : Sessions (env := Demo.env) :=
  mkSessions Demo.configured {[ "shop_b" := 3 ]}.

Definition campaign : DMCampaignStatus :=
  {| campaign_id := "c1"; total_messages := 2; sent_messages := 0; failed_messages := 0;
     status := "running"; errors := []; start_time := 0; end_time := None |}.

Definition ann : list (string * PyVal) := [("username", PyStr "ann"); ("Name", PyStr "Ann")].
Definition ghost : list (string * PyVal) := [("username", PyStr "ghost"); ("Name", PyStr "Bo")].
Definition nameless : list (string * PyVal) := [("Name", PyStr "Cy")].

Definition greeting : Template := Demo.template "T5" "Hi {name}!".

Definition backend : Backend (env := Demo.env) := mkBackend sessions {[ "c1" := campaign ]}.

(** The manager running, late enough for the other task to call [stop]. *)
Definition late : State (env := Demo.env) :=
  set_world (env := Demo.env) 100000000 (set_is_running true Demo.configured).

(** [Demo.env] with another intent analysis, template store and
    cancellation. *)
Definition world_with (intent : PyVal -> Z -> flow PyVal * Z)
           (lookup : option string -> Z -> outcome (option Template) * Z)
           (cancelled : Z -> bool * Z) : Collaborators :=
  @Build_Collaborators Z
    PyStr.lower_ascii eq_refl PyStr.lower_ascii_nonempty
    (@datetime_now Demo.env) (@ig_unseen_messages Demo.env) (@ig_direct_answer Demo.env)
    intent (@groq_response Demo.env) lookup (@pending_controls Demo.env) cancelled.

(** A world whose store holds one template, with no content. *)
Definition blank_store : Collaborators :=
  world_with (@groq_intent Demo.env)
             (fun _ (w : Z) => (Ok (Some (Demo.template "T0" "")), w))
             (@task_cancelled Demo.env).

Definition blank : State (env := blank_store) := init (env := blank_store) ∅ 0.

(** A world in which the completion of the intent analysis is [exit()]:
    [eval] raises [SystemExit]. *)
Definition exit_world : Collaborators :=
  world_with (fun _ (w : Z) => (Raise (SystemExit "None"), w + 1000000))
             (@db_get_template Demo.env) (@task_cancelled Demo.env).

(** In that world: [shop_b], whose template asks for a generated reply,
    ahead of [shop_c]; both have a session. *)
Definition generating : State (env := exit_world) :=
  exec (update_config "shop_b" (Demo.config "T2" []) ;;
        update_config "shop_c" (Demo.config "T1" []))
       (init (env := exit_world) ({[ "shop_b" ]} ∪ {[ "shop_c" ]}) 0).

(** A world in which the task of the loop is cancelled during its first
    sleep, and a manager with no account in it. *)
Definition cancelling_world : Collaborators :=
  world_with (@groq_intent Demo.env) (@db_get_template Demo.env)
             (fun (w : Z) => (true, w)).

Definition idle : State (env := cancelling_world) := init (env := cancelling_world) ∅ 0.

End Backstage.

(** ** Strings *)

Section StringFacts.
Import PyStr.

Lemma startswith_spec (s p : string) : startswith s p = true <-> is_prefix p s.
Proof.
  revert s. induction p as [|c p IH]; intros s; simpl.
  - split; [intros _; exists s; reflexivity | reflexivity].
  - destruct s as [|d s]; simpl.
    + split; [discriminate | intros [b Hb]; discriminate].
    + rewrite andb_true_iff, IH, Ascii.eqb_eq. split.
      * intros [-> [b ->]]. exists b. reflexivity.
      * intros [b Hb]. simpl in Hb. inversion Hb; subst.
        split; [reflexivity | exists b; reflexivity].
Qed.

Lemma endswith_spec (s p : string) : endswith s p = true <-> is_suffix p s.
Proof.
  induction s as [|d s IH]; cbn [endswith].
  - rewrite orb_false_r, String.eqb_eq. split.
    + intros <-. exists "". reflexivity.
    + intros [a Ha]. destruct a; simpl in Ha; [exact Ha | discriminate].
  - rewrite orb_true_iff, IH, String.eqb_eq. split.
    + intros [<- | [a ->]]; [exists "" | exists (String d a)]; reflexivity.
    + intros [a Ha]. destruct a as [|c a]; simpl in Ha.
      * left. exact Ha.
      * right. inversion Ha; subst. exists a. reflexivity.
Qed.

Lemma contains_spec (s p : string) : contains s p = true <-> is_substring p s.
Proof.
  induction s as [|d s IH].
  - cbn [contains]. rewrite orb_false_r, startswith_spec. split.
    + intros [b Hb]. exists "", b. exact Hb.
    + intros [a [b Hab]]. destruct a; simpl in Hab; [exists b; exact Hab | discriminate].
  - cbn [contains]. rewrite orb_true_iff, IH, startswith_spec. split.
    + intros [[b Hb] | [a [b ->]]]; [exists "", b; exact Hb | exists (String d a), b; reflexivity].
    + intros [a [b Hab]]. destruct a as [|c a]; simpl in Hab.
      * left. exists b. exact Hab.
      * right. inversion Hab; subst. exists a, b. reflexivity.
Qed.

Lemma startswith_drop (s p : string) :
  startswith s p = true -> s = p +:+ drop (String.length p) s.
Proof.
  revert s. induction p as [|c p IH]; intros s H; simpl in *.
  - destruct s; reflexivity.
  - destruct s as [|d s]; [discriminate |].
    apply andb_true_iff in H as [Hc Hp]. apply Ascii.eqb_eq in Hc. subst d.
    transitivity (String c (p +:+ drop (String.length p) s)); [| reflexivity].
    f_equal. apply IH, Hp.
Qed.

End StringFacts.

(** ** Effects of the building blocks *)

Section Effects.
Context {env : Collaborators}.

Lemma bind_ok {A B : Type} (c : M A) (k : A -> M B) (st st' : State) (a : A) :
  c st = (Ok a, st') -> (c ≫= k) st = k a st'.
Proof. intros H. unfold mbind, M_bind. rewrite H. reflexivity. Qed.

Lemma bind_raise {A B : Type} (c : M A) (k : A -> M B) (st st' : State)
      (b : BaseException) :
  c st = (Raise b, st') -> (c ≫= k) st = (Raise b, st').
Proof. intros H. unfold mbind, M_bind. rewrite H. reflexivity. Qed.

Lemma try_ok {A : Type} (body : M A) (h : exn -> M A) (st st' : State) (a : A) :
  body st = (Ok a, st') -> try_except body h st = (Ok a, st').
Proof. intros H. unfold try_except. rewrite H. reflexivity. Qed.

Lemma try_raise {A : Type} (body : M A) (h : exn -> M A) (st st' : State) (e : exn) :
  body st = (Raise (Exception e), st') -> try_except body h st = h e st'.
Proof. intros H. unfold try_except. rewrite H. reflexivity. Qed.

Lemma try_escape {A : Type} (body : M A) (h : exn -> M A) (st st' : State)
      (b : BaseException) :
  escapes b = true -> body st = (Raise b, st') -> try_except body h st = (Raise b, st').
Proof.
  intros Hb H. unfold try_except. rewrite H. destruct b; [discriminate | reflexivity ..].
Qed.

(** A [try] whose body raises no instance of [Exception] is its body. *)
Lemma try_pass {A : Type} (body : M A) (h : exn -> M A) (st : State) :
  (forall e : exn, result body st <> Raise (Exception e)) ->
  try_except body h st = body st.
Proof.
  intros H. unfold try_except, result in *.
  destruct (body st) as [[a|[e| | |]] st1]; try reflexivity.
  exfalso. apply (H e). reflexivity.
Qed.

(** *** [keeps] *)

Lemma keeps_ret {A B : Type} (f : State -> B) (a : A) : keeps f (mret a).
Proof. intros st. reflexivity. Qed.

Lemma keeps_bind {A B C : Type} (f : State -> C) (c : M A) (k : A -> M B) :
  keeps f c -> (forall a, keeps f (k a)) -> keeps f (c ≫= k).
Proof.
  intros Hc Hk st. unfold exec, mbind, M_bind. specialize (Hc st). unfold exec in Hc.
  destruct (c st) as [[a|e] st1]; simpl in *; [| exact Hc].
  rewrite <- Hc. apply Hk.
Qed.

Lemma keeps_try {A C : Type} (f : State -> C) (body : M A) (h : exn -> M A) :
  keeps f body -> (forall e, keeps f (h e)) -> keeps f (try_except body h).
Proof.
  intros Hc Hk st. unfold exec, try_except. specialize (Hc st). unfold exec in Hc.
  destruct (body st) as [[a|[e| | |]] st1]; simpl in *; try exact Hc.
  rewrite <- Hc. apply Hk.
Qed.

Lemma keeps_lift {A C : Type} (f : State -> C) (o : outcome A) : keeps f (lift_outcome o).
Proof. intros st. reflexivity. Qed.

Lemma keeps_gets {A C : Type} (f : State -> C) (g : State -> A) : keeps f (gets g).
Proof. intros st. reflexivity. Qed.

Lemma keeps_modify {C : Type} (f : State -> C) (g : State -> State) :
  (forall st, f (g st) = f st) -> keeps f (modify g).
Proof. intros H st. apply H. Qed.

Lemma keeps_emit {C : Type} (f : State -> C) (ev : Event) : internal f -> keeps f (emit ev).
Proof. intros [_ H] st. apply H. Qed.

Lemma keeps_oracle {A C : Type} (f : State -> C) (g : World -> outcome A * World) :
  internal f -> keeps f (oracle g).
Proof. intros [H _] st. unfold exec, oracle. destruct (g (world st)). apply H. Qed.

Lemma keeps_oracle_any {A C : Type} (f : State -> C) (g : World -> flow A * World) :
  internal f -> keeps f (oracle_any g).
Proof. intros [H _] st. unfold exec, oracle_any. destruct (g (world st)). apply H. Qed.

Lemma keeps_raise {A C : Type} (f : State -> C) (b : BaseException) :
  keeps f (raise (A := A) b).
Proof. intros st. reflexivity. Qed.

Lemma keeps_oracle_total {A C : Type} (f : State -> C) (g : World -> A * World) :
  internal f -> keeps f (oracle_total g).
Proof. intros [H _] st. unfold exec, oracle_total. destruct (g (world st)). apply H. Qed.

Lemma keeps_for_each {A C : Type} (f : State -> C) (l : list A) (body : A -> M unit) :
  (forall x, In x l -> keeps f (body x)) -> keeps f (for_each l body).
Proof.
  induction l as [|x l IH]; intros H; simpl.
  - apply keeps_ret.
  - apply keeps_bind; [apply H; left; reflexivity |].
    intros _. apply IH. intros y Hy. apply H. right. exact Hy.
Qed.

(** *** [only_emits] *)

Lemma only_emits_ret {A : Type} (P : Event -> Prop) (a : A) : only_emits P (mret a).
Proof. intros st. exists []. split; [symmetry; apply app_nil_r | constructor]. Qed.

Lemma only_emits_bind {A B : Type} (P : Event -> Prop) (c : M A) (k : A -> M B) :
  only_emits P c -> (forall a, only_emits P (k a)) -> only_emits P (c ≫= k).
Proof.
  intros Hc Hk st. unfold exec, mbind, M_bind. specialize (Hc st). unfold exec in Hc.
  destruct (c st) as [[a|e] st1]; simpl in *; [| exact Hc].
  destruct Hc as [evs [Ht HP]]. destruct (Hk a st1) as [evs' [Ht' HP']].
  exists (evs ++ evs'). split.
  - unfold exec in Ht'. rewrite Ht', Ht, app_assoc. reflexivity.
  - apply Forall_app. split; assumption.
Qed.

Lemma only_emits_try {A : Type} (P : Event -> Prop) (body : M A) (h : exn -> M A) :
  only_emits P body -> (forall e, only_emits P (h e)) -> only_emits P (try_except body h).
Proof.
  intros Hc Hk st. unfold exec, try_except. specialize (Hc st). unfold exec in Hc.
  destruct (body st) as [[a|[e| | |]] st1]; simpl in *; try exact Hc.
  destruct Hc as [evs [Ht HP]]. destruct (Hk e st1) as [evs' [Ht' HP']].
  exists (evs ++ evs'). split.
  - unfold exec in Ht'. rewrite Ht', Ht, app_assoc. reflexivity.
  - apply Forall_app. split; assumption.
Qed.

Lemma only_emits_silent {A : Type} (P : Event -> Prop) (c : M A) :
  keeps trace c -> only_emits P c.
Proof. intros H st. exists []. rewrite H, app_nil_r. split; [reflexivity | constructor]. Qed.

Lemma only_emits_emit (P : Event -> Prop) (ev : Event) : P ev -> only_emits P (emit ev).
Proof. intros H st. exists [ev]. split; [reflexivity | repeat constructor; exact H]. Qed.

Lemma only_emits_for_each {A : Type} (P : Event -> Prop) (l : list A) (body : A -> M unit) :
  (forall x, In x l -> only_emits P (body x)) -> only_emits P (for_each l body).
Proof.
  induction l as [|x l IH]; intros H; simpl.
  - apply only_emits_ret.
  - apply only_emits_bind; [apply H; left; reflexivity |].
    intros _. apply IH. intros y Hy. apply H. right. exact Hy.
Qed.

Lemma only_emits_weaken {A : Type} (P Q : Event -> Prop) (c : M A) :
  (forall ev, P ev -> Q ev) -> only_emits P c -> only_emits Q c.
Proof.
  intros HPQ H st. destruct (H st) as [evs [Ht HP]]. exists evs. split; [exact Ht |].
  eapply Forall_impl; eassumption.
Qed.

(** *** [never_raises] *)

Lemma never_raises_run {A : Type} (c : M A) (st : State) :
  never_raises c -> exists a, c st = (Ok a, exec c st).
Proof.
  intros H. destruct (H st) as [a Ha]. exists a. unfold result, exec in *.
  destruct (c st); simpl in *; subst; reflexivity.
Qed.

Lemma never_raises_ret {A : Type} (a : A) : never_raises (mret a).
Proof. intros st. exists a. reflexivity. Qed.

Lemma never_raises_bind {A B : Type} (c : M A) (k : A -> M B) :
  never_raises c -> (forall a, never_raises (k a)) -> never_raises (c ≫= k).
Proof.
  intros Hc Hk st. destruct (never_raises_run c st Hc) as [a Ha].
  unfold result. rewrite (bind_ok _ _ _ _ _ Ha). apply Hk.
Qed.

Lemma never_raises_try {A : Type} (body : M A) (h : exn -> M A) :
  contained body -> (forall e, never_raises (h e)) -> never_raises (try_except body h).
Proof.
  intros Hb Hh st. specialize (Hb st). unfold result, try_except in *.
  destruct (body st) as [[a|[e| | |]] st1]; try discriminate;
    [exists a; reflexivity | apply Hh].
Qed.

Lemma never_raises_gets {A : Type} (g : State -> A) : never_raises (gets g).
Proof. intros st. eexists. reflexivity. Qed.

Lemma never_raises_modify (g : State -> State) : never_raises (modify g).
Proof. intros st. eexists. reflexivity. Qed.

Lemma never_raises_emit (ev : Event) : never_raises (emit ev).
Proof. apply never_raises_modify. Qed.

Lemma never_raises_oracle_total {A : Type} (g : World -> A * World) :
  never_raises (oracle_total g).
Proof. intros st. unfold result, oracle_total. destruct (g (world st)). eexists. reflexivity. Qed.

Lemma never_raises_for_each {A : Type} (l : list A) (body : A -> M unit) :
  (forall x, never_raises (body x)) -> never_raises (for_each l body).
Proof.
  intros H. induction l as [|x l IH]; simpl.
  - apply never_raises_ret.
  - apply never_raises_bind; [apply H | intros _; exact IH].
Qed.

(** *** [contained] and [absorbs] *)

Lemma never_raises_contained {A : Type} (c : M A) : never_raises c -> contained c.
Proof. intros H st. destruct (H st) as [a Ha]. rewrite Ha. reflexivity. Qed.

Lemma never_raises_absorbs {A : Type} (c : M A) : never_raises c -> absorbs c.
Proof. intros H st e He. destruct (H st) as [a Ha]. rewrite Ha in He. discriminate. Qed.

Lemma contained_absorbs {A : Type} (c : M A) : contained c -> absorbs c -> never_raises c.
Proof.
  intros Hc Ha st. specialize (Hc st). specialize (Ha st).
  destruct (result c st) as [a|[e| | |]]; try discriminate.
  - exists a. reflexivity.
  - exfalso. apply (Ha e). reflexivity.
Qed.

Lemma contained_bind {A B : Type} (c : M A) (k : A -> M B) :
  contained c -> (forall a, contained (k a)) -> contained (c ≫= k).
Proof.
  intros Hc Hk st. specialize (Hc st). unfold result, mbind, M_bind in *.
  destruct (c st) as [[a|b] st1]; [apply Hk | exact Hc].
Qed.

Lemma contained_try {A : Type} (body : M A) (h : exn -> M A) :
  contained body -> (forall e, contained (h e)) -> contained (try_except body h).
Proof.
  intros Hb Hh st. specialize (Hb st). unfold result, try_except in *.
  destruct (body st) as [[a|[e| | |]] st1]; try discriminate; [reflexivity | apply Hh].
Qed.

Lemma contained_lift {A : Type} (o : outcome A) : contained (lift_outcome o).
Proof. intros st. destruct o; reflexivity. Qed.

Lemma contained_oracle {A : Type} (g : World -> outcome A * World) : contained (oracle g).
Proof.
  intros st. unfold result, oracle. destruct (g (world st)) as [[a|e] w]; reflexivity.
Qed.

Lemma contained_oracle_any {A : Type} (g : World -> flow A * World) :
  (forall w, escaped (fst (g w)) = false) -> contained (oracle_any g).
Proof.
  intros H st. specialize (H (world st)). unfold result, oracle_any.
  destruct (g (world st)) as [r w]. exact H.
Qed.

Lemma contained_for_each {A : Type} (l : list A) (body : A -> M unit) :
  (forall x, contained (body x)) -> contained (for_each l body).
Proof.
  intros H. induction l as [|x l IH]; simpl.
  - apply never_raises_contained, never_raises_ret.
  - apply contained_bind; [apply H | intros _; exact IH].
Qed.

Lemma absorbs_bind {A B : Type} (c : M A) (k : A -> M B) :
  absorbs c -> (forall a, absorbs (k a)) -> absorbs (c ≫= k).
Proof.
  intros Hc Hk st e. specialize (Hc st e). unfold result, mbind, M_bind in *.
  destruct (c st) as [[a|b] st1]; [apply Hk |].
  cbn [fst] in *. intros H. apply Hc. inversion H; subst. reflexivity.
Qed.

Lemma absorbs_try {A : Type} (body : M A) (h : exn -> M A) :
  (forall e, absorbs (h e)) -> absorbs (try_except body h).
Proof.
  intros Hh st e. unfold result, try_except.
  destruct (body st) as [[a|[e'| | |]] st1]; try discriminate. apply Hh.
Qed.

Lemma absorbs_oracle_any {A : Type} (g : World -> flow A * World) (h : exn -> M A) :
  (forall e, absorbs (h e)) -> absorbs (try_except (oracle_any g) h).
Proof. apply absorbs_try. Qed.

Lemma absorbs_raise {A : Type} (b : BaseException) :
  escapes b = true -> absorbs (raise (A := A) b).
Proof. intros Hb st e He. inversion He; subst. discriminate. Qed.

Lemma absorbs_for_each {A : Type} (l : list A) (body : A -> M unit) :
  (forall x, absorbs (body x)) -> absorbs (for_each l body).
Proof.
  intros H. induction l as [|x l IH]; simpl.
  - apply never_raises_absorbs, never_raises_ret.
  - apply absorbs_bind; [apply H | intros _; exact IH].
Qed.

(** How a computation that absorbs ends: it returns or it is left by an
    exception outside [Exception]. *)
Lemma absorbs_run {A : Type} (c : M A) (st : State) :
  absorbs c ->
  (exists a, c st = (Ok a, exec c st)) \/
  (exists b, escapes b = true /\ c st = (Raise b, exec c st)).
Proof.
  intros H. specialize (H st). unfold result, exec in *.
  destruct (c st) as [[a|[e| | |]] st1]; cbn [fst snd] in *.
  - left. eexists. reflexivity.
  - exfalso. apply (H e). reflexivity.
  - right. eexists. split; [| reflexivity]. reflexivity.
  - right. eexists. split; [| reflexivity]. reflexivity.
  - right. eexists. split; [| reflexivity]. reflexivity.
Qed.


End Effects.

(** ** Effects of the wrappers and of the manager's methods *)

Ltac fx_step :=
  match goal with
  | |- internal _ => split; intros; reflexivity
  | |- keeps _ (mret _) => apply keeps_ret
  | |- keeps _ (_ ≫= _) => apply keeps_bind; [| intros ?]
  | |- keeps _ (try_except _ _) => apply keeps_try; [| intros ?]
  | |- keeps _ (lift_outcome _) => apply keeps_lift
  | |- keeps _ (gets _) => apply keeps_gets
  | |- keeps _ (emit _) => apply keeps_emit
  | |- keeps _ (oracle _) => apply keeps_oracle
  | |- keeps _ (oracle_total _) => apply keeps_oracle_total
  | |- keeps _ (oracle_any _) => apply keeps_oracle_any
  | |- keeps _ (raise _) => apply keeps_raise
  | |- keeps _ (for_each _ _) => apply keeps_for_each; intros ? ?
  | |- keeps _ (modify _) => apply keeps_modify; intros ?
  | |- only_emits _ (mret _) => apply only_emits_ret
  | |- only_emits _ (_ ≫= _) => apply only_emits_bind; [| intros ?]
  | |- only_emits _ (try_except _ _) => apply only_emits_try; [| intros ?]
  | |- only_emits _ (emit _) => apply only_emits_emit
  | |- only_emits _ (for_each _ _) => apply only_emits_for_each; intros ? ?
  | |- only_emits _ (lift_outcome _) => apply only_emits_silent, keeps_lift
  | |- only_emits _ (gets _) => apply only_emits_silent, keeps_gets
  | |- only_emits _ (oracle _) =>
      apply only_emits_silent; intros ?; unfold exec, oracle;
      match goal with |- context [let (_, _) := ?x in _] => destruct x end; reflexivity
  | |- only_emits _ (oracle_total _) =>
      apply only_emits_silent; intros ?; unfold exec, oracle_total;
      match goal with |- context [let (_, _) := ?x in _] => destruct x end; reflexivity
  | |- only_emits _ (oracle_any _) =>
      apply only_emits_silent; intros ?; unfold exec, oracle_any;
      match goal with |- context [let (_, _) := ?x in _] => destruct x end; reflexivity
  | |- only_emits _ (raise _) => apply only_emits_silent, keeps_raise
  | |- only_emits _ (modify _) => apply only_emits_silent, keeps_modify; intros ?
  | |- never_raises (mret _) => apply never_raises_ret
  | |- never_raises (_ ≫= _) => apply never_raises_bind; [| intros ?]
  | |- never_raises (try_except _ _) => apply never_raises_try; [| intros ?]
  | |- never_raises (gets _) => apply never_raises_gets
  | |- never_raises (modify _) => apply never_raises_modify
  | |- never_raises (emit _) => apply never_raises_emit
  | |- never_raises (oracle_total _) => apply never_raises_oracle_total
  | |- never_raises (for_each _ _) => apply never_raises_for_each; intros ?
  | |- contained (_ ≫= _) => apply contained_bind; [| intros ?]
  | |- contained (try_except _ _) => apply contained_try; [| intros ?]
  | |- contained (lift_outcome _) => apply contained_lift
  | |- contained (oracle _) => apply contained_oracle
  | |- contained (oracle_any _) => apply contained_oracle_any; intros ?
  | |- contained (for_each _ _) => apply contained_for_each; intros ?
  | |- contained (mret _) => apply never_raises_contained, never_raises_ret
  | |- contained (gets _) => apply never_raises_contained, never_raises_gets
  | |- contained (modify _) => apply never_raises_contained, never_raises_modify
  | |- contained (emit _) => apply never_raises_contained, never_raises_emit
  | |- contained (oracle_total _) => apply never_raises_contained, never_raises_oracle_total
  | |- absorbs (_ ≫= _) => apply absorbs_bind; [| intros ?]
  | |- absorbs (try_except _ _) => apply absorbs_try; intros ?
  | |- absorbs (for_each _ _) => apply absorbs_for_each; intros ?
  | |- absorbs (raise _) => apply absorbs_raise; reflexivity
  | |- absorbs (mret _) => apply never_raises_absorbs, never_raises_ret
  | |- absorbs (gets _) => apply never_raises_absorbs, never_raises_gets
  | |- absorbs (modify _) => apply never_raises_absorbs, never_raises_modify
  | |- absorbs (emit _) => apply never_raises_absorbs, never_raises_emit
  | |- absorbs (oracle_total _) => apply never_raises_absorbs, never_raises_oracle_total
  | |- _ (if ?b then _ else _) => destruct b
  | |- _ _ (if ?b then _ else _) => destruct b
  | |- _ (match ?x with _ => _ end) => destruct x
  | |- _ _ (match ?x with _ => _ end) => destruct x
  end.

Ltac fx := unfold logger_error, logger_info; repeat fx_step; auto.

Section MethodEffects.
Context {env : Collaborators}.

Lemma keeps_check_new_messages {C : Type} (f : State -> C) (username : string) :
  internal f -> keeps f (check_new_messages username).
Proof. intros Hf. unfold check_new_messages. fx. Qed.

Lemma keeps_send_auto_reply {C : Type} (f : State -> C) username thread_id message :
  internal f -> keeps f (send_auto_reply username thread_id message).
Proof. intros Hf. unfold send_auto_reply. fx. Qed.

Lemma keeps_get_reply_template {C : Type} (f : State -> C) template_id message :
  internal f -> keeps f (_get_reply_template template_id message).
Proof.
  intros Hf. unfold _get_reply_template, get_template, analyze_message_intent,
    generate_dm_response. fx.
Qed.

Lemma keeps_should_reply {C : Type} (f : State -> C) message config :
  internal f -> keeps f (_should_reply message config).
Proof. intros Hf. unfold _should_reply. fx. Qed.

Lemma keeps_process_message {C : Type} (f : State -> C) username message config :
  internal f -> keeps f (_process_message username message config).
Proof.
  intros Hf. unfold _process_message, process_message_body. fx;
    auto using keeps_should_reply, keeps_get_reply_template, keeps_send_auto_reply.
Qed.

Lemma keeps_check_account {C : Type} (f : State -> C) username config :
  internal f ->
  (forall now st, f (set_last_check_times (<[username := now]> (last_check_times st)) st) = f st) ->
  keeps f (check_account username config).
Proof.
  intros Hf Hc. unfold check_account. fx;
    auto using keeps_check_new_messages, keeps_process_message.
Qed.

Lemma keeps_tick {C : Type} (f : State -> C) :
  internal f ->
  (forall d st, f (set_last_check_times d st) = f st) ->
  keeps f _check_new_messages.
Proof.
  intros Hf Hc. unfold _check_new_messages. fx. apply keeps_check_account; auto.
Qed.

Lemma keeps_update_config {C : Type} (f : State -> C) username config :
  internal f ->
  (forall d st, f (set_active_configs d st) = f st) ->
  keeps f (update_config username config).
Proof. intros Hf Hc. unfold update_config. fx. Qed.

Lemma only_emits_check_new_messages (P : Event -> Prop) username :
  P (CallCheckNewMessages username) -> (forall ev, no_poll ev -> P ev) ->
  only_emits P (check_new_messages username).
Proof. intros H1 H2. unfold check_new_messages. fx; apply H2; exact I. Qed.

Lemma only_emits_process_message (P : Event -> Prop) username message config :
  (forall ev, no_poll ev -> P ev) ->
  only_emits P (_process_message username message config).
Proof.
  intros H.
  unfold _process_message, process_message_body, _should_reply, _get_reply_template,
    get_template, analyze_message_intent, generate_dm_response, send_auto_reply.
  fx; apply H; exact I.
Qed.

Lemma only_emits_check_account (P : Event -> Prop) username config :
  P (CallCheckNewMessages username) -> (forall ev, no_poll ev -> P ev) ->
  only_emits P (check_account username config).
Proof.
  intros H1 H2. unfold check_account.
  fx; auto using only_emits_check_new_messages, only_emits_process_message.
  apply H2; exact I.
Qed.


Lemma never_raises_send_auto_reply username thread_id message :
  never_raises (send_auto_reply username thread_id message).
Proof. unfold send_auto_reply. fx. Qed.

Lemma never_raises_generate_dm_response text context :
  never_raises (generate_dm_response text context).
Proof. unfold generate_dm_response. fx. Qed.

Lemma never_raises_should_reply message config : never_raises (_should_reply message config).
Proof. unfold _should_reply. fx. Qed.

Lemma never_raises_update_config username config : never_raises (update_config username config).
Proof. unfold update_config. fx. Qed.

Lemma never_raises_stop : never_raises stop.
Proof. unfold stop. fx. Qed.

Lemma never_raises_deliver (c : Control) : never_raises (deliver c).
Proof. destruct c; [apply never_raises_stop | apply never_raises_update_config]. Qed.

(** No instance of [Exception] leaves the guarded methods, whatever the
    world does. *)

Lemma absorbs_analyze_message_intent text : absorbs (analyze_message_intent text).
Proof. unfold analyze_message_intent. fx. Qed.

Lemma absorbs_get_reply_template template_id message :
  absorbs (_get_reply_template template_id message).
Proof. unfold _get_reply_template. fx. Qed.

Lemma absorbs_process_message username message config :
  absorbs (_process_message username message config).
Proof. unfold _process_message. fx. Qed.

Lemma absorbs_check_account username config : absorbs (check_account username config).
Proof. unfold check_account. fx. Qed.

Lemma absorbs_tick : absorbs _check_new_messages.
Proof. unfold _check_new_messages. fx. apply absorbs_check_account. Qed.

Lemma absorbs_asyncio_sleep seconds : absorbs (asyncio_sleep seconds).
Proof.
  unfold asyncio_sleep. fx; apply never_raises_absorbs, never_raises_deliver.
Qed.

(** In a world whose intent analysis raises instances of [Exception] only,
    the resolver, the processing of a message, the check of an account and
    the tick return normally. *)

Lemma contained_analyze_message_intent text :
  generator_contained -> contained (analyze_message_intent text).
Proof. intros Hgen. unfold analyze_message_intent. fx. Qed.

Lemma never_raises_analyze_message_intent text :
  generator_contained -> never_raises (analyze_message_intent text).
Proof.
  intros Hgen. apply contained_absorbs;
    [apply contained_analyze_message_intent, Hgen | apply absorbs_analyze_message_intent].
Qed.

Lemma contained_get_reply_template template_id message :
  generator_contained -> contained (_get_reply_template template_id message).
Proof.
  intros Hgen. unfold _get_reply_template, get_template. fx;
    auto using never_raises_contained, never_raises_analyze_message_intent,
      never_raises_generate_dm_response.
Qed.

Lemma never_raises_get_reply_template template_id message :
  generator_contained -> never_raises (_get_reply_template template_id message).
Proof.
  intros Hgen. apply contained_absorbs;
    [apply contained_get_reply_template, Hgen | apply absorbs_get_reply_template].
Qed.

Lemma contained_process_message_body username message config :
  generator_contained -> contained (process_message_body username message config).
Proof.
  intros Hgen. unfold process_message_body. fx;
    auto using never_raises_contained, never_raises_should_reply,
      never_raises_get_reply_template, never_raises_send_auto_reply.
Qed.

Lemma never_raises_process_message username message config :
  generator_contained -> never_raises (_process_message username message config).
Proof.
  intros Hgen. unfold _process_message. fx. apply contained_process_message_body, Hgen.
Qed.



Lemma never_raises_asyncio_sleep seconds :
  never_cancelled -> never_raises (asyncio_sleep seconds).
Proof.
  intros Hcalm. unfold asyncio_sleep.
  apply never_raises_bind; [fx |]. intros _.
  apply never_raises_bind; [fx |]. intros calls.
  apply never_raises_bind; [fx; apply never_raises_deliver |]. intros _.
  intros st. unfold result, mbind, M_bind, oracle_total.
  specialize (Hcalm (world st)). destruct (task_cancelled (world st)) as [cancelled w].
  cbn [fst] in Hcalm. subst cancelled. eexists. reflexivity.
Qed.

End MethodEffects.

(** ** The reply condition evaluator *)

Section Evaluator.
Context {env : Collaborators}.

Lemma condition_holds_unrecognized (kind operand text : string) :
  ~ recognized kind -> condition_holds kind operand text.
Proof.
  intros H. unfold recognized in H. repeat split; intros ->; exfalso; apply H; auto.
Qed.

Lemma check_conditions_spec (text : string) (items : list (string * string)) :
  check_conditions text items = true <->
  forall kind operand, In (kind, operand) items ->
    condition_holds kind (str_lower operand) text.
Proof.
  induction items as [|[k v] items IH]; cbn [check_conditions].
  - split; [intros _ ? ? [] | reflexivity].
  - destruct (String.eqb_spec k "contains") as [-> | Hc].
    { destruct (PyStr.contains text (str_lower v)) eqn:E; cbn [negb].
      - rewrite IH. split.
        + intros Hall kind operand [[= <- <-] | Hin]; [| apply Hall, Hin].
          repeat split; try discriminate. intros _. apply contains_spec, E.
        + intros Hall kind operand Hin. apply Hall. right. exact Hin.
      - split; [discriminate |]. intros Hall.
        destruct (Hall "contains" v (or_introl eq_refl)) as [Hsub _].
        apply contains_spec in Hsub; [congruence | reflexivity]. }
    destruct (String.eqb_spec k "starts_with") as [-> | Hs].
    { destruct (PyStr.startswith text (str_lower v)) eqn:E; cbn [negb].
      - rewrite IH. split.
        + intros Hall kind operand [[= <- <-] | Hin]; [| apply Hall, Hin].
          repeat split; try discriminate. intros _. apply startswith_spec, E.
        + intros Hall kind operand Hin. apply Hall. right. exact Hin.
      - split; [discriminate |]. intros Hall.
        destruct (Hall "starts_with" v (or_introl eq_refl)) as [_ [Hpre _]].
        apply startswith_spec in Hpre; [congruence | reflexivity]. }
    destruct (String.eqb_spec k "ends_with") as [-> | He].
    { destruct (PyStr.endswith text (str_lower v)) eqn:E; cbn [negb].
      - rewrite IH. split.
        + intros Hall kind operand [[= <- <-] | Hin]; [| apply Hall, Hin].
          repeat split; try discriminate. intros _. apply endswith_spec, E.
        + intros Hall kind operand Hin. apply Hall. right. exact Hin.
      - split; [discriminate |]. intros Hall.
        destruct (Hall "ends_with" v (or_introl eq_refl)) as [_ [_ Hsuf]].
        apply endswith_spec in Hsuf; [congruence | reflexivity]. }
    rewrite IH. split.
    + intros Hall kind operand [[= <- <-] | Hin]; [| apply Hall, Hin].
      apply condition_holds_unrecognized. intros [? | [? | ?]]; congruence.
    + intros Hall kind operand Hin. apply Hall. right. exact Hin.
Qed.

(** With a text that can be lowered, [_should_reply] is the condition loop:
    no fault, no log record, the state untouched. *)
Lemma should_reply_run (message : Message) (config : AutoReplyConfig) (st : State)
      (text : string) :
  message_text message = Some text ->
  _should_reply message config st =
    (Ok (check_conditions (str_lower text) (conditions config)), st).
Proof.
  unfold message_text, _should_reply, try_except, mbind, M_bind, lift_outcome, msg_get.
  destruct (message !! "text") as [[| s |]|]; intros [= <-]; reflexivity.
Qed.

(** With a text that is not a string the lowering faults and the answer is
    [False], whatever the conditions. *)
Lemma should_reply_fault (message : Message) (config : AutoReplyConfig) (st : State) :
  message_text message = None ->
  result (_should_reply message config) st = Ok false.
Proof.
  unfold message_text, result, _should_reply, try_except, mbind, M_bind, lift_outcome, msg_get.
  destruct (message !! "text") as [[| s |]|]; intros [=]; reflexivity.
Qed.

End Evaluator.

(** ** The template resolver *)

Section Resolver.
Context {env : Collaborators}.

Lemma generator_calls_app (l1 l2 : list Event) :
  generator_calls (l1 ++ l2) = (generator_calls l1 + generator_calls l2)%nat.
Proof. unfold generator_calls. rewrite List.filter_app, length_app. reflexivity. Qed.

Lemma generator_calls_logs (logs : list Event) : Forall is_log logs -> generator_calls logs = 0%nat.
Proof.
  induction 1 as [|ev logs Hev _ IH]; [reflexivity |].
  destruct ev; try contradiction. exact IH.
Qed.

(** [analyze_message_intent] returns normally; it records its call and at
    most a log record. *)
Lemma analyze_message_intent_run (text : PyVal) (st : State) :
  escaped (fst (groq_intent text (world st))) = false ->
  exists intent st' logs,
    analyze_message_intent text st = (Ok intent, st') /\
    trace st' = trace st ++ CallAnalyzeIntent text :: logs /\ Forall is_log logs.
Proof.
  unfold analyze_message_intent, try_except, mbind, M_bind, emit, modify, oracle_any,
    logger_error, emit, modify. cbn [world add_event].
  destruct (groq_intent text (world st)) as [[intent | [e | | |]] w]; cbn [fst escaped escapes];
    try discriminate; intros _.
  - exists intent, (set_world w (add_event (CallAnalyzeIntent text) st)), [].
    repeat split; constructor.
  - eexists PyNone, _, [_]. split; [reflexivity |]. split.
    + cbn. rewrite <- app_assoc. reflexivity.
    + repeat constructor.
Qed.

(** When evaluating the completion raises outside [Exception], the
    exception leaves [analyze_message_intent] with the call recorded and
    nothing logged. *)
Lemma analyze_message_intent_escape (text : PyVal) (st : State) (b : BaseException) (w : World) :
  groq_intent text (world st) = (Raise b, w) ->
  escapes b = true ->
  analyze_message_intent text st
  = (Raise b, set_world w (add_event (CallAnalyzeIntent text) st)).
Proof.
  intros Hg Hb.
  unfold analyze_message_intent, try_except, mbind, M_bind, emit, modify, oracle_any.
  cbn [world add_event]. rewrite Hg. destruct b; [discriminate | reflexivity ..].
Qed.

(** [generate_dm_response] returns normally, [None] when the SDK call
    raised; it records its call and at most a log record. *)
Lemma generate_dm_response_run (text : PyVal) (context : GenContext) (st : State) :
  exists response st' logs,
    generate_dm_response text context st = (Ok response, st') /\
    trace st' = trace st ++ CallGenerateResponse text context :: logs /\ Forall is_log logs.
Proof.
  unfold generate_dm_response, try_except, mbind, M_bind, emit, modify, oracle,
    logger_error, emit, modify. cbn [world add_event].
  destruct (groq_response text context (world st)) as [[response | e] w].
  - exists response, (set_world w (add_event (CallGenerateResponse text context) st)), [].
    repeat split; constructor.
  - eexists None, _, [_]. split; [reflexivity |]. split.
    + cbn. rewrite <- app_assoc. reflexivity.
    + repeat constructor.
Qed.

Lemma get_template_run (template_id : option string) (st : State) r w :
  db_get_template template_id (world st) = (r, w) ->
  get_template template_id st = (as_flow r, after_lookup template_id w st).
Proof.
  intros H. unfold get_template, mbind, M_bind, emit, modify, oracle. cbn [world add_event].
  rewrite H. reflexivity.
Qed.

(** A template without the marker: the content, and nothing but the lookup
    in the trace. *)
Lemma get_reply_template_plain template_id (message : Message) (st : State) template w :
  db_get_template template_id (world st) = (Ok (Some template), w) ->
  PyStr.startswith (content template) "AI:" = false ->
  _get_reply_template template_id message st =
    (Ok (Some (content template)), after_lookup template_id w st).
Proof.
  intros Hdb Hm. unfold _get_reply_template.
  apply try_ok. rewrite (bind_ok _ _ _ _ _ (get_template_run _ _ _ _ Hdb)).
  rewrite Hm. reflexivity.
Qed.

(** A template with the marker: intent analysis, then generation with the
    guide [content[3:]], then the generated text or the content. *)
Lemma get_reply_template_ai template_id (message : Message) (st : State) template w :
  db_get_template template_id (world st) = (Ok (Some template), w) ->
  PyStr.startswith (content template) "AI:" = true ->
  let text := msg_get message "text" (PyStr "") in
  escaped (fst (groq_intent text w)) = false ->
  exists intent s1 logs1 response s2 logs2,
    analyze_message_intent text (after_lookup template_id w st) = (Ok intent, s1) /\
    generate_dm_response text
      {| intent_analysis := intent; template_guide := PyStr.drop 3 (content template) |} s1
      = (Ok response, s2) /\
    _get_reply_template template_id message st =
      (Ok (if str_truthy response then response else Some (content template)), s2) /\
    trace s2 =
      trace st ++ [CallGetTemplate template_id; CallAnalyzeIntent text] ++ logs1 ++
      [CallGenerateResponse text
         {| intent_analysis := intent; template_guide := PyStr.drop 3 (content template) |}]
      ++ logs2 /\
    Forall is_log logs1 /\ Forall is_log logs2.
Proof.
  intros Hdb Hm text Hin.
  destruct (analyze_message_intent_run text (after_lookup template_id w st) Hin)
    as (intent & s1 & logs1 & Ha & Ht1 & Hl1).
  destruct (generate_dm_response_run text
              {| intent_analysis := intent; template_guide := PyStr.drop 3 (content template) |} s1)
    as (response & s2 & logs2 & Hg & Ht2 & Hl2).
  exists intent, s1, logs1, response, s2, logs2.
  split; [exact Ha |]. split; [exact Hg |]. split; [| split; [| split; assumption]].
  - unfold _get_reply_template. apply try_ok.
    rewrite (bind_ok _ _ _ _ _ (get_template_run _ _ _ _ Hdb)). rewrite Hm.
    fold text. rewrite (bind_ok _ _ _ _ _ Ha). rewrite (bind_ok _ _ _ _ _ Hg). reflexivity.
  - rewrite Ht2, Ht1. cbn [after_lookup set_world add_event trace].
    rewrite <- !app_assoc. reflexivity.
Qed.

Lemma marker_spec (s : string) :
  PyStr.startswith s "AI:" = true <-> exists guide, s = "AI:" +:+ guide.
Proof. apply startswith_spec. Qed.

Lemma marker_guide (s guide : string) : s = "AI:" +:+ guide -> PyStr.drop 3 s = guide.
Proof. intros ->. reflexivity. Qed.

Lemma marker_case_sensitive (s rest : string) :
  s = "ai:" +:+ rest \/ s = "Ai:" +:+ rest -> PyStr.startswith s "AI:" = false.
Proof. intros [-> | ->]; reflexivity. Qed.

End Resolver.

(** ** Facts about insertion-ordered dictionaries *)

Section DictFacts.
Context {V : Type}.
Implicit Types (d : list (string * V)) (k : string) (v : V).

Lemma get_in_keys k d : PyDict.get k d = None <-> ~ In k (PyDict.keys d).
Proof.
  induction d as [|[k' v'] d IH]; simpl.
  - tauto.
  - destruct (String.eqb_spec k' k) as [-> | Hne].
    + split; [discriminate | intros H; exfalso; apply H; left; reflexivity].
    + rewrite IH. tauto.
Qed.

Lemma get_set_eq k v d : PyDict.get k (PyDict.set k v d) = Some v.
Proof.
  induction d as [|[k' v'] d IH]; simpl.
  - rewrite String.eqb_refl. reflexivity.
  - destruct (String.eqb_spec k' k) as [-> | Hne]; simpl.
    + rewrite String.eqb_refl. reflexivity.
    + destruct (String.eqb_spec k' k); [contradiction | exact IH].
Qed.

Lemma get_set_ne k k' v d : k <> k' -> PyDict.get k' (PyDict.set k v d) = PyDict.get k' d.
Proof.
  intros Hne. induction d as [|[k0 v0] d IH]; simpl.
  - destruct (String.eqb_spec k k'); [contradiction | reflexivity].
  - destruct (String.eqb_spec k0 k) as [-> | Hk]; simpl.
    + destruct (String.eqb_spec k k'); [contradiction | reflexivity].
    + destruct (String.eqb_spec k0 k'); [reflexivity | exact IH].
Qed.

Lemma keys_set k v d :
  PyDict.keys (PyDict.set k v d) =
  match PyDict.get k d with
  | Some _ => PyDict.keys d
  | None => PyDict.keys d ++ [k]
  end.
Proof.
  unfold PyDict.keys. induction d as [|[k0 v0] d IH]; simpl; [reflexivity |].
  destruct (String.eqb_spec k0 k) as [-> | Hk]; simpl; [reflexivity |].
  rewrite IH. destruct (PyDict.get k d); reflexivity.
Qed.

Lemma wf_set k v d : PyDict.wf d -> PyDict.wf (PyDict.set k v d).
Proof.
  unfold PyDict.wf. intros H. rewrite keys_set.
  destruct (PyDict.get k d) eqn:E; [exact H |].
  apply get_in_keys in E. apply NoDup_app. split; [exact H | split].
  - intros x Hx Hk. apply list_elem_of_In in Hx, Hk. destruct Hk as [<- | []]. contradiction.
  - apply NoDup_singleton.
Qed.

Lemma keys_pop_incl k k' d : In k' (PyDict.keys (PyDict.pop k d)) -> In k' (PyDict.keys d).
Proof.
  induction d as [|[k0 v0] d IH]; simpl; [tauto |].
  destruct (String.eqb_spec k0 k); simpl; tauto.
Qed.

Lemma wf_pop k d : PyDict.wf d -> PyDict.wf (PyDict.pop k d).
Proof.
  unfold PyDict.wf. induction d as [|[k0 v0] d IH]; simpl; intros H; [exact H |].
  apply NoDup_cons in H as [Hnot Hd].
  destruct (String.eqb_spec k0 k); simpl; [exact Hd |].
  apply NoDup_cons. split; [| apply IH, Hd].
  intros Hin. apply Hnot. apply list_elem_of_In. eapply keys_pop_incl.
  apply list_elem_of_In, Hin.
Qed.

Lemma get_pop_eq k d : PyDict.wf d -> PyDict.get k (PyDict.pop k d) = None.
Proof.
  unfold PyDict.wf. induction d as [|[k0 v0] d IH]; simpl; intros H; [reflexivity |].
  apply NoDup_cons in H as [Hnot Hd].
  destruct (String.eqb_spec k0 k) as [-> | Hk]; simpl.
  - apply get_in_keys. intros Hin. apply Hnot, list_elem_of_In, Hin.
  - destruct (String.eqb_spec k0 k); [contradiction | apply IH, Hd].
Qed.

Lemma get_pop_ne k k' d : k <> k' -> PyDict.get k' (PyDict.pop k d) = PyDict.get k' d.
Proof.
  intros Hne. induction d as [|[k0 v0] d IH]; simpl; [reflexivity |].
  destruct (String.eqb_spec k0 k) as [-> | Hk]; simpl.
  - destruct (String.eqb_spec k k'); [contradiction | reflexivity].
  - destruct (String.eqb_spec k0 k'); [reflexivity | exact IH].
Qed.

Lemma pop_absent k d : PyDict.get k d = None -> PyDict.pop k d = d.
Proof.
  induction d as [|[k0 v0] d IH]; simpl; [reflexivity |].
  destruct (String.eqb_spec k0 k); [discriminate |].
  intros H. rewrite (IH H). reflexivity.
Qed.

End DictFacts.

Section TurnFacts.




Lemma absent_other (username : string) (items : list (string * AutoReplyConfig)) item :
  PyDict.get username items = None -> In item items -> fst item <> username.
Proof.
  intros H Hin <-. apply get_in_keys in H. apply H. apply in_map, Hin.
Qed.

End TurnFacts.

(** ** The scheduler *)

Section Scheduler.
Context {env : Collaborators}.

Lemma polls_app (username : string) (l1 l2 : list Event) :
  polls username (l1 ++ l2) = (polls username l1 + polls username l2)%nat.
Proof. unfold polls. rewrite List.filter_app, length_app. reflexivity. Qed.

Lemma polls_none (username : string) (evs : list Event) :
  Forall (fun ev => is_poll username ev = false) evs -> polls username evs = 0%nat.
Proof.
  induction 1 as [|ev evs Hev _ IH]; [reflexivity |].
  unfold polls in *. cbn [List.filter]. rewrite Hev. exact IH.
Qed.

Lemma no_poll_is_poll (username : string) (ev : Event) :
  no_poll ev -> is_poll username ev = false.
Proof. destruct ev; simpl; tauto. Qed.

Lemma is_log_no_poll (ev : Event) : is_log ev -> no_poll ev.
Proof. destruct ev; simpl; tauto. Qed.

Lemma polls_logs (username : string) (logs : list Event) :
  Forall is_log logs -> polls username logs = 0%nat.
Proof.
  intros H. apply polls_none. eapply Forall_impl; [exact H |].
  intros ev Hev. apply no_poll_is_poll, is_log_no_poll, Hev.
Qed.

Lemma is_poll_self (username : string) : is_poll username (CallCheckNewMessages username) = true.
Proof. apply String.eqb_refl. Qed.

Lemma is_poll_other (username other : string) :
  other <> username -> is_poll username (CallCheckNewMessages other) = false.
Proof. intros H. simpl. apply String.eqb_neq, H. Qed.

(** [check_new_messages] returns normally: it records the poll and at most a
    log record. *)
Lemma check_new_messages_run (username : string) (st : State) :
  exists messages st' logs,
    check_new_messages username st = (Ok messages, st') /\
    trace st' = trace st ++ CallCheckNewMessages username :: logs /\ Forall is_log logs.
Proof.
  unfold check_new_messages, try_except, mbind, M_bind, emit, modify, gets, oracle,
    logger_error, emit, modify. cbn.
  destruct (bool_decide (username ∈ clients st)); cbn.
  - destruct (ig_unseen_messages username (world st)) as [[messages | e] w].
    + eexists messages, _, []. repeat split; constructor.
    + destruct e; (eexists [], _, [_]; split; [reflexivity |]; split;
        [cbn; rewrite <- app_assoc; reflexivity | repeat constructor]).
  - eexists [], _, [_]. split; [reflexivity |]. split.
    + cbn. rewrite <- app_assoc. reflexivity.
    + repeat constructor.
Qed.

(** A fetch that raises is answered by a log record and an empty list. *)
Lemma check_new_messages_fault (username : string) (st : State) (e : exn) (w : World) :
  username ∈ clients st ->
  ig_unseen_messages username (world st) = (Raise e, w) ->
  check_new_messages username st =
    (Ok [], add_event (Log ERROR (fetch_error_log username e))
              (set_world w (add_event (CallCheckNewMessages username) st))).
Proof.
  intros Hin Hf.
  unfold check_new_messages, try_except, mbind, M_bind, emit, modify, gets, oracle,
    logger_error, emit, modify. cbn.
  rewrite (bool_decide_eq_true_2 _ Hin). cbn. rewrite Hf.
  destruct e; reflexivity.
Qed.

(** Within the cooldown the account is skipped: only the clock was read. *)
Lemma check_account_skip (username : string) (config : AutoReplyConfig) (st : State) now w :
  datetime_now (world st) = (now, w) ->
  due username now st = false ->
  check_account username config st = (Ok tt, set_world w st).
Proof.
  intros Hnow Hdue. unfold check_account. apply try_ok.
  unfold mbind, M_bind, oracle_total, gets. rewrite Hnow. cbn [set_world last_check_times].
  unfold due in Hdue. destruct (last_check_times st !! username) as [last |]; [| discriminate].
  apply negb_false_iff in Hdue. rewrite Hdue. reflexivity.
Qed.

(** Past the cooldown the account is polled, the poll time recorded, and
    every message processed. *)
Lemma check_account_due (username : string) (config : AutoReplyConfig) (st : State) now w :
  datetime_now (world st) = (now, w) ->
  due username now st = true ->
  exists messages s1 logs,
    check_new_messages username (set_world w st) = (Ok messages, s1) /\
    trace s1 = trace st ++ CallCheckNewMessages username :: logs /\ Forall is_log logs /\
    check_account username config st =
      for_each messages (fun message => _process_message username message config)
               (record_poll username now s1).
Proof.
  intros Hnow Hdue.
  destruct (check_new_messages_run username (set_world w st))
    as (messages & s1 & logs & Hc & Ht & Hl).
  exists messages, s1, logs. repeat split; try assumption.
  unfold check_account.
  match goal with
  | |- try_except ?b ?h st = ?r => assert (Hbody : b st = r)
  end.
  { unfold mbind at 1, M_bind at 1, oracle_total. rewrite Hnow.
    unfold mbind at 1, M_bind at 1, gets. cbn [set_world last_check_times].
    unfold due in Hdue.
    assert (Hrec : match last_check_times st !! username with
                   | Some last_check =>
                       total_seconds_lt (now - last_check) settings.AUTO_REPLY_CHECK_INTERVAL
                   | None => false
                   end = false).
    { destruct (last_check_times st !! username); [apply negb_true_iff, Hdue | reflexivity]. }
    rewrite Hrec. fold (set_world w st).
    rewrite (bind_ok _ _ _ _ _ Hc).
    unfold mbind at 1, M_bind at 1, modify. fold (record_poll username now s1).
    reflexivity. }
  rewrite try_pass; [exact Hbody |].
  intros e. unfold result. rewrite Hbody.
  apply (absorbs_for_each messages
           (fun message => _process_message username message config)).
  intros message. apply absorbs_process_message.
Qed.

(** In a world whose intent analysis raises instances of [Exception] only,
    the processing of the messages returns normally. *)
Lemma process_messages_run (username : string) (config : AutoReplyConfig)
      (messages : list Message) (st : State) :
  generator_contained ->
  for_each messages (fun message => _process_message username message config) st
  = (Ok tt, exec (for_each messages (fun message => _process_message username message config))
                 st).
Proof.
  intros Hgen.
  destruct (never_raises_run
              (for_each messages (fun message => _process_message username message config))
              st) as [[] Hrun]; [| exact Hrun].
  apply never_raises_for_each. intros m. apply never_raises_process_message, Hgen.
Qed.

(** Processing messages polls nobody and moves no poll time. *)
Lemma process_messages_quiet (username : string) (config : AutoReplyConfig)
      (messages : list Message) (st : State) :
  let st' :=
    exec (for_each messages (fun message => _process_message username message config)) st in
  last_check_times st' = last_check_times st /\
  exists evs, trace st' = trace st ++ evs /\ Forall no_poll evs.
Proof.
  split.
  - apply (keeps_for_each last_check_times). intros m _. apply keeps_process_message.
    split; intros; reflexivity.
  - apply (only_emits_for_each no_poll). intros m _.
    apply only_emits_process_message. auto.
Qed.

(** A check of another account does not poll [username]. *)
Lemma check_other_quiet (username other : string) (config : AutoReplyConfig) :
  other <> username ->
  only_emits (fun ev => is_poll username ev = false) (check_account other config).
Proof.
  intros H. apply only_emits_check_account.
  - apply is_poll_other, H.
  - intros ev. apply no_poll_is_poll.
Qed.

Lemma checks_quiet (username : string) (items : list (string * AutoReplyConfig)) (st : State) :
  (forall item, In item items -> fst item <> username) ->
  polls username
    (trace (exec (for_each items (fun item => check_account (fst item) (snd item))) st))
  = polls username (trace st).
Proof.
  intros H.
  destruct (only_emits_for_each (fun ev => is_poll username ev = false) items
              (fun item => check_account (fst item) (snd item))
              (fun item Hin => check_other_quiet username (fst item) (snd item) (H item Hin)) st)
    as [evs [Ht Hevs]].
  rewrite Ht, polls_app, (polls_none _ _ Hevs). lia.
Qed.

Lemma tick_run (st : State) :
  _check_new_messages st =
    for_each (active_configs st) (fun item => check_account (fst item) (snd item)) st.
Proof. reflexivity. Qed.

Lemma tick_exec (st : State) :
  exec _check_new_messages st =
    exec (for_each (active_configs st) (fun item => check_account (fst item) (snd item))) st.
Proof. reflexivity. Qed.





End Scheduler.

(** ** The loop of [start] *)

Section Loop.
Context {env : Collaborators}.

Lemma update_config_run (username : string) (config : AutoReplyConfig) (st : State) :
  update_config username config st =
    (Ok tt,
     if is_enabled config then
       add_event (Log INFO ("Updated auto-reply config for " +:+ username))
         (set_active_configs (PyDict.set username config (active_configs st)) st)
     else
       add_event (Log INFO ("Disabled auto-reply for " +:+ username))
         (set_active_configs (PyDict.pop username (active_configs st)) st)).
Proof. unfold update_config. destruct (is_enabled config); reflexivity. Qed.

Lemma deliver_logs (c : Control) : only_emits is_log (deliver c).
Proof.
  destruct c; unfold deliver, stop, update_config; fx; exact I.
Qed.

(** After its own record the sleep leaves only the log records of the
    calls delivered meanwhile; it returns normally, or it raises
    [CancelledError] when the task was cancelled. *)
Lemma asyncio_sleep_trace (seconds : Z) (st : State) :
  exists logs,
    trace (exec (asyncio_sleep seconds) st) = trace st ++ AsyncSleep seconds :: logs /\
    Forall is_log logs.
Proof.
  unfold asyncio_sleep.
  set (rest := calls ← oracle_total pending_controls;
               for_each calls deliver ;;
               cancelled ← oracle_total task_cancelled;
               if cancelled : bool then raise CancelledError else mret tt).
  assert (Hrest : only_emits is_log rest).
  { unfold rest. fx. apply deliver_logs. }
  destruct (Hrest (add_event (AsyncSleep seconds) st)) as [logs [Ht Hl]].
  exists logs. split; [| exact Hl].
  unfold exec in *. unfold mbind at 1, M_bind at 1, emit, modify.
  rewrite Ht. cbn. rewrite <- app_assoc. reflexivity.
Qed.

Lemma asyncio_sleep_ends (seconds : Z) (st : State) :
  asyncio_sleep seconds st = (Ok tt, exec (asyncio_sleep seconds) st) \/
  asyncio_sleep seconds st = (Raise CancelledError, exec (asyncio_sleep seconds) st).
Proof.
  destruct (absorbs_run _ st (absorbs_asyncio_sleep seconds))
    as [[[] Hrun] | (b & Hesc & Hrun)]; [left; exact Hrun | right].
  assert (Hb : b = CancelledError); [| rewrite Hb in Hrun; exact Hrun].
  revert Hrun. generalize (exec (asyncio_sleep seconds) st). intros s.
  unfold asyncio_sleep, mbind, M_bind, emit, modify, oracle_total, raise.
  destruct (pending_controls _) as [calls w].
  destruct (never_raises_run (for_each calls deliver)
              (set_world w (add_event (AsyncSleep seconds) st))) as [[] Hd].
  { apply never_raises_for_each, never_raises_deliver. }
  rewrite Hd. destruct (task_cancelled _) as [[|] w'].
  - intros [= <- _]. reflexivity.
  - intros [=].
Qed.

Lemma asyncio_sleep_run (seconds : Z) (st : State) :
  never_cancelled ->
  exists logs,
    asyncio_sleep seconds st = (Ok tt, exec (asyncio_sleep seconds) st) /\
    trace (exec (asyncio_sleep seconds) st) = trace st ++ AsyncSleep seconds :: logs /\
    Forall is_log logs.
Proof.
  intros Hcalm.
  destruct (never_raises_run _ st (never_raises_asyncio_sleep seconds Hcalm)) as [[] Hrun].
  destruct (asyncio_sleep_trace seconds st) as [logs [Ht Hl]].
  exists logs. repeat split; assumption.
Qed.

Lemma loop_body_ok (tick : M unit) (st st1 : State) :
  tick st = (Ok tt, st1) ->
  loop_body tick st = asyncio_sleep settings.AUTO_REPLY_CHECK_INTERVAL st1.
Proof.
  intros H. unfold loop_body.
  assert (Hbody : (tick ;; asyncio_sleep settings.AUTO_REPLY_CHECK_INTERVAL) st
                  = asyncio_sleep settings.AUTO_REPLY_CHECK_INTERVAL st1)
    by exact (bind_ok _ _ _ _ _ H).
  rewrite try_pass; [exact Hbody |].
  intros e. unfold result. rewrite Hbody. apply absorbs_asyncio_sleep.
Qed.

Lemma loop_body_raise (tick : M unit) (st st1 : State) (e : exn) :
  tick st = (Raise (Exception e), st1) ->
  loop_body tick st =
    asyncio_sleep settings.AUTO_REPLY_CHECK_INTERVAL
      (add_event (Log ERROR ("Error in auto-reply loop: " +:+ exn_str e)) st1).
Proof.
  intros H. unfold loop_body.
  rewrite (try_raise _ _ _ _ _ (bind_raise _ _ _ _ _ H)). reflexivity.
Qed.

Lemma loop_body_escape (tick : M unit) (st st1 : State) (b : BaseException) :
  tick st = (Raise b, st1) -> escapes b = true -> loop_body tick st = (Raise b, st1).
Proof.
  intros H Hb. unfold loop_body.
  apply (try_escape _ _ _ _ _ Hb). exact (bind_raise _ _ _ _ _ H).
Qed.

Lemma absorbs_loop_body (tick : M unit) : absorbs (loop_body tick).
Proof. unfold loop_body. fx. apply absorbs_asyncio_sleep. Qed.

Lemma never_raises_loop_body (tick : M unit) :
  never_cancelled -> contained tick -> never_raises (loop_body tick).
Proof.
  intros Hcalm Htick. unfold loop_body. fx; try assumption;
    auto using never_raises_contained, never_raises_asyncio_sleep.
Qed.

Lemma while_exit (fuel : nat) (body : M unit) (st : State) :
  is_running st = false -> while_is_running fuel body st = (Ok Exited, st).
Proof.
  intros H. destruct fuel; cbn [while_is_running];
    unfold mbind, M_bind, gets; rewrite H; reflexivity.
Qed.

Lemma while_step (fuel : nat) (body : M unit) (st st1 : State) :
  is_running st = true -> body st = (Ok tt, st1) ->
  while_is_running (S fuel) body st = while_is_running fuel body st1.
Proof.
  intros H Hb. cbn [while_is_running]. unfold mbind at 1, M_bind at 1, gets. rewrite H.
  exact (bind_ok body (fun _ => while_is_running fuel body) st st1 tt Hb).
Qed.

Lemma while_stop (fuel : nat) (body : M unit) (st st1 : State) (b : BaseException) :
  is_running st = true -> body st = (Raise b, st1) ->
  while_is_running (S fuel) body st = (Raise b, st1).
Proof.
  intros H Hb. cbn [while_is_running]. unfold mbind at 1, M_bind at 1, gets. rewrite H.
  exact (bind_raise body (fun _ => while_is_running fuel body) st st1 b Hb).
Qed.

(** A bounded run of the loop ends normally; it has left the loop only
    with the flag down. *)
Lemma while_ends (fuel : nat) (body : M unit) (st : State) :
  never_raises body ->
  exists r st', while_is_running fuel body st = (Ok r, st') /\
                (r = Exited -> is_running st' = false).
Proof.
  intros Hb. revert st. induction fuel as [|fuel IH]; intros st.
  - destruct (is_running st) eqn:E.
    + exists StillRunning, st. split; [| discriminate].
      cbn [while_is_running]. unfold mbind, M_bind, gets. rewrite E. reflexivity.
    + exists Exited, st. split; [apply while_exit, E | intros _; exact E].
  - destruct (is_running st) eqn:E.
    + destruct (never_raises_run body st Hb) as [[] Hrun].
      rewrite (while_step _ _ _ _ E Hrun). apply IH.
    + exists Exited, st. split; [apply while_exit, E | intros _; exact E].
Qed.

(** How a bounded run of the loop can end, whatever the body does outside
    [Exception]: by the test of the flag, which is then down; cut by the
    bound; or by an exception that [except Exception] lets through. *)
Lemma while_ends_any (fuel : nat) (body : M unit) (st : State) :
  absorbs body ->
  match while_is_running fuel body st with
  | (Ok Exited, st') => is_running st' = false
  | (Ok StillRunning, _) => True
  | (Raise b, _) => escapes b = true
  end.
Proof.
  intros Hb. revert st. induction fuel as [|fuel IH]; intros st.
  - destruct (is_running st) eqn:E.
    + cbn [while_is_running]. unfold mbind, M_bind, gets. rewrite E. exact I.
    + rewrite (while_exit _ _ _ E). exact E.
  - destruct (is_running st) eqn:E.
    + destruct (absorbs_run body st Hb) as [[[] Hrun] | (b & Hesc & Hrun)].
      * rewrite (while_step _ _ _ _ E Hrun). apply IH.
      * rewrite (while_stop _ _ _ _ _ E Hrun). exact Hesc.
    + rewrite (while_exit _ _ _ E). exact E.
Qed.

Lemma start_with_run (tick : M unit) (fuel : nat) (st : State) :
  start_with tick fuel st
  = while_is_running fuel (loop_body tick)
      (add_event (Log INFO "Starting auto-reply manager") (set_is_running true st)).
Proof. reflexivity. Qed.

Lemma start_with_ends (tick : M unit) (fuel : nat) (st : State) :
  never_cancelled -> contained tick ->
  exists r st', start_with tick fuel st = (Ok r, st') /\
                (r = Exited -> is_running st' = false).
Proof.
  intros Hcalm Htick. rewrite start_with_run.
  apply while_ends, never_raises_loop_body; assumption.
Qed.

End Loop.

(** ** Properties of the condition evaluator *)

Section EvaluatorClaims.
Context {env : Collaborators}.


(** C10.  A message dictionary without the ['text'] key is evaluated against
    the empty string and nothing is raised: the answer is [True] for the
    empty mapping and [False] as soon as the mapping holds a [contains],
    [starts_with] or [ends_with] condition with a non-empty operand. *)
Theorem should_reply_without_text
        (message : Message) (config : AutoReplyConfig) (st : State) :
  message !! "text" = None ->
  _should_reply message config st =
    (Ok (check_conditions "" (conditions config)), st) /\
  (conditions config = [] -> result (_should_reply message config) st = Ok true) /\
  (forall kind operand,
     In (kind, operand) (conditions config) -> recognized kind -> operand <> "" ->
     result (_should_reply message config) st = Ok false).
Proof.
  intros Hnone.
  assert (Htext : message_text message = Some "").
  { unfold message_text. rewrite Hnone. reflexivity. }
  pose proof (should_reply_run message config st "" Htext) as Hrun.
  rewrite str_lower_empty in Hrun.
  split; [exact Hrun |]. unfold result. rewrite Hrun. cbn [fst]. split.
  - intros ->. reflexivity.
  - intros kind operand Hin Hkind Hne.
    destruct (check_conditions "" (conditions config)) eqn:E; [| reflexivity].
    exfalso. apply Hne, str_lower_nonempty.
    destruct (proj1 (check_conditions_spec _ _) E kind operand Hin) as (Hc & Hs & He).
    destruct Hkind as [-> | [-> | ->]].
    + destruct (Hc eq_refl) as (a & b & Hab).
      destruct a; [| discriminate]. cbn in Hab.
      destruct (str_lower operand); [reflexivity | discriminate].
    + destruct (Hs eq_refl) as (b & Hb).
      destruct (str_lower operand); [reflexivity | discriminate].
    + destruct (He eq_refl) as (a & Ha).
      destruct a; [| discriminate]. cbn in Ha. symmetry. exact Ha.
Qed.

End EvaluatorClaims.



Lemma should_reply_without_text_witness :
  Demo.bare !! "text" = None /\
  result (_should_reply (env := Demo.env) Demo.bare (Demo.config "T1" [("contains", "price")]))
         Demo.fresh = Ok false.
Proof.
  split; [reflexivity |].
  apply (should_reply_without_text (env := Demo.env) Demo.bare
           (Demo.config "T1" [("contains", "price")]) Demo.fresh eq_refl) with "contains" "price".
  - left. reflexivity.
  - left. reflexivity.
  - discriminate.
Defined.

(** ** Properties of the template resolver *)

Section ResolverClaims.
Context {env : Collaborators}.

(** C5.  For a template found in the store whose content starts with
    ["AI:"], [_get_reply_template] asks for the intent analysis and, that
    analysis having returned or raised an instance of [Exception] (which
    its wrapper turns into [None]), for a generated response, which cannot
    fail it; it returns the generator's output when that is a non-empty
    text, and when the generator yields nothing ([None], which is also what
    a failed SDK call gives, or the empty string) it returns the template
    content, marker included. *)
Theorem reply_template_ai_fallback
        (template_id : option string) (message : Message) (st : State)
        (template : Template) (w : World) :
  db_get_template template_id (world st) = (Ok (Some template), w) ->
  PyStr.startswith (content template) "AI:" = true ->
  let text := msg_get message "text" (PyStr "") in
  escaped (fst (groq_intent text w)) = false ->
  exists intent s1 response s2,
    analyze_message_intent text (after_lookup template_id w st) = (Ok intent, s1) /\
    generate_dm_response text
      {| intent_analysis := intent; template_guide := PyStr.drop 3 (content template) |} s1
      = (Ok response, s2) /\
    _get_reply_template template_id message st =
      (Ok (Some match response with
                | Some (String c generated) => String c generated
                | Some EmptyString | None => content template
                end), s2).
Proof.
  intros Hdb Hm text Hin.
  destruct (get_reply_template_ai template_id message st template w Hdb Hm Hin)
    as (intent & s1 & logs1 & response & s2 & logs2 & Ha & Hg & Hr & _).
  exists intent, s1, response, s2. split; [exact Ha |]. split; [exact Hg |].
  rewrite Hr. destruct response as [[|c generated]|]; reflexivity.
Qed.

(** C6.  For a template found in the store whose content does not start with
    ["AI:"], [_get_reply_template] returns the content as it is stored; the
    only call it makes is the lookup, so the response generator is not
    invoked. *)
Theorem reply_template_verbatim
        (template_id : option string) (message : Message) (st : State)
        (template : Template) (w : World) :
  db_get_template template_id (world st) = (Ok (Some template), w) ->
  PyStr.startswith (content template) "AI:" = false ->
  let st' := exec (_get_reply_template template_id message) st in
  result (_get_reply_template template_id message) st = Ok (Some (content template)) /\
  trace st' = trace st ++ [CallGetTemplate template_id] /\
  generator_calls (trace st') = generator_calls (trace st).
Proof.
  intros Hdb Hm st'.
  pose proof (get_reply_template_plain template_id message st template w Hdb Hm) as Hrun.
  unfold st', result, exec. rewrite Hrun. cbn [fst snd after_lookup set_world add_event trace].
  repeat split. rewrite generator_calls_app. cbn. lia.
Qed.

(** C9.  The marker test is the case-sensitive prefix test with the three
    characters ["AI:"].  For a template found in the store: when the content
    is ["AI:"] followed by a guide, the generator is called once for the
    intent and, that analysis having returned or raised an instance of
    [Exception], once for the response, and the context of the latter
    carries exactly that guide; when the content begins with ["ai:"] or
    ["Ai:"] it is returned as stored and the generator is not called. *)
Theorem ai_marker_exact
        (template_id : option string) (message : Message) (st : State)
        (template : Template) (w : World) (rest : string) :
  db_get_template template_id (world st) = (Ok (Some template), w) ->
  let text := msg_get message "text" (PyStr "") in
  let st' := exec (_get_reply_template template_id message) st in
  (PyStr.startswith (content template) "AI:" = true <->
   exists guide, content template = "AI:" +:+ guide) /\
  (content template = "AI:" +:+ rest ->
   escaped (fst (groq_intent text w)) = false ->
   exists intent logs1 logs2,
     trace st' =
       trace st ++ [CallGetTemplate template_id; CallAnalyzeIntent text] ++ logs1 ++
       [CallGenerateResponse text {| intent_analysis := intent; template_guide := rest |}]
       ++ logs2 /\
     Forall is_log logs1 /\ Forall is_log logs2) /\
  (content template = "ai:" +:+ rest \/ content template = "Ai:" +:+ rest ->
   result (_get_reply_template template_id message) st = Ok (Some (content template)) /\
   trace st' = trace st ++ [CallGetTemplate template_id]).
Proof.
  intros Hdb text st'. split; [apply marker_spec |]. split.
  - intros Hc Hin.
    assert (Hm : PyStr.startswith (content template) "AI:" = true).
    { apply marker_spec. exists rest. exact Hc. }
    destruct (get_reply_template_ai template_id message st template w Hdb Hm Hin)
      as (intent & s1 & logs1 & response & s2 & logs2 & _ & _ & Hr & Ht & Hl1 & Hl2).
    exists intent, logs1, logs2. unfold st', exec. rewrite Hr. cbn [snd].
    rewrite (marker_guide _ _ Hc) in Ht. repeat split; assumption.
  - intros Hc. pose proof (marker_case_sensitive _ _ Hc) as Hm.
    pose proof (get_reply_template_plain template_id message st template w Hdb Hm) as Hrun.
    unfold st', result, exec. rewrite Hrun. repeat split.
Qed.

End ResolverClaims.

Lemma reply_template_ai_fallback_witness :
  result (_get_reply_template (env := Demo.env) (Some "T2") Demo.hello) Demo.fresh
    = Ok (Some "Thanks!") /\
  result (_get_reply_template (env := Demo.env) (Some "T2") Demo.opens) Demo.fresh
    = Ok (Some "AI:be concise").
Proof.
  split.
  - destruct (reply_template_ai_fallback (env := Demo.env) (Some "T2") Demo.hello Demo.fresh
                (Demo.template "T2" "AI:be concise") 0 eq_refl eq_refl eq_refl)
      as (intent & s1 & response & s2 & Ha & Hg & Hr).
    injection Ha as <- <-. injection Hg as <- <-. unfold result. rewrite Hr. reflexivity.
  - destruct (reply_template_ai_fallback (env := Demo.env) (Some "T2") Demo.opens Demo.fresh
                (Demo.template "T2" "AI:be concise") 0 eq_refl eq_refl eq_refl)
      as (intent & s1 & response & s2 & Ha & Hg & Hr).
    injection Ha as <- <-. injection Hg as <- <-. unfold result. rewrite Hr. reflexivity.
Defined.

Lemma reply_template_verbatim_witness :
  result (_get_reply_template (env := Demo.env) (Some "T1") Demo.opens) Demo.fresh
    = Ok (Some "Thanks for asking!") /\
  generator_calls (trace (exec (_get_reply_template (env := Demo.env) (Some "T1") Demo.opens)
                               Demo.fresh))
    = generator_calls (trace Demo.fresh).
Proof.
  destruct (reply_template_verbatim (env := Demo.env) (Some "T1") Demo.opens Demo.fresh
              (Demo.template "T1" "Thanks for asking!") 0 eq_refl eq_refl)
    as (Hr & _ & Hg).
  split; [exact Hr | exact Hg].
Defined.

Lemma ai_marker_exact_witness :
  result (_get_reply_template (env := Demo.env) (Some "T3") Demo.hello) Demo.fresh
    = Ok (Some "ai:be concise") /\
  trace (exec (_get_reply_template (env := Demo.env) (Some "T3") Demo.hello) Demo.fresh)
    = trace Demo.fresh ++ [CallGetTemplate (Some "T3")].
Proof.
  apply (ai_marker_exact (env := Demo.env) (Some "T3") Demo.hello Demo.fresh
           (Demo.template "T3" "ai:be concise") 0 "be concise" eq_refl).
  left. reflexivity.
Defined.

(** ** Properties of the scheduler *)

Section SchedulerClaims.
Context {env : Collaborators}.

Lemma check_account_polls_once (username : string) (config : AutoReplyConfig) (st : State) :
  let now := fst (datetime_now (world st)) in
  let st' := exec (check_account username config) st in
  due username now st = true ->
  polls username (trace st') = (polls username (trace st) + 1)%nat /\
  last_check_times st' !! username = Some now.
Proof.
  intros now st' Hdue. unfold st', now in *.
  destruct (datetime_now (world st)) as [now' w] eqn:Hnow. cbn [fst] in *.
  destruct (check_account_due username config st now' w Hnow Hdue)
    as (messages & s1 & logs & Hc & Ht & Hl & Hrun).
  destruct (process_messages_quiet username config messages (record_poll username now' s1))
    as [Hlast [evs [Hte Hevs]]].
  unfold exec in *. rewrite Hrun.
  split.
  - rewrite Hte. cbn [record_poll set_last_check_times trace]. rewrite Ht.
    rewrite !polls_app. change (CallCheckNewMessages username :: logs)
      with ([CallCheckNewMessages username] ++ logs).
    rewrite polls_app, (polls_logs _ _ Hl).
    rewrite (polls_none username evs).
    + unfold polls. cbn [List.filter]. rewrite is_poll_self. cbn [length]. lia.
    + eapply Forall_impl; [exact Hevs |]. intros ev. apply no_poll_is_poll.
  - rewrite Hlast. cbn [record_poll set_last_check_times last_check_times].
    apply lookup_insert_eq.
Qed.

(** C2.  A per-account check that reads the clock less than the tick
    interval (60 seconds) after the account's recorded poll time skips the
    account: nothing but the clock is touched and the gateway is not polled.
    In particular, when a check that finds the account due is followed, with
    the recorded poll time of the account untouched in between, by a check
    whose clock reading is within 10 seconds of the first, the first check
    polls the gateway once and the second not at all. *)
Theorem cooldown_skips_repeated_check
        (username : string) (config config' : AutoReplyConfig) (st later : State) :
  let now1 := fst (datetime_now (world st)) in
  let now2 := fst (datetime_now (world later)) in
  let st1 := exec (check_account username config) st in
  (forall last_check,
     last_check_times st !! username = Some last_check ->
     now1 - last_check < settings.AUTO_REPLY_CHECK_INTERVAL * 1000000 ->
     check_account username config st = (Ok tt, set_world (snd (datetime_now (world st))) st)) /\
  (due username now1 st = true ->
   last_check_times later !! username = last_check_times st1 !! username ->
   Z.abs (now2 - now1) <= 10 * 1000000 ->
   polls username (trace st1) = (polls username (trace st) + 1)%nat /\
   polls username (trace (exec (check_account username config') later))
   = polls username (trace later)).
Proof.
  intros now1 now2 st1. split.
  - intros last_check Hlast Hlt. apply check_account_skip with (now := now1).
    + unfold now1. destruct (datetime_now (world st)); reflexivity.
    + unfold due. rewrite Hlast. apply negb_false_iff, Z.ltb_lt, Hlt.
  - intros Hdue Hsame Hnear.
    destruct (check_account_polls_once username config st Hdue) as [Hpolls Hcursor].
    fold st1 in Hpolls, Hcursor. fold now1 in Hcursor. split; [exact Hpolls |].
    rewrite Hcursor in Hsame. unfold exec.
    rewrite (check_account_skip username config' later now2 (snd (datetime_now (world later)))).
    + reflexivity.
    + unfold now2. destruct (datetime_now (world later)); reflexivity.
    + unfold due. rewrite Hsame. apply negb_false_iff, Z.ltb_lt.
      unfold settings.AUTO_REPLY_CHECK_INTERVAL. lia.
Qed.

(** C3.  [update_config] puts the given configuration, whole, under the
    account's key when [is_enabled] is true and removes the key when it is
    false; removing a key that is absent changes nothing in the mapping;
    the other accounts keep their entries.  A tick started in a state
    where the account has no entry never polls the gateway for it. *)
Theorem update_config_active_set
        (username : string) (config : AutoReplyConfig) (st : State) :
  PyDict.wf (active_configs st) ->
  let st' := exec (update_config username config) st in
  PyDict.wf (active_configs st') /\
  (is_enabled config = true ->
   active_configs st' = PyDict.set username config (active_configs st) /\
   PyDict.get username (active_configs st') = Some config) /\
  (is_enabled config = false ->
   active_configs st' = PyDict.pop username (active_configs st) /\
   PyDict.get username (active_configs st') = None /\
   (PyDict.get username (active_configs st) = None -> active_configs st' = active_configs st)) /\
  (forall other, other <> username ->
     PyDict.get other (active_configs st') = PyDict.get other (active_configs st)) /\
  (forall s : State,
     PyDict.get username (active_configs s) = None ->
     polls username (trace (exec _check_new_messages s)) = polls username (trace s)).
Proof.
  intros Hwf st'. unfold st', exec. rewrite update_config_run. cbn [snd].
  split; [| split; [| split; [| split]]].
  - destruct (is_enabled config); cbn; [apply wf_set | apply wf_pop]; exact Hwf.
  - intros ->. cbn. split; [reflexivity | apply get_set_eq].
  - intros ->. cbn. split; [reflexivity |]. split; [apply get_pop_eq, Hwf | apply pop_absent].
  - intros other Hne. destruct (is_enabled config); cbn.
    + apply get_set_ne. congruence.
    + apply get_pop_ne. congruence.
  - intros s Hnone. refine (checks_quiet username (active_configs s) s _).
    intros item. apply absent_other, Hnone.
Qed.

(** C8 (amended).  [update_config] never changes the mapping of last poll
    times: when it removes an account from the active set, the account's
    recorded poll time stays where it was. *)
Theorem update_config_keeps_poll_times
        (username : string) (config : AutoReplyConfig) (st : State) :
  last_check_times (exec (update_config username config) st) = last_check_times st.
Proof.
  unfold exec. rewrite update_config_run. destruct (is_enabled config); reflexivity.
Qed.


(** C7 (amended).  No instance of [Exception] leaves an iteration of the
    loop of [start]: when the tick raises one, the error is logged and the
    sleep of the tick interval follows.  A run of the loop ends in one of
    three ways only: by the test of the running flag at an iteration
    boundary, the flag being down; cut by the bound of the model; or by an
    exception outside [Exception] ([SystemExit] out of the tick,
    [CancelledError] at the sleep of a cancelled task), which
    [except Exception] lets through.  Where the task is not cancelled and
    the tick raises instances of [Exception] only, every iteration returns
    normally and the run ends normally.  With the flag down at a boundary
    the loop exits there; with the flag up it goes through an iteration and,
    when that returns, on to the next boundary.  The flag is lowered by
    [stop] and is left alone by the tick and by [update_config]. *)
Theorem loop_survives_exceptions (tick : M unit) (fuel : nat) (st : State) :
  absorbs (loop_body tick) /\
  (forall (e : exn) st1,
     tick st = (Raise (Exception e), st1) ->
     exists logs,
       trace (exec (loop_body tick) st) =
         trace st1 ++ [Log ERROR ("Error in auto-reply loop: " +:+ exn_str e);
                       AsyncSleep settings.AUTO_REPLY_CHECK_INTERVAL] ++ logs /\
       Forall is_log logs /\
       (never_cancelled -> loop_body tick st = (Ok tt, exec (loop_body tick) st))) /\
  (match start_with tick fuel st with
   | (Ok Exited, st') => is_running st' = false
   | (Ok StillRunning, _) => True
   | (Raise b, _) => escapes b = true
   end) /\
  (never_cancelled -> contained tick ->
   never_raises (loop_body tick) /\
   exists r st', start_with tick fuel st = (Ok r, st') /\
                 (r = Exited -> is_running st' = false)) /\
  (is_running st = false ->
   while_is_running fuel (loop_body tick) st = (Ok Exited, st)) /\
  (is_running st = true ->
   forall st1, loop_body tick st = (Ok tt, st1) ->
   while_is_running (S fuel) (loop_body tick) st =
   while_is_running fuel (loop_body tick) st1) /\
  is_running (exec stop st) = false /\
  keeps is_running _check_new_messages /\
  (forall username config, keeps is_running (update_config username config)).
Proof.
  split; [apply absorbs_loop_body |].
  split; [| split; [| split; [| split; [| split; [| split; [| split]]]]]].
  - intros e st1 Htick.
    set (s := add_event (Log ERROR ("Error in auto-reply loop: " +:+ exn_str e)) st1).
    destruct (asyncio_sleep_trace settings.AUTO_REPLY_CHECK_INTERVAL s) as [logs [Ht Hl]].
    exists logs. unfold exec at 1 2. rewrite (loop_body_raise tick st st1 e Htick).
    fold s. fold (exec (asyncio_sleep settings.AUTO_REPLY_CHECK_INTERVAL) s).
    split; [| split; [exact Hl |]].
    + rewrite Ht. unfold s. cbn. rewrite <- app_assoc. reflexivity.
    + intros Hcalm.
      destruct (asyncio_sleep_run settings.AUTO_REPLY_CHECK_INTERVAL s Hcalm)
        as [logs' [Hrun _]].
      exact Hrun.
  - rewrite start_with_run. apply while_ends_any, absorbs_loop_body.
  - intros Hcalm Htick.
    split; [apply never_raises_loop_body; assumption | apply start_with_ends; assumption].
  - apply while_exit.
  - intros Hrun st1 Hbody. apply while_step; assumption.
  - reflexivity.
  - apply keeps_tick; [split |]; reflexivity.
  - intros username config. apply keeps_update_config; [split |]; reflexivity.
Qed.

End SchedulerClaims.

(** ** The properties on the concrete world *)

Lemma demo_configured_wf : PyDict.wf (active_configs Demo.configured).
Proof.
  unfold Demo.configured, exec, mbind, M_bind. rewrite !update_config_run.
  cbn [snd is_enabled Demo.config].
  repeat first [apply wf_set | apply wf_pop]. apply NoDup_nil_2.
Qed.


Lemma demo_never_cancelled : never_cancelled (env := Demo.env).
Proof. intros w. reflexivity. Qed.


Lemma cooldown_skips_repeated_check_witness :
  let st := Demo.configured in
  let st1 := exec (check_account (env := Demo.env) "shop_c" (Demo.config "T2" [])) st in
  due "shop_c" 0 st = true /\
  Z.abs (6000000 - 0) <= 10 * 1000000 /\
  polls "shop_c" (trace st1) = (polls "shop_c" (trace st) + 1)%nat /\
  polls "shop_c" (trace (exec (check_account "shop_c" (Demo.config "T2" [])) st1))
  = polls "shop_c" (trace st1).
Proof.
  intros st st1. split; [reflexivity |]. split; [vm_compute; discriminate |].
  apply (cooldown_skips_repeated_check (env := Demo.env)
           "shop_c" (Demo.config "T2" []) (Demo.config "T2" []) st st1).
  - reflexivity.
  - reflexivity.
  - vm_compute. discriminate.
Defined.

Lemma update_config_active_set_witness :
  let st' := exec (update_config (env := Demo.env) "shop_a" Demo.disabled) Demo.configured in
  PyDict.get "shop_a" (active_configs st') = None /\
  polls "shop_a" (trace (exec _check_new_messages st')) = polls "shop_a" (trace st').
Proof.
  intros st'.
  destruct (update_config_active_set (env := Demo.env) "shop_a" Demo.disabled Demo.configured
              demo_configured_wf) as (_ & _ & Hoff & _ & Hquiet).
  destruct (Hoff eq_refl) as (_ & Hnone & _).
  split; [exact Hnone | apply Hquiet, Hnone].
Defined.


Lemma loop_survives_exceptions_witness :
  let e := OtherException "dictionary changed size during iteration" in
  Demo.failing_tick Demo.configured = (Raise (Exception e), Demo.configured) /\
  (exists logs,
     trace (exec (loop_body Demo.failing_tick) Demo.configured) =
       trace Demo.configured ++
       [Log ERROR "Error in auto-reply loop: dictionary changed size during iteration";
        AsyncSleep 60] ++ logs /\
     Forall is_log logs /\
     loop_body Demo.failing_tick Demo.configured
       = (Ok tt, exec (loop_body Demo.failing_tick) Demo.configured)) /\
  start_with (env := Demo.env) Demo.failing_tick 5 Demo.configured
    = (Ok Exited, exec (start_with Demo.failing_tick 5) Demo.configured).
Proof.
  intros e. split; [reflexivity |].
  destruct (loop_survives_exceptions (env := Demo.env) Demo.failing_tick 5 Demo.configured)
    as (_ & Hcaught & _).
  split; [| vm_compute; reflexivity].
  destruct (Hcaught e Demo.configured eq_refl) as (logs & Ht & Hl & Hrun).
  exists logs. split; [exact Ht |]. split; [exact Hl |]. exact (Hrun demo_never_cancelled).
Defined.


(** The claim C7 as written fails: the loop is ended by an exception, with
    the running flag up, when the evaluation of the intent completion
    raises [SystemExit] in a tick, and when the task is cancelled during
    the sleep. *)
Lemma loop_ended_by_exception :
  (result (start (env := Backstage.exit_world) 3) Backstage.generating
   = Raise (SystemExit "None") /\
   is_running (exec (start (env := Backstage.exit_world) 3) Backstage.generating) = true) /\
  (result (start (env := Backstage.cancelling_world) 3) Backstage.idle = Raise CancelledError /\
   is_running (exec (start (env := Backstage.cancelling_world) 3) Backstage.idle) = true).
Proof. vm_compute. repeat split. Qed.

(** The claim C8 as written fails: after a tick has recorded a poll time for
    [shop_b], disabling the account removes it from the active set and its
    poll time is still there. *)
Lemma disabled_account_keeps_cursor :
  let st' := exec (update_config (env := Demo.env) "shop_b" Demo.disabled) Demo.polled in
  last_check_times Demo.polled !! "shop_b" = Some 6000000 /\
  PyDict.get "shop_b" (active_configs st') = None /\
  last_check_times st' !! "shop_b" = Some 6000000.
Proof. vm_compute. repeat split. Qed.

(** ** Further properties: the gateway wrappers *)

Section WrapperProperties.
Context {env : Collaborators}.

(** X1.  [send_auto_reply] never raises.  Without a session it answers
    [(False, "Client not logged in")] and does not touch the library; with a
    session it sleeps [DM_DELAY_SECONDS] only after a send that succeeded,
    and turns a library fault into [(False, message)]. *)
Theorem send_auto_reply_outcomes
        (username : string) (thread_id : PyVal) (message : string) (st : State) :
  let called := add_event (CallSendAutoReply username thread_id message) st in
  (username ∉ clients st ->
   send_auto_reply username thread_id message st
   = (Ok (false, Some "Client not logged in"), called)) /\
  (forall w, username ∈ clients st ->
     ig_direct_answer username thread_id message (world st) = (Ok tt, w) ->
     send_auto_reply username thread_id message st
     = (Ok (true, None),
        add_event (Log INFO ("Successfully sent auto-reply in thread " +:+ py_str thread_id))
          (add_event (TimeSleep settings.DM_DELAY_SECONDS) (set_world w called)))) /\
  (forall e w, username ∈ clients st ->
     ig_direct_answer username thread_id message (world st) = (Raise e, w) ->
     let reason := match e with
                   | LoginRequired _ => "Login required"
                   | _ => "Failed to send auto-reply: " +:+ exn_str e
                   end in
     let record := match e with
                   | LoginRequired _ => "Login required for " +:+ username
                   | _ => reason
                   end in
     send_auto_reply username thread_id message st
     = (Ok (false, Some reason), add_event (Log ERROR record) (set_world w called))).
Proof.
  intros called. unfold called, send_auto_reply, try_except, mbind, M_bind, emit, modify, gets,
    oracle, logger_error, logger_info, emit, modify. cbn.
  split; [| split].
  - intros Hout. rewrite (bool_decide_eq_false_2 _ Hout). reflexivity.
  - intros w Hin Hlib. rewrite (bool_decide_eq_true_2 _ Hin). cbn. rewrite Hlib. reflexivity.
  - intros e w Hin Hlib. rewrite (bool_decide_eq_true_2 _ Hin). cbn. rewrite Hlib.
    destruct e; reflexivity.
Qed.

(** X2.  a poll that cannot be made looks like an empty inbox.  Without a
    session [check_new_messages] returns [[]] after an error record and does
    not touch the library; when the library raises it returns [[]] as well. *)
Theorem check_new_messages_failure_is_empty (username : string) (st : State) :
  let called := add_event (CallCheckNewMessages username) st in
  (username ∉ clients st ->
   check_new_messages username st
   = (Ok [], add_event (Log ERROR ("Client not logged in for " +:+ username)) called)) /\
  (forall e w, username ∈ clients st ->
     ig_unseen_messages username (world st) = (Raise e, w) ->
     check_new_messages username st
     = (Ok [], add_event (Log ERROR (fetch_error_log username e)) (set_world w called))) /\
  (forall messages w, username ∈ clients st ->
     ig_unseen_messages username (world st) = (Ok messages, w) ->
     check_new_messages username st = (Ok messages, set_world w called)).
Proof.
  intros called. split; [| split].
  - intros Hout.
    unfold called, check_new_messages, try_except, mbind, M_bind, emit, modify, gets, oracle,
      logger_error, emit, modify. cbn.
    rewrite (bool_decide_eq_false_2 _ Hout). reflexivity.
  - intros e w Hin Hlib. apply check_new_messages_fault; assumption.
  - intros messages w Hin Hlib.
    unfold called, check_new_messages, try_except, mbind, M_bind, emit, modify, gets, oracle,
      logger_error, emit, modify. cbn.
    rewrite (bool_decide_eq_true_2 _ Hin). cbn. rewrite Hlib. reflexivity.
Qed.

End WrapperProperties.

(** ** Further properties: resolving and dispatching a reply *)

Section DispatchProperties.
Context {env : Collaborators}.

(** Every run of [send_auto_reply]: one call record, then only log records
    and the pause. *)
Lemma send_auto_reply_cases
      (username : string) (thread_id : PyVal) (message : string) (st : State) :
  exists r st' evs,
    send_auto_reply username thread_id message st = (Ok r, st') /\
    trace st' = trace st ++ CallSendAutoReply username thread_id message :: evs /\
    Forall send_aftermath evs.
Proof.
  unfold send_auto_reply, try_except, mbind, M_bind, emit, modify, gets, oracle,
    logger_error, logger_info, emit, modify. cbn.
  destruct (bool_decide (username ∈ clients st)); cbn.
  - destruct (ig_direct_answer username thread_id message (world st)) as [[[] | e] w].
    + eexists _, _, [_; _]. split; [reflexivity |]. split.
      * cbn. rewrite <- !app_assoc. reflexivity.
      * constructor; [right; reflexivity |].
        constructor; [left; exact I | constructor].
    + destruct e; (eexists _, _, [_]; split; [reflexivity |]; split;
        [cbn; rewrite <- !app_assoc; reflexivity
        | constructor; [left; exact I | constructor]]).
  - eexists _, _, []. split; [reflexivity |]. split; [reflexivity | constructor].
Qed.

(** X3.  No instance of [Exception] leaves [_get_reply_template], and it
    returns normally wherever the evaluation of the intent completion raises
    instances of [Exception] only.  A template the store does not have, or
    a lookup that raises, gives [None] after one error record and the
    generator is not called. *)
Theorem reply_template_missing_or_faulty
        (template_id : option string) (message : Message) (st : State) :
  absorbs (_get_reply_template template_id message) /\
  (generator_contained -> never_raises (_get_reply_template template_id message)) /\
  (forall w,
     db_get_template template_id (world st) = (Ok None, w) ->
     _get_reply_template template_id message st
     = (Ok None,
        add_event (Log ERROR ("Template " +:+ opt_str template_id +:+ " not found"))
          (after_lookup template_id w st))) /\
  (forall e w,
     db_get_template template_id (world st) = (Raise e, w) ->
     _get_reply_template template_id message st
     = (Ok None,
        add_event (Log ERROR ("Error getting reply template: " +:+ exn_str e))
          (after_lookup template_id w st))).
Proof.
  split; [apply absorbs_get_reply_template |].
  split; [apply never_raises_get_reply_template |]. split.
  - intros w Hdb. unfold _get_reply_template. apply try_ok.
    rewrite (bind_ok _ _ _ _ _ (get_template_run _ _ _ _ Hdb)). reflexivity.
  - intros e w Hdb. unfold _get_reply_template.
    rewrite (try_raise _ _ _ _ _ (bind_raise _ _ _ _ _ (get_template_run _ _ _ _ Hdb))).
    reflexivity.
Qed.

(** X4.  a message whose conditions fail is dropped without a trace: no
    lookup, no send, no log record, the state as it was. *)
Theorem process_message_condition_fails
        (username : string) (message : Message) (config : AutoReplyConfig) (st : State)
        (text : string) :
  message_text message = Some text ->
  check_conditions (str_lower text) (conditions config) = false ->
  _process_message username message config st = (Ok tt, st).
Proof.
  intros Htext Hcond. unfold _process_message. apply try_ok. unfold process_message_body.
  rewrite (bind_ok _ _ _ _ _ (should_reply_run message config st text Htext)).
  rewrite Hcond. reflexivity.
Qed.

(** X5.  a message whose ['text'] is not a string gets no reply, whatever the
    conditions: the only effect is the error record of [_should_reply]. *)
Theorem process_message_text_not_a_string
        (username : string) (message : Message) (config : AutoReplyConfig) (st : State) :
  message_text message = None ->
  exists e,
    py_lower (msg_get message "text" (PyStr "")) = Raise e /\
    _process_message username message config st
    = (Ok tt, add_event (Log ERROR ("Error checking reply conditions: " +:+ exn_str e)) st).
Proof.
  unfold message_text, msg_get. intros Htext.
  destruct (message !! "text") as [[| s | n]|] eqn:E; try discriminate.
  - eexists. split; [reflexivity |].
    unfold _process_message, process_message_body, _should_reply, try_except, mbind, M_bind,
      lift_outcome, msg_get, logger_error, emit, modify. rewrite E. reflexivity.
  - eexists. split; [reflexivity |].
    unfold _process_message, process_message_body, _should_reply, try_except, mbind, M_bind,
      lift_outcome, msg_get, logger_error, emit, modify. rewrite E. reflexivity.
Qed.

(** The resolver's answer for a plain template, inside [_process_message]. *)
Lemma process_message_plain_template
      (username : string) (message : Message) (config : AutoReplyConfig) (st : State)
      (text : string) (template : Template) (w : World) :
  message_text message = Some text ->
  check_conditions (str_lower text) (conditions config) = true ->
  db_get_template (template_id config) (world st) = (Ok (Some template), w) ->
  PyStr.startswith (content template) "AI:" = false ->
  process_message_body username message config st =
    match content template with
    | EmptyString => mret tt
    | String _ _ as reply =>
        thread_id ← lift_outcome (msg_index message "thread_id");
        '(success, error) ← send_auto_reply username thread_id reply;
        if success : bool then
          thread_id' ← lift_outcome (msg_index message "thread_id");
          logger_info ("Auto-reply sent successfully in thread " +:+ py_str thread_id')
        else
          logger_error ("Failed to send auto-reply: " +:+ opt_str error)
    end (after_lookup (template_id config) w st).
Proof.
  intros Htext Hcond Hdb Hm. unfold process_message_body.
  rewrite (bind_ok _ _ _ _ _ (should_reply_run message config st text Htext)).
  rewrite Hcond. cbn [negb].
  rewrite (bind_ok _ _ _ _ _
             (get_reply_template_plain (template_id config) message st template w Hdb Hm)).
  destruct (content template); reflexivity.
Qed.

(** X6.  a message that passes the conditions, with a plain non-empty
    template in the store and a thread id in the message, is answered by
    exactly one send: addressed to the message's thread, carrying the
    template content unchanged.  Whatever the send does, [_process_message]
    returns normally and only log records and the pause follow. *)
Theorem process_message_sends_template
        (username : string) (message : Message) (config : AutoReplyConfig) (st : State)
        (text : string) (template : Template) (w : World) (thread_id : PyVal) :
  message_text message = Some text ->
  check_conditions (str_lower text) (conditions config) = true ->
  db_get_template (template_id config) (world st) = (Ok (Some template), w) ->
  PyStr.startswith (content template) "AI:" = false ->
  content template <> "" ->
  message !! "thread_id" = Some thread_id ->
  exists st' evs,
    _process_message username message config st = (Ok tt, st') /\
    trace st' =
      trace st ++ [CallGetTemplate (template_id config);
                   CallSendAutoReply username thread_id (content template)] ++ evs /\
    Forall send_aftermath evs.
Proof.
  intros Htext Hcond Hdb Hm Hne Htid.
  pose proof (process_message_plain_template username message config st text template w
                Htext Hcond Hdb Hm) as Hbody.
  destruct (content template) as [|c reply] eqn:Hc; [contradiction |].
  cbn beta iota zeta in Hbody.
  set (s0 := after_lookup (template_id config) w st) in *.
  assert (Hidx : msg_index message "thread_id" = Ok thread_id).
  { unfold msg_index. rewrite Htid. reflexivity. }
  unfold _process_message.
  destruct (send_auto_reply_cases username thread_id (String c reply) s0)
    as (r & s1 & evs1 & Hsend & Ht1 & Hevs1).
  assert (Hlift : forall s : State,
             lift_outcome (msg_index message "thread_id") s = (Ok thread_id, s)).
  { intros s. unfold lift_outcome. rewrite Hidx. reflexivity. }
  assert (Hrun : exists s2 evs2,
             process_message_body username message config st = (Ok tt, s2) /\
             trace s2 = trace s1 ++ evs2 /\ Forall send_aftermath evs2).
  { rewrite Hbody, (bind_ok _ _ _ _ _ (Hlift s0)), (bind_ok _ _ _ _ _ Hsend).
    destruct r as [[|] error].
    - rewrite (bind_ok _ _ _ _ _ (Hlift s1)).
      eexists _, [_]. split; [reflexivity |]. split; [reflexivity |].
      constructor; [left; exact I | constructor].
    - eexists _, [_]. split; [reflexivity |]. split; [reflexivity |].
      constructor; [left; exact I | constructor]. }
  destruct Hrun as (s2 & evs2 & Hrun & Ht2 & Hevs2).
  exists s2, (evs1 ++ evs2). split; [apply try_ok, Hrun |]. split.
  - rewrite Ht2, Ht1. unfold s0. cbn [after_lookup set_world add_event trace].
    rewrite <- !app_assoc. reflexivity.
  - apply Forall_app. split; assumption.
Qed.

(** X7.  with the reply resolved but no ['thread_id'] in the message, the
    [KeyError] is caught and logged and the gateway is not asked to send. *)
Theorem process_message_missing_thread
        (username : string) (message : Message) (config : AutoReplyConfig) (st : State)
        (text : string) (template : Template) (w : World) :
  message_text message = Some text ->
  check_conditions (str_lower text) (conditions config) = true ->
  db_get_template (template_id config) (world st) = (Ok (Some template), w) ->
  PyStr.startswith (content template) "AI:" = false ->
  content template <> "" ->
  message !! "thread_id" = None ->
  _process_message username message config st
  = (Ok tt, add_event (Log ERROR "Error processing message: 'thread_id'")
              (after_lookup (template_id config) w st)).
Proof.
  intros Htext Hcond Hdb Hm Hne Htid.
  pose proof (process_message_plain_template username message config st text template w
                Htext Hcond Hdb Hm) as Hbody.
  destruct (content template) as [|c reply] eqn:Hc; [contradiction |].
  cbn beta iota zeta in Hbody. unfold _process_message.
  assert (Hraise : process_message_body username message config st
                   = (Raise (Exception (KeyError "'thread_id'")),
                      after_lookup (template_id config) w st)).
  { rewrite Hbody. unfold msg_index. rewrite Htid. reflexivity. }
  rewrite (try_raise _ _ _ _ _ Hraise). reflexivity.
Qed.

(** X8.  a stored template whose content is the empty string resolves to an
    empty reply, and an empty reply is not sent. *)
Theorem process_message_empty_template
        (username : string) (message : Message) (config : AutoReplyConfig) (st : State)
        (text : string) (template : Template) (w : World) :
  message_text message = Some text ->
  check_conditions (str_lower text) (conditions config) = true ->
  db_get_template (template_id config) (world st) = (Ok (Some template), w) ->
  content template = "" ->
  _process_message username message config st
  = (Ok tt, after_lookup (template_id config) w st).
Proof.
  intros Htext Hcond Hdb Hc.
  assert (Hm : PyStr.startswith (content template) "AI:" = false) by (rewrite Hc; reflexivity).
  pose proof (process_message_plain_template username message config st text template w
                Htext Hcond Hdb Hm) as Hbody.
  rewrite Hc in Hbody. unfold _process_message. apply try_ok. exact Hbody.
Qed.

End DispatchProperties.

(** ** Further properties: the scheduler's bookkeeping *)

Section DictMore.
Context {V : Type}.
Implicit Types (d : list (string * V)) (k : string) (v : V).

Lemma set_set k v d : PyDict.set k v (PyDict.set k v d) = PyDict.set k v d.
Proof.
  induction d as [|[k0 v0] d IH]; simpl.
  - rewrite String.eqb_refl. reflexivity.
  - destruct (String.eqb_spec k0 k) as [-> | Hk]; simpl.
    + rewrite String.eqb_refl. reflexivity.
    + destruct (String.eqb_spec k0 k); [contradiction |]. rewrite IH. reflexivity.
Qed.

Lemma keys_pop_fresh k d :
  PyDict.wf d -> ~ In k (PyDict.keys (PyDict.pop k d)).
Proof. intros H. apply get_in_keys, get_pop_eq, H. Qed.

End DictMore.

Section BookkeepingProperties.
Context {env : Collaborators}.

Lemma update_config_keeps_cursor (username : string) (config : AutoReplyConfig) (st : State) :
  last_check_times (exec (update_config username config) st) = last_check_times st.
Proof.
  unfold exec. rewrite update_config_run. destruct (is_enabled config); reflexivity.
Qed.

(** One check either leaves the poll times alone or writes the entry of its
    own account. *)
Lemma check_account_cursor (username : string) (config : AutoReplyConfig) (st : State) :
  let st' := exec (check_account username config) st in
  last_check_times st' = last_check_times st \/
  last_check_times st' =
    <[username := fst (datetime_now (world st))]> (last_check_times st).
Proof.
  intros st'. unfold st'.
  destruct (datetime_now (world st)) as [now w] eqn:Hnow. cbn [fst].
  destruct (due username now st) eqn:Hdue.
  - right.
    destruct (check_account_due username config st now w Hnow Hdue)
      as (messages & s1 & logs & Hc & _ & _ & Hrun).
    destruct (process_messages_quiet username config messages (record_poll username now s1))
      as [Hlast _].
    unfold exec at 1. rewrite Hrun. unfold exec in Hlast.
    rewrite Hlast. cbn [record_poll set_last_check_times last_check_times].
    pose proof (keeps_check_new_messages last_check_times username
                  (conj (fun _ _ => eq_refl) (fun _ _ => eq_refl)) (set_world w st)) as Hk.
    unfold exec in Hk. rewrite Hc in Hk. cbn [snd] in Hk. rewrite Hk. reflexivity.
  - left. unfold exec. rewrite (check_account_skip username config st now w Hnow Hdue).
    reflexivity.
Qed.

Lemma checks_keep_recorded (items : list (string * AutoReplyConfig)) (st : State) (username : string) :
  is_Some (last_check_times st !! username) ->
  is_Some (last_check_times
             (exec (for_each items (fun item => check_account (fst item) (snd item))) st)
           !! username).
Proof.
  revert st. induction items as [|[k v] items IH]; intros st Hsome; [exact Hsome |].
  cbn [for_each fst snd].
  assert (Hstep : is_Some (last_check_times (exec (check_account k v) st) !! username)).
  { destruct (check_account_cursor k v st) as [Heq | Heq]; rewrite Heq; [exact Hsome |].
    destruct (decide (k = username)) as [-> | Hne].
    - rewrite lookup_insert_eq. eexists. reflexivity.
    - rewrite lookup_insert_ne by exact Hne. exact Hsome. }
  destruct (absorbs_run (check_account k v) st (absorbs_check_account k v))
    as [[[] Hrun] | (b & _ & Hrun)].
  - unfold exec at 1. rewrite (bind_ok _ _ _ _ _ Hrun). apply IH, Hstep.
  - unfold exec at 1. rewrite (bind_raise _ _ _ _ _ Hrun). exact Hstep.
Qed.

Lemma checks_keep_others (items : list (string * AutoReplyConfig)) (st : State) (username : string) :
  (forall item, In item items -> fst item <> username) ->
  last_check_times
    (exec (for_each items (fun item => check_account (fst item) (snd item))) st) !! username
  = last_check_times st !! username.
Proof.
  intros Hother.
  apply (keeps_for_each (fun s => last_check_times s !! username)).
  intros item Hin. apply keeps_check_account.
  - split; intros; reflexivity.
  - intros now s. cbn. apply lookup_insert_ne, Hother, Hin.
Qed.

(** X9.  a tick leaves the running flag, the active configurations and the
    session map as they were.  Of the poll times it drops none, and it
    leaves the entry of an account outside the active set exactly as it
    was: only active accounts get their poll time written. *)
Theorem tick_bookkeeping (st : State) (username : string) :
  let st' := exec _check_new_messages st in
  is_running st' = is_running st /\
  active_configs st' = active_configs st /\
  clients st' = clients st /\
  (is_Some (last_check_times st !! username) ->
   is_Some (last_check_times st' !! username)) /\
  (PyDict.get username (active_configs st) = None ->
   last_check_times st' !! username = last_check_times st !! username).
Proof.
  intros st'. split; [| split; [| split; [| split]]].
  - apply (keeps_tick is_running); [split |]; reflexivity.
  - apply (keeps_tick active_configs); [split |]; reflexivity.
  - apply (keeps_tick clients); [split |]; reflexivity.
  - unfold st'. rewrite tick_exec. apply checks_keep_recorded.
  - intros Hnone. unfold st'. rewrite tick_exec. apply checks_keep_others.
    intros item. apply absent_other, Hnone.
Qed.

(** The active configurations after two updates in a row. *)
Lemma update_twice_run (username : string) (first second : AutoReplyConfig) (st : State) :
  let once := exec (update_config username first) st in
  exec (update_config username first ;; update_config username second) st
  = exec (update_config username second) once.
Proof.
  intros once. unfold once, exec at 1 3. unfold mbind, M_bind.
  rewrite (update_config_run username first st). reflexivity.
Qed.

(** X10.  an account that is disabled and enabled again keeps the poll time it
    had: until the tick interval has passed since that poll, the check of
    the re-enabled account is skipped and the gateway is not polled. *)
Theorem reenabled_account_waits_for_cooldown
        (username : string) (off on : AutoReplyConfig) (st : State) (last_check : Z) :
  is_enabled off = false ->
  is_enabled on = true ->
  last_check_times st !! username = Some last_check ->
  let st' := exec (update_config username off ;; update_config username on) st in
  fst (datetime_now (world st')) - last_check < settings.AUTO_REPLY_CHECK_INTERVAL * 1000000 ->
  PyDict.get username (active_configs st') = Some on /\
  check_account username on st' = (Ok tt, set_world (snd (datetime_now (world st'))) st').
Proof.
  intros Hoff Hon Hlast st' Hnear.
  assert (Hst' : st' = exec (update_config username on) (exec (update_config username off) st))
    by apply update_twice_run.
  assert (Hcursor : last_check_times st' !! username = Some last_check).
  { rewrite Hst', !update_config_keeps_cursor. exact Hlast. }
  split.
  - rewrite Hst'. unfold exec at 1. rewrite update_config_run, Hon. cbn. apply get_set_eq.
  - apply check_account_skip with (now := fst (datetime_now (world st'))).
    + destruct (datetime_now (world st')); reflexivity.
    + unfold due. rewrite Hcursor. apply negb_false_iff, Z.ltb_lt, Hnear.
Qed.

(** X11.  [update_config] is idempotent on the active set: applying the same
    update a second time changes no entry and no position. *)
Theorem update_config_idempotent
        (username : string) (config : AutoReplyConfig) (st : State) :
  PyDict.wf (active_configs st) ->
  active_configs (exec (update_config username config ;; update_config username config) st)
  = active_configs (exec (update_config username config) st).
Proof.
  intros Hwf. rewrite update_twice_run. unfold exec. rewrite !update_config_run.
  destruct (is_enabled config); cbn.
  - apply set_set.
  - apply pop_absent, get_pop_eq, Hwf.
Qed.

(** X12.  the order in which a tick visits the accounts.  Enabling an account
    that is already active replaces its configuration in place; enabling a
    new one puts it last; so an account that is disabled and enabled again
    moves to the end. *)
Theorem update_config_iteration_order
        (username : string) (config off : AutoReplyConfig) (st : State) :
  is_enabled config = true ->
  is_enabled off = false ->
  PyDict.wf (active_configs st) ->
  PyDict.keys (active_configs (exec (update_config username config) st))
  = match PyDict.get username (active_configs st) with
    | Some _ => PyDict.keys (active_configs st)
    | None => PyDict.keys (active_configs st) ++ [username]
    end /\
  PyDict.keys (active_configs
                 (exec (update_config username off ;; update_config username config) st))
  = PyDict.keys (PyDict.pop username (active_configs st)) ++ [username].
Proof.
  intros Hon Hoff Hwf. split.
  - unfold exec. rewrite update_config_run, Hon.
    cbn [snd active_configs add_event set_active_configs]. apply keys_set.
  - rewrite update_twice_run. unfold exec. rewrite !update_config_run, Hon, Hoff.
    cbn [snd active_configs add_event set_active_configs].
    rewrite keys_set, (get_pop_eq _ _ Hwf). reflexivity.
Qed.

(** What the calls delivered during a sleep do to the running flag. *)
Lemma deliveries_flag (calls : list Control) (st : State) :
  is_running (exec (for_each calls deliver) st)
  = if existsb (fun c => match c with CtlStop => true | _ => false end) calls
    then false else is_running st.
Proof.
  revert st. induction calls as [|c calls IH]; intros st; [reflexivity |].
  cbn [for_each existsb].
  assert (Hd : never_raises (deliver c)).
  { destruct c; [apply never_raises_stop | apply never_raises_update_config]. }
  destruct (never_raises_run (deliver c) st Hd) as [[] Hrun].
  unfold exec. rewrite (bind_ok _ _ _ _ _ Hrun). fold (exec (for_each calls deliver) (exec (deliver c) st)).
  rewrite IH. destruct c as [|username config]; cbn [orb deliver].
  - destruct (existsb _ calls); reflexivity.
  - rewrite (keeps_update_config is_running username config
               (conj (fun _ _ => eq_refl) (fun _ _ => eq_refl)) (fun _ _ => eq_refl) st).
    reflexivity.
Qed.

Lemma deliveries_world (calls : list Control) (st : State) :
  world (exec (for_each calls deliver) st) = world st.
Proof.
  revert st. induction calls as [|c calls IH]; intros st; [reflexivity |].
  cbn [for_each].
  destruct (never_raises_run (deliver c) st (never_raises_deliver c)) as [[] Hrun].
  unfold exec. rewrite (bind_ok _ _ _ _ _ Hrun).
  fold (exec (for_each calls deliver) (exec (deliver c) st)). rewrite IH.
  destruct c as [|username config]; [reflexivity |].
  cbn [deliver]. unfold exec. rewrite update_config_run.
  destruct (is_enabled config); reflexivity.
Qed.

(** A sleep during which [stop] is called ends with the flag down: it
    returns, or it raises [CancelledError] when the task was cancelled. *)
Lemma asyncio_sleep_stopped (seconds : Z) (s : State) :
  In CtlStop (fst (pending_controls (world s))) ->
  exists s',
    asyncio_sleep seconds s
    = (if fst (task_cancelled (snd (pending_controls (world s))))
       then Raise CancelledError else Ok tt, s') /\
    is_running s' = false.
Proof.
  intros Hstop.
  destruct (pending_controls (world s)) as [calls w'] eqn:Hc. cbn [fst snd] in *.
  set (s0 := set_world w' (add_event (AsyncSleep seconds) s)).
  destruct (never_raises_run (for_each calls deliver) s0) as [[] Hd].
  { apply never_raises_for_each, never_raises_deliver. }
  set (s1 := exec (for_each calls deliver) s0) in *.
  assert (Hw1 : world s1 = w') by (unfold s1; rewrite deliveries_world; reflexivity).
  destruct (task_cancelled w') as [cancelled w''] eqn:Ht. cbn [fst].
  exists (set_world w'' s1). split.
  - unfold asyncio_sleep.
    unfold mbind at 1, M_bind at 1, emit, modify.
    unfold mbind at 1, M_bind at 1, oracle_total at 1. cbn [world add_event].
    rewrite Hc. fold s0. rewrite (bind_ok _ _ _ _ _ Hd).
    unfold mbind, M_bind, oracle_total, raise. rewrite Hw1, Ht.
    destruct cancelled; reflexivity.
  - cbn [set_world is_running]. unfold s1. rewrite deliveries_flag.
    assert (He : existsb (fun c => match c with CtlStop => true | _ => false end) calls = true).
    { apply existsb_exists. exists CtlStop. split; [exact Hstop | reflexivity]. }
    rewrite He. reflexivity.
Qed.

(** X13.  [stop] is cooperative.  When it is called while an iteration is
    under way (during the tick or the sleep), the iteration still runs to
    the end of its sleep, and the loop exits at the next boundary without
    starting another tick, whether the tick returned or raised an instance
    of [Exception].  When the task is cancelled during that sleep the loop
    ends there with [CancelledError], the flag down; when the tick raised
    past [except Exception] the loop ended with that exception before the
    sleep. *)
Theorem stop_ends_loop_at_next_boundary (tick : M unit) (fuel : nat) (st : State) :
  is_running st = true ->
  In CtlStop (fst (pending_controls (world (exec tick st)))) ->
  let cancelled := fst (task_cancelled (snd (pending_controls (world (exec tick st))))) in
  (escaped (result tick st) = false -> cancelled = false ->
   while_is_running (S fuel) (loop_body tick) st = (Ok Exited, exec (loop_body tick) st)) /\
  (escaped (result tick st) = false -> cancelled = true ->
   while_is_running (S fuel) (loop_body tick) st
   = (Raise CancelledError, exec (loop_body tick) st) /\
   is_running (exec (loop_body tick) st) = false) /\
  (forall b, result tick st = Raise b -> escapes b = true ->
   while_is_running (S fuel) (loop_body tick) st = (Raise b, exec tick st)).
Proof.
  intros Hrun Hstop. cbv zeta.
  assert (Hbody : escaped (result tick st) = false ->
                  exists s',
                    loop_body tick st
                    = (if fst (task_cancelled (snd (pending_controls (world (exec tick st)))))
                       then Raise CancelledError else Ok tt, s') /\
                    is_running s' = false).
  { intros Htame. unfold result, exec in *.
    destruct (tick st) as [[[] | [e | | |]] s1] eqn:Htick; try discriminate;
      cbn [fst snd] in *.
    - rewrite (loop_body_ok tick st s1 Htick).
      exact (asyncio_sleep_stopped _ s1 Hstop).
    - rewrite (loop_body_raise tick st s1 e Htick).
      exact (asyncio_sleep_stopped _
               (add_event (Log ERROR ("Error in auto-reply loop: " +:+ exn_str e)) s1) Hstop). }
  split; [| split].
  - intros Htame Hcalm. destruct (Hbody Htame) as (s' & Hb & Hdown).
    rewrite Hcalm in Hb.
    rewrite (while_step fuel (loop_body tick) st s' Hrun Hb).
    unfold exec. rewrite Hb. apply while_exit, Hdown.
  - intros Htame Hcut. destruct (Hbody Htame) as (s' & Hb & Hdown).
    rewrite Hcut in Hb.
    rewrite (while_stop fuel (loop_body tick) st s' _ Hrun Hb).
    unfold exec. rewrite Hb. split; [reflexivity | exact Hdown].
  - intros b Hb Hesc. unfold result, exec in *.
    destruct (tick st) as [r s1] eqn:Htick. cbn [fst snd] in *. subst r.
    apply (while_stop fuel (loop_body tick) st s1 b Hrun).
    apply loop_body_escape; assumption.
Qed.

End BookkeepingProperties.

(** ** Further properties: the prompt and the template variables *)

Section PromptProperties.

Lemma append_assoc (a b c : string) : (a +:+ b) +:+ c = a +:+ (b +:+ c).
Proof.
  induction a as [|x a IH]; [reflexivity |].
  change (String x ((a +:+ b) +:+ c) = String x (a +:+ (b +:+ c))). rewrite IH. reflexivity.
Qed.

(** X14.  the prompt built for a message is the message line followed by the
    closing instruction whenever the context has none of the keys
    [previous_messages], [customer_info], [business_context].  The context
    of an auto-reply has only [intent_analysis] and [template_guide], so
    neither the template's guide nor the intent analysis reaches the
    prompt. *)
Theorem prompt_ignores_reply_context
        (message_content : PyVal) (context : gmap string PyVal) (reply : GenContext) :
  (context !! "previous_messages" = None ->
   context !! "customer_info" = None ->
   context !! "business_context" = None ->
   _prepare_prompt message_content (Some context) = _prepare_prompt message_content None) /\
  _prepare_prompt message_content (Some (reply_context reply))
  = "Message: " +:+ py_str message_content +:+ nl +:+ nl +:+ nl +:+
    "Generate a professional and engaging response:".
Proof.
  assert (Hgen : forall c : gmap string PyVal,
             c !! "previous_messages" = None -> c !! "customer_info" = None ->
             c !! "business_context" = None ->
             _prepare_prompt message_content (Some c) = _prepare_prompt message_content None).
  { intros c H1 H2 H3. unfold _prepare_prompt. rewrite H1, H2, H3.
    destruct (bool_decide (c = ∅)); reflexivity. }
  split; [apply Hgen |].
  rewrite Hgen by reflexivity. unfold _prepare_prompt.
  rewrite !append_assoc. reflexivity.
Qed.

End PromptProperties.

Section TemplateVariables.
Context {env : Collaborators}.
Import FileParser.

Lemma contains_tail (c : ascii) (s old : string) :
  PyStr.contains (String c s) old = false ->
  PyStr.startswith (String c s) old = false /\ PyStr.contains s old = false.
Proof. cbn [PyStr.contains]. intros H. apply orb_false_iff in H. exact H. Qed.

Lemma replace_absent (s old new : string) :
  PyStr.contains s old = false -> replace s old new = s.
Proof.
  unfold replace. induction s as [|c s IH]; intros H.
  - cbn [PyStr.contains] in H. rewrite orb_false_r in H.
    destruct old; [discriminate | reflexivity].
  - destruct (contains_tail c s old H) as [Hs Ht].
    cbn [replace_from]. destruct old as [|o old']; [discriminate |].
    rewrite Hs. rewrite (IH Ht). reflexivity.
Qed.

Lemma set_keys_from (k : string) (v : PyVal) (d : list (string * PyVal)) (k' : string) :
  In k' (PyDict.keys (PyDict.set k v d)) -> k' = k \/ In k' (PyDict.keys d).
Proof.
  rewrite keys_set. destruct (PyDict.get k d); [right; assumption |].
  intros Hin. apply in_app_or in Hin as [Hin | [<- | []]]; [right | left]; auto.
Qed.

Lemma lower_keys_from (user_data acc : list (string * PyVal)) (k : string) :
  In k (PyDict.keys
          (fold_left (fun data item => PyDict.set (str_lower (fst item)) (snd item) data)
                     user_data acc)) ->
  In k (PyDict.keys acc) \/ exists item, In item user_data /\ k = str_lower (fst item).
Proof.
  revert acc. induction user_data as [|item user_data IH]; intros acc Hin; [left; exact Hin |].
  cbn [fold_left] in Hin. destruct (IH _ Hin) as [Hacc | (item' & Hin' & ->)].
  - apply set_keys_from in Hacc as [-> | Hacc]; [| left; exact Hacc].
    right. exists item. split; [left |]; reflexivity.
  - right. exists item'. split; [right; exact Hin' | reflexivity].
Qed.

Lemma substitute_absent (data : list (string * PyVal)) (template : string) :
  (forall item, In item data ->
     PyStr.contains template ("{" +:+ fst item +:+ "}") = false) ->
  fold_left (fun processed item =>
               replace processed ("{" +:+ fst item +:+ "}") (py_str (snd item)))
            data template = template.
Proof.
  induction data as [|item data IH]; intros H; [reflexivity |].
  cbn [fold_left]. rewrite replace_absent by (apply H; left; reflexivity).
  apply IH. intros item' Hin. apply H. right. exact Hin.
Qed.

(** X15.  a template in which no placeholder of the recipient's columns occurs
    ([{key}] with the key in lower case) comes back unchanged. *)
Theorem template_without_placeholders_unchanged
        (template : string) (user_data : list (string * PyVal)) :
  (forall key value, In (key, value) user_data ->
     PyStr.contains template ("{" +:+ str_lower key +:+ "}") = false) ->
  process_template_variables template user_data = template.
Proof.
  intros H. unfold process_template_variables. apply substitute_absent.
  intros [k v] Hin. cbn [fst].
  assert (Hk : In k (PyDict.keys (lower_keys user_data))).
  { change k with (fst (k, v)). apply in_map, Hin. }
  destruct (lower_keys_from user_data [] k Hk) as [[] | ([k0 v0] & Hin0 & ->)].
  apply (H k0 v0 Hin0).
Qed.

(** The dictionary with lowered keys depends on the data through the
    lowered keys only. *)
Lemma lower_keys_columns (user_data acc : list (string * PyVal)) :
  fold_left (fun data item => PyDict.set (str_lower (fst item)) (snd item) data)
            user_data acc
  = fold_left (fun data item => PyDict.set (fst item) (snd item) data)
              (map (fun item => (str_lower (fst item), snd item)) user_data) acc.
Proof.
  revert acc. induction user_data as [|item user_data IH]; intros acc; [reflexivity |].
  cbn [map fold_left fst snd]. apply IH.
Qed.

(** X16.  the recipient's column names are matched without regard to case:
    two recipients whose columns, taken in order, have the same names once
    lowered and the same values give the same message. *)
Theorem template_variables_ignore_key_case
        (template : string) (user_data user_data' : list (string * PyVal)) :
  map (fun item => (str_lower (fst item), snd item)) user_data
  = map (fun item => (str_lower (fst item), snd item)) user_data' ->
  process_template_variables template user_data
  = process_template_variables template user_data'.
Proof.
  intros Hsame. unfold process_template_variables, lower_keys.
  rewrite !lower_keys_columns, Hsame. reflexivity.
Qed.

End TemplateVariables.

Section Substitution.
Context {env : Collaborators}.
Import FileParser.

Lemma startswith_append (p b : string) : PyStr.startswith (p +:+ b) p = true.
Proof. apply startswith_spec. exists b. reflexivity. Qed.

Lemma replace_from_skip (p b old new : string) :
  replace_from (String.length p) (p +:+ b) old new = replace_from O b old new.
Proof.
  induction p as [|c p IH]; [reflexivity |].
  change (replace_from (S (String.length p)) (String c (p +:+ b)) old new
          = replace_from O b old new).
  cbn [replace_from]. exact IH.
Qed.

Lemma contains_brace (s rest : string) :
  PyStr.contains s "{" = false -> PyStr.contains s (String "{" rest) = false.
Proof.
  intros H. destruct (PyStr.contains s (String "{" rest)) eqn:E; [| reflexivity].
  apply contains_spec in E as (a & b & ->).
  assert (Hin : PyStr.contains (a +:+ String "{" rest +:+ b) "{" = true).
  { apply contains_spec. exists a, (rest +:+ b). reflexivity. }
  rewrite Hin in H. discriminate.
Qed.

(** One occurrence of a placeholder, with no brace before or behind it. *)
Lemma replace_occurrence (before after k new : string) :
  PyStr.contains before "{" = false ->
  PyStr.contains after "{" = false ->
  replace (before +:+ ("{" +:+ k +:+ "}") +:+ after) ("{" +:+ k +:+ "}") new
  = before +:+ new +:+ after.
Proof.
  intros Hb Ha. unfold replace.
  change ("{" +:+ k +:+ "}") with (String "{" (k +:+ "}")).
  induction before as [|c before IH].
  - change ("" +:+ String "{" (k +:+ "}") +:+ after)
      with (String "{" ((k +:+ "}") +:+ after)).
    cbn [replace_from].
    change (String "{" ((k +:+ "}") +:+ after)) with (String "{" (k +:+ "}") +:+ after).
    rewrite startswith_append, replace_from_skip.
    change (replace_from 0 after (String "{" (k +:+ "}")) new)
      with (replace after (String "{" (k +:+ "}")) new).
    rewrite (replace_absent after _ new (contains_brace after _ Ha)). reflexivity.
  - destruct (contains_tail c before "{" Hb) as [Hs Ht].
    change (String c before +:+ String "{" (k +:+ "}") +:+ after)
      with (String c (before +:+ String "{" (k +:+ "}") +:+ after)).
    cbn [replace_from].
    assert (Hc : PyStr.startswith (String c (before +:+ String "{" (k +:+ "}") +:+ after))
                   (String "{" (k +:+ "}")) = false).
    { cbn [PyStr.startswith] in Hs |- *. rewrite andb_true_r in Hs. rewrite Hs. reflexivity. }
    rewrite Hc, (IH Ht). reflexivity.
Qed.

(** X17.  a template with one placeholder, and no other brace, for the only
    column of the recipient: the placeholder is replaced by the value as
    [str] prints it, whatever the case of the column's name. *)
Theorem template_variable_substituted
        (before after key : string) (value : PyVal) :
  PyStr.contains before "{" = false ->
  PyStr.contains after "{" = false ->
  process_template_variables (before +:+ ("{" +:+ str_lower key +:+ "}") +:+ after)
                             [(key, value)]
  = before +:+ py_str value +:+ after.
Proof.
  intros Hb Ha. unfold process_template_variables, lower_keys.
  cbn [fold_left PyDict.set fst snd].
  apply replace_occurrence; assumption.
Qed.

End Substitution.

(** ** Further properties: sessions, logins and the configuration route *)

Section GatewayProperties.
Context {env : Collaborators} {services : Services}.

Lemma login_refused (account : models.InstagramAccount) (s : Sessions) (n : Z) :
  login_attempts s !! models.username account = Some n ->
  settings.MAX_RETRIES <= n ->
  login account s = (Ok (false, Some "Maximum login attempts exceeded"), s).
Proof.
  intros Hn Hmax. unfold login, mbind, G_bind, g_gets. rewrite Hn.
  rewrite (proj2 (Z.leb_le _ _) Hmax). reflexivity.
Qed.

(** X18.  an account with [MAX_RETRIES] failed logins on its counter is
    refused before anything is tried: no library call, no log record, the
    counter as it was.  Since only a login that went through resets the
    counter, the refusal repeats however often [login] is called. *)
Theorem login_lockout (account : models.InstagramAccount) (s : Sessions) (n : Z) (calls : nat) :
  login_attempts s !! models.username account = Some n ->
  settings.MAX_RETRIES <= n ->
  login account s = (Ok (false, Some "Maximum login attempts exceeded"), s) /\
  Nat.iter calls (fun s' => snd (login account s')) s = s.
Proof.
  intros Hn Hmax. split; [apply (login_refused account s n Hn Hmax) |].
  induction calls as [|calls IH]; [reflexivity |].
  change (snd (login account (Nat.iter calls (fun s' => snd (login account s')) s)) = s).
  rewrite IH, (login_refused account s n Hn Hmax). reflexivity.
Qed.

(** What an attempt that is not refused does. *)
Lemma login_attempt (account : models.InstagramAccount) (s : Sessions) :
  let username := models.username account in
  (match login_attempts s !! username with
   | Some n => n < settings.MAX_RETRIES
   | None => True
   end) ->
  exists r s',
    login account s = (Ok r, s') /\
    (forall other, other <> username -> login_attempts s' !! other = login_attempts s !! other) /\
    (fst r = true ->
     snd r = None /\ login_attempts s' !! username = Some 0 /\ username ∈ clients (core s')) /\
    (fst r = false -> login_attempts s' !! username = Some (failures username s + 1)).
Proof.
  intros username Hopen.
  assert (Hgate : match login_attempts s !! username with
                  | Some n => settings.MAX_RETRIES <=? n
                  | None => false
                  end = false).
  { destruct (login_attempts s !! username); [apply Z.leb_gt, Hopen | reflexivity]. }
  unfold login. fold username. unfold mbind at 1, G_bind at 1, g_gets at 1. rewrite Hgate.
  unfold g_try, mbind, G_bind, on_core, _create_client, set_attempts, g_gets, mbind, M_bind,
    oracle, modify, logger_info, logger_error, emit, modify, mret, G_ret. cbn.
  destruct (ig_new_client username (world (core s))) as [[[] | e] w1].
  - cbn. destruct (ig_login username (models.password account) w1) as [[[] | e] w2]; cbn.
    + eexists _, _. split; [reflexivity |]. cbn. split; [| split; [| discriminate]].
      * intros other Hne. apply lookup_insert_ne. congruence.
      * intros _. split; [reflexivity |]. split; [apply lookup_insert_eq |].
        apply elem_of_union_l, elem_of_singleton. reflexivity.
    + eexists _, _. split; [reflexivity |]. cbn. split; [| split; [discriminate |]].
      * intros other Hne. apply lookup_insert_ne. congruence.
      * intros _. rewrite lookup_insert_eq. reflexivity.
  - cbn. eexists _, _. split; [reflexivity |]. cbn. split; [| split; [discriminate |]].
    + intros other Hne. apply lookup_insert_ne. congruence.
    + intros _. rewrite lookup_insert_eq. reflexivity.
Qed.

(** X19.  [login] never raises and keeps the count of failed logins: an
    attempt that is not refused either succeeds, which registers the session
    and resets the account's counter to 0, or fails, which adds one to it;
    the counters of the other accounts are not touched. *)
Theorem login_counts_failures (account : models.InstagramAccount) (s : Sessions) :
  let username := models.username account in
  failures username s < settings.MAX_RETRIES ->
  exists r s',
    login account s = (Ok r, s') /\
    (forall other, other <> username -> login_attempts s' !! other = login_attempts s !! other) /\
    (fst r = true ->
     snd r = None /\ failures username s' = 0 /\ username ∈ clients (core s')) /\
    (fst r = false -> failures username s' = failures username s + 1).
Proof.
  intros username Hopen.
  destruct (login_attempt account s) as (r & s' & Hrun & Hothers & Hok & Hfail).
  { fold username. unfold failures in Hopen.
    destruct (login_attempts s !! username); [exact Hopen | exact I]. }
  exists r, s'. split; [exact Hrun |]. split; [exact Hothers |]. split.
  - intros Hr. destruct (Hok Hr) as (Hnone & Hzero & Hin).
    fold username in Hzero, Hin. unfold failures. rewrite Hzero. auto.
  - intros Hr. specialize (Hfail Hr). fold username in Hfail. unfold failures at 1.
    rewrite Hfail. reflexivity.
Qed.

(** X20.  a login that fails after the client object was created leaves the
    account among the sessions: the session gate of [check_new_messages],
    [send_auto_reply] and [send_dm] is then open for an account that is not
    logged in. *)
Theorem failed_login_leaves_session
        (account : models.InstagramAccount) (s : Sessions) (e : exn) (w1 w2 : World) :
  let username := models.username account in
  failures username s < settings.MAX_RETRIES ->
  ig_new_client username (world (core s)) = (Ok tt, w1) ->
  ig_login username (models.password account) w1 = (Raise e, w2) ->
  exists s',
    login account s
    = (Ok (false, Some ("Login failed for " +:+ username +:+ ": " +:+ exn_str e)), s') /\
    username ∈ clients (core s') /\
    failures username s' = failures username s + 1.
Proof.
  intros username Hopen Hnew Hlogin.
  assert (Hgate : match login_attempts s !! username with
                  | Some n => settings.MAX_RETRIES <=? n
                  | None => false
                  end = false).
  { unfold failures in Hopen.
    destruct (login_attempts s !! username); [apply Z.leb_gt, Hopen | reflexivity]. }
  unfold login. fold username. unfold mbind at 1, G_bind at 1, g_gets at 1. rewrite Hgate.
  unfold g_try, mbind, G_bind, on_core, _create_client, set_attempts, g_gets, mbind, M_bind,
    oracle, modify, logger_info, logger_error, emit, modify, mret, G_ret. cbn.
  rewrite Hnew. cbn. rewrite Hlogin. cbn.
  eexists. split; [reflexivity |]. cbn.
  split; [apply elem_of_union_l, elem_of_singleton; reflexivity |].
  unfold failures. cbn. rewrite lookup_insert_eq. reflexivity.
Qed.

(** X21.  [logout] never raises.  For an account without a session it does
    nothing at all; with a session it removes the account when the library
    call returns and keeps it, after an error record, when the call
    raises. *)
Theorem logout_outcomes (username : string) (st : State) :
  (username ∉ clients st -> logout username st = (Ok tt, st)) /\
  (forall w, username ∈ clients st ->
     ig_logout username (world st) = (Ok tt, w) ->
     exists st', logout username st = (Ok tt, st') /\
                 (username ∉ clients st') /\
                 (forall other, other <> username ->
                    (other ∈ clients st' <-> other ∈ clients st))) /\
  (forall e w, username ∈ clients st ->
     ig_logout username (world st) = (Raise e, w) ->
     logout username st
     = (Ok tt, add_event (Log ERROR ("Error logging out " +:+ username +:+ ": " +:+ exn_str e))
                 (set_world w st))).
Proof.
  unfold logout, try_except, mbind, M_bind, gets, oracle, modify, logger_info, logger_error,
    emit, modify. cbn.
  split; [| split].
  - intros Hout. rewrite (bool_decide_eq_false_2 _ Hout). reflexivity.
  - intros w Hin Hlib. rewrite (bool_decide_eq_true_2 _ Hin), Hlib. cbn.
    eexists. split; [reflexivity |]. cbn. split.
    + rewrite elem_of_difference, elem_of_singleton. tauto.
    + intros other Hne. rewrite elem_of_difference, elem_of_singleton. tauto.
  - intros e w Hin Hlib. rewrite (bool_decide_eq_true_2 _ Hin), Hlib. reflexivity.
Qed.

(** X22.  [send_dm] never raises.  Without a session it answers
    [(False, "Client not logged in")] without touching the library; the
    pause of [DM_DELAY_SECONDS] follows a send that succeeded and only
    that; a library fault becomes [(False, message)]. *)
Theorem send_dm_outcomes (username target message : string) (st : State) :
  (username ∉ clients st ->
   send_dm username target message st = (Ok (false, Some "Client not logged in"), st)) /\
  (forall w, username ∈ clients st ->
     ig_direct_send username target message (world st) = (Ok tt, w) ->
     send_dm username target message st
     = (Ok (true, None),
        add_event (Log INFO ("Successfully sent DM to " +:+ target))
          (add_event (TimeSleep settings.DM_DELAY_SECONDS) (set_world w st)))) /\
  (forall e w, username ∈ clients st ->
     ig_direct_send username target message (world st) = (Raise e, w) ->
     exists reason record,
       send_dm username target message st
       = (Ok (false, Some reason), add_event (Log ERROR record) (set_world w st)) /\
       reason = match e with
                | LoginRequired _ => "Login required"
                | _ => "Failed to send DM to " +:+ target +:+ ": " +:+ exn_str e
                end).
Proof.
  unfold send_dm, try_except, mbind, M_bind, gets, oracle, modify, logger_info, logger_error,
    emit, modify. cbn.
  split; [| split].
  - intros Hout. rewrite (bool_decide_eq_false_2 _ Hout). reflexivity.
  - intros w Hin Hlib. rewrite (bool_decide_eq_true_2 _ Hin). cbn. rewrite Hlib. reflexivity.
  - intros e w Hin Hlib. rewrite (bool_decide_eq_true_2 _ Hin). cbn. rewrite Hlib.
    destruct e; eexists _, _; split; reflexivity.
Qed.

(** X23.  [configure_auto_reply] answers 404 for an account the store does
    not have, and 404 when the configuration is enabled with a non-empty
    template id the store does not have; a fault of the store becomes a 500
    after an error record.  In all three cases the manager is left as it
    was. *)
Theorem configure_auto_reply_rejections
        (username : string) (config : AutoReplyConfig) (st : State) :
  (forall w,
     db_get_account username (world st) = (Ok None, w) ->
     configure_auto_reply username config st
     = (Ok (models.HTTPException 404 "Account not found"), set_world w st)) /\
  (forall account w w',
     db_get_account username (world st) = (Ok (Some account), w) ->
     is_enabled config = true -> str_truthy (template_id config) = true ->
     db_get_template (template_id config) w = (Ok None, w') ->
     configure_auto_reply username config st
     = (Ok (models.HTTPException 404 "Template not found"),
        after_lookup (template_id config) w' (set_world w st))) /\
  (forall e w,
     db_get_account username (world st) = (Raise e, w) ->
     configure_auto_reply username config st
     = (Ok (models.HTTPException 500 (exn_str e)),
        add_event (Log ERROR ("Error configuring auto-reply: " +:+ exn_str e))
          (set_world w st))) /\
  (forall r st',
     configure_auto_reply username config st = (Ok (models.HTTPException (fst r) (snd r)), st') ->
     active_configs st' = active_configs st /\
     last_check_times st' = last_check_times st /\
     is_running st' = is_running st).
Proof.
  split; [| split; [| split]].
  - intros w Hdb. unfold configure_auto_reply, try_except, mbind, M_bind, oracle.
    rewrite Hdb. reflexivity.
  - intros account w w' Hdb Hon Htid Htpl.
    unfold configure_auto_reply. apply try_ok.
    unfold mbind at 1, M_bind at 1, oracle. rewrite Hdb, Hon, Htid. cbn [andb as_flow].
    rewrite (bind_ok _ _ _ _ _ (get_template_run (template_id config) (set_world w st) _ _ Htpl)).
    reflexivity.
  - intros e w Hdb. unfold configure_auto_reply, try_except, mbind, M_bind, oracle.
    rewrite Hdb. reflexivity.
  - intros [code detail] st'. cbn [fst snd].
    unfold configure_auto_reply, get_template, update_config, logger_info, logger_error, emit,
      modify, try_except, oracle.
    unfold mbind, M_bind, mret, M_ret.
    destruct (db_get_account username (world st)) as [[[account|] | e] w]; cbn.
    + destruct (is_enabled config); cbn.
      * destruct (str_truthy (template_id config)); cbn.
        -- destruct (db_get_template (template_id config) w) as [[[template|] | e] w']; cbn;
             intros H; inversion H; subst; repeat split.
        -- intros H; inversion H.
      * intros H; inversion H.
    + intros H; inversion H; subst; repeat split.
    + intros H; inversion H; subst; repeat split.
Qed.

(** X24.  for an account the store has, [configure_auto_reply] accepts a
    configuration that is disabled, or enabled without a template id (absent
    or empty), without looking any template up: it answers with success and
    leaves the manager as [update_config] does.  So an account can be
    enabled with a configuration that has no template. *)
Theorem configure_auto_reply_without_template_check
        (username : string) (config : AutoReplyConfig) (st : State)
        (account : models.InstagramAccount) (w : World) :
  db_get_account username (world st) = (Ok (Some account), w) ->
  is_enabled config = false \/ str_truthy (template_id config) = false ->
  configure_auto_reply username config st
  = (Ok (models.Respond
           {| models.success := true;
              models.message := "Auto-reply " +:+
                                (if is_enabled config then "enabled" else "disabled") +:+
                                " for " +:+ username |}),
     exec (update_config username config) (set_world w st)).
Proof.
  intros Hdb Hskip. unfold configure_auto_reply. apply try_ok.
  unfold mbind at 1, M_bind at 1, oracle. rewrite Hdb. cbn [as_flow].
  assert (Hcond : (is_enabled config && str_truthy (template_id config))%bool = false).
  { destruct Hskip as [-> | ->]; [reflexivity | apply andb_false_r]. }
  rewrite Hcond. unfold exec, mbind, M_bind. rewrite update_config_run. reflexivity.
Qed.

End GatewayProperties.

(** ** Further properties: the JSON store *)

Section DatabaseProperties.
Import Database.

Lemma has_username_spec (username : string) (acc : models.InstagramAccount) :
  has_username username acc = true <-> models.username acc = username.
Proof. apply String.eqb_eq. Qed.

Lemma find_app_none {A : Type} (f : A -> bool) (l1 l2 : list A) :
  List.find f l1 = None -> List.find f (l1 ++ l2) = List.find f l2.
Proof.
  induction l1 as [|x l1 IH]; [reflexivity |]. cbn [List.find app].
  destruct (f x); [discriminate | exact IH].
Qed.

Lemma find_app_some {A : Type} (f : A -> bool) (l1 l2 : list A) (x : A) :
  List.find f l1 = Some x -> List.find f (l1 ++ l2) = Some x.
Proof.
  induction l1 as [|y l1 IH]; [discriminate |]. cbn [List.find app].
  destruct (f y); [intros H; exact H | exact IH].
Qed.

Lemma existsb_find_none {A : Type} (f : A -> bool) (l : list A) :
  existsb f l = false <-> List.find f l = None.
Proof.
  induction l as [|x l IH]; [split; reflexivity |]. cbn [existsb List.find].
  destruct (f x); cbn [orb]; [split; discriminate | exact IH].
Qed.

(** X25.  [add_account] refuses a username the file already has and leaves the
    file as it is.  Otherwise it appends the account: [get_account] then
    finds it under its username, finds what it found before under any other,
    and the listing grows by this account at the end.  A file that cannot be
    read counts as empty, so the next account added replaces it. *)
Theorem add_account_round_trip
        (account : models.InstagramAccount) (file : JsonFile models.InstagramAccount) :
  let file' := snd (add_account account file) in
  (get_account (models.username account) file <> None ->
   add_account account file = (false, file)) /\
  (get_account (models.username account) file = None ->
   fst (add_account account file) = true /\
   get_account (models.username account) file' = Some account /\
   (forall other, other <> models.username account ->
      get_account other file' = get_account other file) /\
   list_accounts file' = list_accounts file ++ [account]) /\
  (file = Unreadable -> list_accounts file' = [account]).
Proof.
  intros file'. unfold file', add_account, get_account, list_accounts.
  split; [| split].
  - intros Hsome.
    destruct (existsb (has_username (models.username account)) (rows file)) eqn:E;
      [reflexivity |].
    apply existsb_find_none in E. contradiction.
  - intros Hnone. rewrite (proj2 (existsb_find_none _ _) Hnone). cbn [fst snd rows write].
    split; [reflexivity |]. split; [| split; [| reflexivity]].
    + rewrite (find_app_none _ _ _ Hnone). cbn [List.find].
      unfold has_username. rewrite String.eqb_refl. reflexivity.
    + intros other Hne.
      destruct (List.find (has_username other) (rows file)) as [found|] eqn:E.
      * apply find_app_some, E.
      * rewrite (find_app_none _ _ _ E). cbn [List.find].
        destruct (has_username other account) eqn:Hu; [| reflexivity].
        apply has_username_spec in Hu. congruence.
  - intros ->. reflexivity.
Qed.

Lemma filter_length_same {A : Type} (f : A -> bool) (l : list A) :
  length (List.filter f l) = length l -> List.filter f l = l.
Proof.
  induction l as [|x l IH]; [reflexivity |]. cbn [List.filter].
  destruct (f x); cbn [length]; intros H.
  - f_equal. apply IH. lia.
  - pose proof (List.filter_length_le f l). lia.
Qed.

Lemma find_filter_other {A : Type} (f g : A -> bool) (l : list A) :
  (forall x, f x = true -> g x = true) ->
  List.find f (List.filter g l) = List.find f l.
Proof.
  intros H. induction l as [|x l IH]; [reflexivity |]. cbn [List.filter List.find].
  destruct (g x) eqn:Hg; cbn [List.find].
  - destruct (f x); [reflexivity | exact IH].
  - destruct (f x) eqn:Hf; [rewrite (H x Hf) in Hg; discriminate | exact IH].
Qed.

Lemma find_filter_self {A : Type} (f : A -> bool) (l : list A) :
  List.find f (List.filter (fun x => negb (f x)) l) = None.
Proof.
  induction l as [|x l IH]; [reflexivity |]. cbn [List.filter].
  destruct (f x) eqn:Hf; cbn [negb List.find]; [exact IH | rewrite Hf; exact IH].
Qed.

Lemma find_none_filter {A : Type} (f : A -> bool) (l : list A) :
  List.find f l = None -> List.filter (fun x => negb (f x)) l = l.
Proof.
  induction l as [|x l IH]; [reflexivity |]. cbn [List.find List.filter].
  destruct (f x); [discriminate |]. cbn [negb]. intros H. rewrite (IH H). reflexivity.
Qed.

(** X26.  [delete_account] reports [True] exactly when the file had the
    username.  Afterwards the username is not found, every other account is
    found as before; a file without the username is not written at all. *)
Theorem delete_account_removes
        (username : string) (file : JsonFile models.InstagramAccount) :
  let file' := snd (delete_account username file) in
  (fst (delete_account username file) = true <-> get_account username file <> None) /\
  get_account username file' = None /\
  (forall other, other <> username -> get_account other file' = get_account other file) /\
  (get_account username file = None -> file' = file).
Proof.
  intros file'. unfold file', delete_account, get_account.
  set (accounts := rows file).
  set (filtered := List.filter (fun acc => negb (has_username username acc)) accounts).
  destruct (Nat.eqb_spec (length filtered) (length accounts)) as [Hlen | Hlen]; cbn [negb fst snd].
  - pose proof (filter_length_same _ _ Hlen) as Hsame. fold filtered in Hsame.
    assert (Hnone : List.find (has_username username) accounts = None).
    { rewrite <- Hsame. apply find_filter_self. }
    fold accounts. rewrite Hnone. repeat split; try discriminate; try reflexivity.
    intros H. contradiction.
  - assert (Hsome : List.find (has_username username) accounts <> None).
    { intros Hnone. apply Hlen. unfold filtered. rewrite (find_none_filter _ _ Hnone).
      reflexivity. }
    cbn [rows write]. split; [tauto |]. split; [apply find_filter_self |]. split.
    + intros other Hne. apply find_filter_other. intros acc Hacc.
      apply has_username_spec in Hacc. apply negb_true_iff.
      destruct (has_username username acc) eqn:Hu; [| reflexivity].
      apply has_username_spec in Hu. congruence.
    + intros Hnone. contradiction.
Qed.

Lemma find_none_not_in (username : string) (l : list models.InstagramAccount) :
  List.find (has_username username) l = None -> ~ In username (map models.username l).
Proof.
  induction l as [|acc l IH]; [intros _ [] |]. cbn [List.find map].
  destruct (has_username username acc) eqn:Hu; [discriminate |].
  intros Hnone [Heq | Hin]; [| exact (IH Hnone Hin)].
  apply has_username_spec in Heq. congruence.
Qed.

Lemma NoDup_filter_map {A B : Type} (g : A -> B) (f : A -> bool) (l : list A) :
  List.NoDup (map g l) -> List.NoDup (map g (List.filter f l)).
Proof.
  induction l as [|x l IH]; [intros H; exact H |]. cbn [map List.filter].
  intros H. inversion H as [|? ? Hnot Hrest]; subst.
  destruct (f x); [| apply IH, Hrest]. cbn [map]. constructor; [| apply IH, Hrest].
  intros Hin. apply Hnot. apply in_map_iff in Hin as (y & Hy & Hiny).
  apply in_map_iff. exists y. split; [exact Hy |]. apply List.filter_In in Hiny. tauto.
Qed.

(** X27.  the usernames of the accounts file stay unique: if no username is
    there twice, none is after [add_account] or [delete_account]. *)
Theorem accounts_stay_unique
        (account : models.InstagramAccount) (username : string)
        (file : JsonFile models.InstagramAccount) :
  unique_usernames file ->
  unique_usernames (snd (add_account account file)) /\
  unique_usernames (snd (delete_account username file)).
Proof.
  unfold unique_usernames. intros Huniq. split.
  - unfold add_account.
    destruct (existsb (has_username (models.username account)) (rows file)) eqn:E;
      [exact Huniq |].
    apply existsb_find_none in E. cbn [snd rows write].
    rewrite map_app. cbn [map]. apply List.NoDup_app.
    + exact Huniq.
    + repeat constructor. intros [].
    + intros x Hx [<- | []]. exact (find_none_not_in _ _ E Hx).
  - unfold delete_account.
    destruct (negb _); cbn [snd rows write]; [| exact Huniq].
    apply NoDup_filter_map, Huniq.
Qed.

(** X28.  [add_template] keeps an id that is given and otherwise makes one from
    the number of stored templates plus one.  A lookup by the id of the
    added template finds it only when no stored template had that id
    already: otherwise it keeps finding the older one, which is what
    happens to a generated id after a deletion has shortened the file. *)
Theorem add_template_lookup (row : TemplateRow) (file : JsonFile TemplateRow) :
  let template_id := fst (add_template row file) in
  let file' := snd (add_template row file) in
  let stored := if str_truthy (tpl_id (template row)) then row
                else with_id (generated_id (length (rows file) + 1)) row in
  template_id = (if str_truthy (tpl_id (template row)) then opt_str (tpl_id (template row))
                 else generated_id (length (rows file) + 1)) /\
  rows file' = rows file ++ [stored] /\
  get_template template_id file'
  = match get_template template_id file with
    | Some older => Some older
    | None => Some stored
    end.
Proof.
  intros template_id file' stored. unfold template_id, file', add_template. cbn [fst snd].
  fold stored.
  assert (Hid : tpl_id (template stored) = Some (opt_str (tpl_id (template stored)))).
  { unfold stored. destruct (tpl_id (template row)) as [[|c i]|] eqn:E; cbn;
      rewrite ?E; reflexivity. }
  split; [| split; [reflexivity |]].
  - unfold stored. destruct (str_truthy (tpl_id (template row))); reflexivity.
  - unfold get_template. cbn [rows write].
    destruct (List.find (has_id (opt_str (tpl_id (template stored)))) (rows file)) as [older|] eqn:E.
    + apply find_app_some, E.
    + rewrite (find_app_none _ _ _ E). cbn [List.find]. unfold has_id at 1.
      rewrite Hid, String.eqb_refl. reflexivity.
Qed.

End DatabaseProperties.

(** ** Further properties: the bulk campaign *)

Section BulkProperties.
Context {env : Collaborators} {services : Services}.
Import campaigns.

Lemma send_dm_returns (username target message : string) (st : State) :
  exists r st', send_dm username target message st = (Ok r, st').
Proof.
  unfold send_dm, try_except, mbind, M_bind, gets, oracle, modify, logger_info, logger_error,
    emit, modify. cbn.
  destruct (bool_decide (username ∈ clients st)); cbn; [| eexists _, _; reflexivity].
  destruct (ig_direct_send username target message (world st)) as [[[] | e] w]; cbn.
  - eexists _, _. reflexivity.
  - destruct e; eexists _, _; reflexivity.
Qed.

Lemma in_core_run {A : Type} (c : M A) (s : Backend) (r : A) (st' : State) :
  c (core (gateway s)) = (Ok r, st') ->
  in_core c s
  = (Ok r, mkBackend (mkSessions st' (login_attempts (gateway s))) (active_campaigns s)).
Proof. intros H. unfold in_core, on_gateway, on_core. rewrite H. reflexivity. Qed.

(** One recipient who has a username: counted once, as sent or as failed
    with an entry in [errors]. *)
Lemma process_recipient_counts
      (id username content : string) (recipient : list (string * PyVal))
      (s : Backend) (c : DMCampaignStatus) :
  active_campaigns s !! id = Some c ->
  PyDict.get "username" recipient <> None ->
  exists st' c',
    process_recipient id username content recipient s
    = (Ok tt, mkBackend (mkSessions st' (login_attempts (gateway s)))
                        (<[id := c']> (active_campaigns s))) /\
    (c' = count_sent c \/ exists entry, c' = append_error entry (count_failed c)).
Proof.
  intros Hc Hkey. destruct (PyDict.get "username" recipient) as [target|] eqn:Ht;
    [clear Hkey | contradiction].
  assert (Hidx : dict_index recipient "username" = Ok target).
  { unfold dict_index. rewrite Ht. reflexivity. }
  destruct (send_dm_returns username (py_str target)
              (FileParser.process_template_variables content recipient) (core (gateway s)))
    as ([success error] & st' & Hsend).
  assert (Hbody : forall k : PyVal -> B unit,
             (b_lift (dict_index recipient "username") ≫= k) s = k target s).
  { intros k. unfold mbind, B_bind, b_lift. rewrite Hidx. reflexivity. }
  destruct success.
  - exists st', (count_sent c). split; [| left; reflexivity].
    unfold process_recipient, b_try. rewrite Hbody.
    unfold mbind at 1, B_bind at 1. rewrite (in_core_run _ _ _ _ Hsend).
    unfold mutate. cbn. rewrite Hc. reflexivity.
  - exists st', (append_error [("username", target); ("error", opt_val error)] (count_failed c)).
    split; [| right; eexists; reflexivity].
    unfold process_recipient, b_try. rewrite Hbody.
    unfold mbind at 1, B_bind at 1. rewrite (in_core_run _ _ _ _ Hsend).
    unfold mbind, B_bind, mutate, b_lift. cbn. rewrite Hc, Hidx. cbn.
    rewrite lookup_insert_eq, insert_insert_eq. reflexivity.
Qed.

(** The loop over recipients who all have a username. *)
Lemma bulk_loop_steps
        (id username content : string) (recipients : list (list (string * PyVal)))
        (s : Backend) (c : DMCampaignStatus) :
  active_campaigns s !! id = Some c ->
  (forall recipient, In recipient recipients -> PyDict.get "username" recipient <> None) ->
  exists s' c',
    b_for_each recipients (process_recipient id username content) s = (Ok tt, s') /\
    active_campaigns s' = <[id := c']> (active_campaigns s) /\
    login_attempts (gateway s') = login_attempts (gateway s) /\
    sent_messages c' + failed_messages c'
    = sent_messages c + failed_messages c + Z.of_nat (length recipients) /\
    sent_messages c <= sent_messages c' /\
    Z.of_nat (length (errors c'))
    = Z.of_nat (length (errors c)) + (failed_messages c' - failed_messages c) /\
    status c' = status c /\ total_messages c' = total_messages c /\ end_time c' = end_time c.
Proof.
  revert s c. induction recipients as [|recipient recipients IH]; intros s c Hc Hkeys.
  - exists s, c. split; [reflexivity |]. split; [symmetry; apply insert_id, Hc |].
    cbn [length]. repeat split; lia.
  - destruct (process_recipient_counts id username content recipient s c Hc)
      as (st1 & c1 & Hrun & Hc1).
    { apply Hkeys. left. reflexivity. }
    set (s1 := mkBackend (mkSessions st1 (login_attempts (gateway s)))
                         (<[id := c1]> (active_campaigns s))) in *.
    destruct (IH s1 c1) as (s' & c' & Hrest & Hmap & Hatt & Hsum & Hsent & Herr & Hst & Htot & Hend).
    { cbn. apply lookup_insert_eq. }
    { intros r Hr. apply Hkeys. right. exact Hr. }
    exists s', c'. cbn [b_for_each].
    unfold mbind at 1, B_bind at 1. rewrite Hrun. split; [exact Hrest |].
    split; [rewrite Hmap; cbn; apply insert_insert_eq |]. split; [exact Hatt |].
    cbn [length]. rewrite Nat2Z.inj_succ.
    destruct Hc1 as [-> | [entry ->]]; cbn in *;
      rewrite ?length_app in *; cbn [length] in *; repeat split;
      first [assumption | lia].
Qed.

(** X29.  a recipient without a [username] aborts the campaign loop.  The
    [KeyError] of the [try] block is caught, the failure is counted, and the
    handler raises the same [KeyError] when it builds the entry for
    [errors]: no entry is added, the exception leaves the loop, and the
    recipients behind are never processed. *)
Theorem recipient_without_username_aborts
        (id username content : string) (recipient : list (string * PyVal))
        (others : list (list (string * PyVal))) (s : Backend) (c : DMCampaignStatus) :
  active_campaigns s !! id = Some c ->
  PyDict.get "username" recipient = None ->
  let aborted := mkBackend (gateway s) (<[id := count_failed c]> (active_campaigns s)) in
  process_recipient id username content recipient s
  = (Raise (Exception (KeyError "'username'")), aborted) /\
  b_for_each (recipient :: others) (process_recipient id username content) s
  = (Raise (Exception (KeyError "'username'")), aborted).
Proof.
  intros Hc Hkey aborted.
  assert (Hrun : process_recipient id username content recipient s
                 = (Raise (Exception (KeyError "'username'")), aborted)).
  { unfold process_recipient, b_try, mbind, B_bind, b_lift, dict_index, mutate.
    rewrite Hkey. cbn. rewrite Hc. reflexivity. }
  split; [exact Hrun |].
  cbn [b_for_each]. unfold mbind, B_bind. rewrite Hrun. reflexivity.
Qed.

Lemma login_returns (account : models.InstagramAccount) (g : Sessions) :
  exists r g', login account g = (Ok r, g').
Proof.
  unfold login. unfold mbind at 1, G_bind at 1, g_gets at 1.
  destruct (match login_attempts g !! models.username account with
            | Some n => settings.MAX_RETRIES <=? n
            | None => false
            end); [eexists _, _; reflexivity |].
  unfold g_try, mbind, G_bind, on_core, _create_client, set_attempts, g_gets, mbind, M_bind,
    oracle, modify, logger_info, logger_error, emit, modify, mret, G_ret. cbn.
  destruct (ig_new_client (models.username account) (world (core g))) as [[[] | e] w1]; cbn.
  - destruct (ig_login (models.username account) (models.password account) w1)
      as [[[] | e] w2]; cbn; eexists _, _; reflexivity.
  - eexists _, _. reflexivity.
Qed.

Lemma b_bind_ok {A C : Type} (c : B A) (k : A -> B C) (s s' : Backend) (a : A) :
  c s = (Ok a, s') -> (c ≫= k) s = k a s'.
Proof. intros H. unfold mbind, B_bind. rewrite H. reflexivity. Qed.

Lemma b_bind_raise {A C : Type} (c : B A) (k : A -> B C) (s s' : Backend)
      (b : BaseException) :
  c s = (Raise b, s') -> (c ≫= k) s = (Raise b, s').
Proof. intros H. unfold mbind, B_bind. rewrite H. reflexivity. Qed.

Lemma in_core_oracle {A : Type} (f : World -> outcome A * World) (s : Backend) a w :
  f (world (core (gateway s))) = (Ok a, w) ->
  in_core (oracle f) s
  = (Ok a, mkBackend (mkSessions (set_world w (core (gateway s))) (login_attempts (gateway s)))
                     (active_campaigns s)).
Proof. intros H. unfold in_core, on_gateway, on_core, oracle. rewrite H. reflexivity. Qed.

Lemma in_core_oracle_raise {A : Type} (f : World -> outcome A * World) (s : Backend)
      (e : exn) w :
  f (world (core (gateway s))) = (Raise e, w) ->
  in_core (oracle f) s
  = (Raise (Exception e),
     mkBackend (mkSessions (set_world w (core (gateway s))) (login_attempts (gateway s)))
               (active_campaigns s)).
Proof. intros H. unfold in_core, on_gateway, on_core, oracle. rewrite H. reflexivity. Qed.

Lemma in_core_now (s : Backend) now w :
  datetime_now (world (core (gateway s))) = (now, w) ->
  in_core (oracle_total datetime_now) s
  = (Ok now,
     mkBackend (mkSessions (set_world w (core (gateway s))) (login_attempts (gateway s)))
               (active_campaigns s)).
Proof. intros H. unfold in_core, on_gateway, on_core, oracle_total. rewrite H. reflexivity. Qed.

Lemma on_gateway_run {A : Type} (c : G A) (s : Backend) r g' :
  c (gateway s) = (r, g') -> on_gateway c s = (r, mkBackend g' (active_campaigns s)).
Proof. intros H. unfold on_gateway. rewrite H. reflexivity. Qed.

Lemma mutate_run (id : string) (f : DMCampaignStatus -> DMCampaignStatus)
      (s : Backend) (c : DMCampaignStatus) :
  active_campaigns s !! id = Some c ->
  mutate id f s = (Ok tt, mkBackend (gateway s) (<[id := f c]> (active_campaigns s))).
Proof. intros H. unfold mutate. rewrite H. reflexivity. Qed.

(** No step of a campaign lets out an exception that [except Exception]
    does not catch: the store and the session library raise instances of
    [Exception] only, and the campaign evaluates no generated text. *)
Lemma b_bind_escaped {A C : Type} (c : B A) (k : A -> B C) (s : Backend) :
  escaped (fst (c s)) = false ->
  (forall a s', escaped (fst (k a s')) = false) ->
  escaped (fst ((c ≫= k) s)) = false.
Proof.
  intros Hc Hk. unfold mbind, B_bind. destruct (c s) as [[a | b] s1]; [apply Hk | exact Hc].
Qed.

Lemma b_try_escaped {A : Type} (body : B A) (handler : exn -> B A) (s : Backend) :
  escaped (fst (body s)) = false ->
  (forall e s', escaped (fst (handler e s')) = false) ->
  escaped (fst (b_try body handler s)) = false.
Proof.
  intros Hb Hh. unfold b_try. destruct (body s) as [[a | [e | code | |]] s1];
    first [apply Hh | exact Hb | reflexivity].
Qed.

Lemma b_lift_escaped {A : Type} (o : outcome A) (s : Backend) :
  escaped (fst (b_lift o s)) = false.
Proof. destruct o; reflexivity. Qed.

Lemma in_core_oracle_escaped {A : Type} (f : World -> outcome A * World) (s : Backend) :
  escaped (fst (in_core (oracle f) s)) = false.
Proof.
  unfold in_core, on_gateway, on_core, oracle.
  destruct (f (world (core (gateway s)))) as [[a | e] w]; reflexivity.
Qed.

Lemma process_recipient_escaped
      (id username content : string) (recipient : list (string * PyVal)) (s : Backend) :
  escaped (fst (process_recipient id username content recipient s)) = false.
Proof.
  unfold process_recipient. apply b_try_escaped.
  - apply b_bind_escaped; [apply b_lift_escaped |]. intros target s1.
    apply b_bind_escaped.
    + destruct (send_dm_returns username (py_str target)
                  (FileParser.process_template_variables content recipient)
                  (core (gateway s1))) as (r & st' & Hsend).
      rewrite (in_core_run _ _ _ _ Hsend). reflexivity.
    + intros [[] error] s2; [reflexivity |].
      apply b_bind_escaped; [reflexivity |]. intros _ s3.
      apply b_bind_escaped; [apply b_lift_escaped |]. reflexivity.
  - intros e s1. apply b_bind_escaped; [reflexivity |]. intros _ s2.
    apply b_bind_escaped; [apply b_lift_escaped |]. reflexivity.
Qed.

Lemma b_for_each_escaped {A : Type} (l : list A) (body : A -> B unit) (s : Backend) :
  (forall x s', escaped (fst (body x s')) = false) ->
  escaped (fst (b_for_each l body s)) = false.
Proof.
  intros Hbody. revert s. induction l as [|x l IH]; intros s; [reflexivity |].
  cbn [b_for_each]. apply b_bind_escaped; [apply Hbody |]. intros _ s'. apply IH.
Qed.

(** The [except] branch of [process_bulk_dms] returns, whatever it caught. *)
Lemma bulk_failure_returns (id : string) (e : exn) (s : Backend) :
  exists s',
    (in_core (logger_error ("Campaign " +:+ id +:+ " failed: " +:+ exn_str e)) ;;
     present ← b_gets (fun s => active_campaigns s !! id);
     match present with
     | Some _ =>
         now ← in_core (oracle_total datetime_now);
         mutate id (finish "failed" now) ;;
         mutate id (append_error [("error", PyStr (exn_str e))])
     | None => mret tt
     end) s = (Ok tt, s').
Proof.
  erewrite b_bind_ok by reflexivity.
  erewrite b_bind_ok by (unfold b_gets; reflexivity).
  cbn [active_campaigns in_core on_gateway on_core logger_error emit modify].
  destruct (active_campaigns s !! id) as [c |]; [| eexists; reflexivity].
  unfold mbind, B_bind, in_core, on_gateway, on_core, oracle_total, mutate. cbn.
  destruct (datetime_now (world (core (gateway s)))) as [now w]. eexists. reflexivity.
Qed.

(** [process_bulk_dms] returns for every campaign id, recipient list,
    template, account name and state of the backend. *)
Lemma process_bulk_dms_returns
      (id : string) (recipients : list (list (string * PyVal))) (template : Template)
      (account_name : option string) (s : Backend) :
  exists s', process_bulk_dms id recipients template account_name s = (Ok tt, s').
Proof.
  unfold process_bulk_dms.
  match goal with
  | |- exists s', b_try ?body ?handler s = _ =>
      assert (Hbody : escaped (fst (body s)) = false)
  end.
  { apply b_bind_escaped; [reflexivity |]. intros [c |] s1; [| reflexivity].
    apply b_bind_escaped.
    - destruct (str_truthy account_name); [reflexivity |].
      apply b_bind_escaped; [apply in_core_oracle_escaped |].
      intros [| first others] s2; reflexivity.
    - intros username s2. apply b_bind_escaped; [apply in_core_oracle_escaped |].
      intros [account |] s3; [| reflexivity].
      apply b_bind_escaped.
      + destruct (login_returns account (gateway s3)) as (r & g' & Hlogin).
        rewrite (on_gateway_run _ _ _ _ Hlogin). reflexivity.
      + intros [[] error] s4; [| reflexivity].
        apply b_bind_escaped.
        * apply b_for_each_escaped. intros recipient s5. apply process_recipient_escaped.
        * intros _ s5. apply b_bind_escaped; [| reflexivity].
          unfold in_core, on_gateway, on_core, oracle_total.
          destruct (datetime_now _); reflexivity. }
  unfold b_try.
  match goal with
  | |- exists s', match ?body s with _ => _ end = _ =>
      destruct (body s) as [[[] | [e | code | |]] s1]
  end; try discriminate Hbody.
  - eexists. reflexivity.
  - apply bulk_failure_returns.
Qed.

(** The [except] branch of [process_bulk_dms] for a campaign that is held. *)
Lemma bulk_failure_run (id : string) (e : exn) (s : Backend) (c : DMCampaignStatus) :
  active_campaigns s !! id = Some c ->
  exists s' now,
    (in_core (logger_error ("Campaign " +:+ id +:+ " failed: " +:+ exn_str e)) ;;
     present ← b_gets (fun s => active_campaigns s !! id);
     match present with
     | Some _ =>
         now ← in_core (oracle_total datetime_now);
         mutate id (finish "failed" now) ;;
         mutate id (append_error [("error", PyStr (exn_str e))])
     | None => mret tt
     end) s = (Ok tt, s') /\
    active_campaigns s'
    = <[id := append_error [("error", PyStr (exn_str e))] (finish "failed" now c)]>
        (active_campaigns s).
Proof.
  intros Hc.
  destruct (datetime_now (world (core (gateway s)))) as [now w] eqn:Hnow.
  eexists _, now. split.
  - erewrite b_bind_ok by reflexivity.
    erewrite b_bind_ok by (unfold b_gets; reflexivity).
    cbn [active_campaigns in_core on_gateway on_core logger_error emit modify]. rewrite Hc.
    erewrite b_bind_ok by (apply in_core_now; exact Hnow).
    erewrite b_bind_ok by (apply mutate_run; exact Hc).
    apply mutate_run. cbn. apply lookup_insert_eq.
  - cbn. apply insert_insert_eq.
Qed.

(** The part of the [try] block that follows the choice of the account. *)
Lemma bulk_send_run
      (id username : string) (recipients : list (list (string * PyVal))) (template : Template)
      (s : Backend) (c : DMCampaignStatus) :
  active_campaigns s !! id = Some c ->
  (forall recipient, In recipient recipients -> PyDict.get "username" recipient <> None) ->
  let rest :=
    (account ← in_core (oracle (db_get_account username));
     match account with
     | None => b_raise (OtherException ("Account " +:+ username +:+ " not found"))
     | Some account =>
         '(success, error) ← on_gateway (login account);
         if success : bool then
           b_for_each recipients (process_recipient id username (content template)) ;;
           now ← in_core (oracle_total datetime_now);
           mutate id (finish "completed" now)
         else
           b_raise (OtherException
                      ("Failed to login as " +:+ username +:+ ": " +:+ opt_str error))
     end) in
  (exists (e : exn) s',
     rest s = (Raise (Exception e), s') /\ active_campaigns s' = active_campaigns s) \/
  (exists s' c' now,
     rest s = (Ok tt, s') /\
     active_campaigns s' = <[id := finish "completed" now c']> (active_campaigns s) /\
     sent_messages c' + failed_messages c'
     = sent_messages c + failed_messages c + Z.of_nat (length recipients) /\
     Z.of_nat (length (errors c'))
     = Z.of_nat (length (errors c)) + (failed_messages c' - failed_messages c) /\
     total_messages c' = total_messages c).
Proof.
  intros Hc Hkeys rest. unfold rest.
  destruct (db_get_account username (world (core (gateway s)))) as [[[account |] | e] w] eqn:Hdb.
  - set (s0 := mkBackend (mkSessions (set_world w (core (gateway s)))
                                     (login_attempts (gateway s))) (active_campaigns s)).
    destruct (login_returns account (gateway s0)) as ([success error] & g1 & Hlogin).
    destruct success.
    + destruct (bulk_loop_steps id username (content template) recipients
                  (mkBackend g1 (active_campaigns s)) c Hc Hkeys)
        as (s1 & c1 & Hloop & Hmap & _ & Hsum & _ & Herr & _ & Htot & _).
      cbn [active_campaigns] in Hmap.
      destruct (datetime_now (world (core (gateway s1)))) as [now w'] eqn:Hnow.
      right. eexists _, c1, now. split; [| split; [| split; [| split]]];
        [| | exact Hsum | exact Herr | exact Htot].
      * erewrite b_bind_ok by (apply in_core_oracle; exact Hdb). fold s0. cbn beta iota.
        erewrite b_bind_ok by (apply on_gateway_run; exact Hlogin). cbn beta iota.
        change (active_campaigns s0) with (active_campaigns s).
        erewrite b_bind_ok by exact Hloop.
        erewrite b_bind_ok by (apply in_core_now; exact Hnow).
        apply mutate_run. cbn. rewrite Hmap. apply lookup_insert_eq.
      * cbn. rewrite Hmap. apply insert_insert_eq.
    + left. eexists _, _. split.
      * erewrite b_bind_ok by (apply in_core_oracle; exact Hdb). fold s0. cbn beta iota.
        erewrite b_bind_ok by (apply on_gateway_run; exact Hlogin). reflexivity.
      * reflexivity.
  - left. eexists _, _. split.
    + erewrite b_bind_ok by (apply in_core_oracle; exact Hdb). reflexivity.
    + reflexivity.
  - left. eexists _, _. split.
    + erewrite b_bind_raise by (apply in_core_oracle_raise; exact Hdb). reflexivity.
    + reflexivity.
Qed.

(** The two ends of a campaign the router holds whose recipients all have
    a [username]. *)
Lemma bulk_campaign_outcome
        (id : string) (recipients : list (list (string * PyVal))) (template : Template)
        (account_name : option string) (s : Backend) (c : DMCampaignStatus) :
  active_campaigns s !! id = Some c ->
  (forall recipient, In recipient recipients -> PyDict.get "username" recipient <> None) ->
  exists s' c',
    process_bulk_dms id recipients template account_name s = (Ok tt, s') /\
    active_campaigns s' = <[id := c']> (active_campaigns s) /\
    end_time c' <> None /\
    total_messages c' = total_messages c /\
    ((status c' = "completed" /\
      sent_messages c' + failed_messages c'
      = sent_messages c + failed_messages c + Z.of_nat (length recipients) /\
      Z.of_nat (length (errors c'))
      = Z.of_nat (length (errors c)) + (failed_messages c' - failed_messages c)) \/
     (status c' = "failed" /\
      sent_messages c' = sent_messages c /\ failed_messages c' = failed_messages c /\
      length (errors c') = S (length (errors c)))).
Proof.
  intros Hc Hkeys.
  assert (Hbody :
            forall body : B unit,
              ((exists (e : exn) s',
                  body s = (Raise (Exception e), s') /\
                  active_campaigns s' = active_campaigns s) \/
               (exists s' c' now,
                  body s = (Ok tt, s') /\
                  active_campaigns s' = <[id := finish "completed" now c']> (active_campaigns s) /\
                  sent_messages c' + failed_messages c'
                  = sent_messages c + failed_messages c + Z.of_nat (length recipients) /\
                  Z.of_nat (length (errors c'))
                  = Z.of_nat (length (errors c)) + (failed_messages c' - failed_messages c) /\
                  total_messages c' = total_messages c)) ->
              exists s' c',
                b_try body
                  (fun e =>
                     in_core (logger_error ("Campaign " +:+ id +:+ " failed: " +:+ exn_str e)) ;;
                     present ← b_gets (fun s => active_campaigns s !! id);
                     match present with
                     | Some _ =>
                         now ← in_core (oracle_total datetime_now);
                         mutate id (finish "failed" now) ;;
                         mutate id (append_error [("error", PyStr (exn_str e))])
                     | None => mret tt
                     end) s = (Ok tt, s') /\
                active_campaigns s' = <[id := c']> (active_campaigns s) /\
                end_time c' <> None /\
                total_messages c' = total_messages c /\
                ((status c' = "completed" /\
                  sent_messages c' + failed_messages c'
                  = sent_messages c + failed_messages c + Z.of_nat (length recipients) /\
                  Z.of_nat (length (errors c'))
                  = Z.of_nat (length (errors c)) + (failed_messages c' - failed_messages c)) \/
                 (status c' = "failed" /\
                  sent_messages c' = sent_messages c /\ failed_messages c' = failed_messages c /\
                  length (errors c') = S (length (errors c))))).
  { intros body [(e & s1 & Hb & Hsame) | (s' & c' & now & Hb & Hm & Hsum & Herr & Htot)].
    - assert (Hc1 : active_campaigns s1 !! id = Some c) by (rewrite Hsame; exact Hc).
      destruct (bulk_failure_run id e s1 c Hc1) as (s' & now & Hrun & Hm).
      eexists s', _. split; [unfold b_try; rewrite Hb; exact Hrun |].
      split; [rewrite Hm, Hsame; reflexivity |]. cbn.
      split; [discriminate |]. split; [reflexivity |]. right.
      rewrite length_app. cbn [length]. repeat split; lia.
    - eexists s', _. split; [unfold b_try; rewrite Hb; reflexivity |].
      split; [exact Hm |]. cbn. split; [discriminate |]. split; [exact Htot |]. left.
      repeat split; assumption. }
  unfold process_bulk_dms. apply Hbody.
  erewrite b_bind_ok by (unfold b_gets; reflexivity). cbn beta. rewrite Hc.
  destruct (str_truthy account_name).
  - erewrite b_bind_ok by reflexivity.
    apply (bulk_send_run id (opt_str account_name) recipients template s c Hc Hkeys).
  - destruct (db_list_accounts (world (core (gateway s)))) as [[[| first others] | e] w] eqn:Hl.
    + left. eexists _, _. split.
      * erewrite b_bind_raise; [reflexivity |].
        erewrite b_bind_ok by (apply in_core_oracle; exact Hl). reflexivity.
      * reflexivity.
    + set (s0 := mkBackend (mkSessions (set_world w (core (gateway s)))
                                       (login_attempts (gateway s))) (active_campaigns s)).
      assert (Hpick : (accounts ← in_core (oracle db_list_accounts);
                       match accounts with
                       | [] => b_raise (OtherException "No Instagram accounts available")
                       | first :: _ => mret (models.username first)
                       end) s = (Ok (models.username first), s0)).
      { erewrite b_bind_ok by (apply in_core_oracle; exact Hl). reflexivity. }
      destruct (bulk_send_run id (models.username first) recipients template s0 c Hc Hkeys)
        as [(e & s' & Hr & Hsame) | (s' & c' & now & Hr & Hrest)].
      * left. exists e, s'. split; [| exact Hsame].
        erewrite b_bind_ok by exact Hpick. exact Hr.
      * right. exists s', c', now. split; [| exact Hrest].
        erewrite b_bind_ok by exact Hpick. exact Hr.
    + left. eexists _, _. split.
      * erewrite b_bind_raise; [reflexivity |].
        erewrite b_bind_raise by (apply in_core_oracle_raise; exact Hl). reflexivity.
      * reflexivity.
Qed.

(** X30.  [process_bulk_dms] never raises: for every campaign id, recipient
    list, template, account name and state of the backend it returns, also
    when the campaign id is not registered or a recipient has no
    [username].  For a campaign the router holds and recipients who all
    have a [username], the campaign ends with its end time set, in one of
    two ways: [completed], every recipient counted once as sent or failed;
    or [failed], when no account could be chosen, found or logged in, with
    the counters as they were and one more entry in [errors]. *)
Theorem bulk_campaign_completes_or_fails
        (id : string) (recipients : list (list (string * PyVal))) (template : Template)
        (account_name : option string) (s : Backend) :
  (exists s', process_bulk_dms id recipients template account_name s = (Ok tt, s')) /\
  (forall c : DMCampaignStatus,
     active_campaigns s !! id = Some c ->
     (forall recipient, In recipient recipients -> PyDict.get "username" recipient <> None) ->
     exists s' c',
       process_bulk_dms id recipients template account_name s = (Ok tt, s') /\
       active_campaigns s' = <[id := c']> (active_campaigns s) /\
       end_time c' <> None /\
       total_messages c' = total_messages c /\
       ((status c' = "completed" /\
         sent_messages c' + failed_messages c'
         = sent_messages c + failed_messages c + Z.of_nat (length recipients) /\
         Z.of_nat (length (errors c'))
         = Z.of_nat (length (errors c)) + (failed_messages c' - failed_messages c)) \/
        (status c' = "failed" /\
         sent_messages c' = sent_messages c /\ failed_messages c' = failed_messages c /\
         length (errors c') = S (length (errors c))))).
Proof.
  split; [apply process_bulk_dms_returns |].
  intros c Hc Hkeys. exact (bulk_campaign_outcome id recipients template account_name s c Hc Hkeys).
Qed.

End BulkProperties.

(** ** The further properties on the concrete world *)

Lemma demo_sessions (st : State (env := Demo.env)) (username : string) :
  clients st = clients Demo.fresh ->
  username = "shop_a" \/ username = "shop_b" \/ username = "shop_c" ->
  username ∈ clients st.
Proof.
  intros -> H. cbn. rewrite !elem_of_union, !elem_of_singleton. tauto.
Qed.

Lemma demo_no_session (st : State (env := Demo.env)) (username : string) :
  clients st = clients Demo.fresh ->
  username <> "shop_a" -> username <> "shop_b" -> username <> "shop_c" ->
  username ∉ clients st.
Proof.
  intros -> Ha Hb Hc. cbn. rewrite !elem_of_union, !elem_of_singleton. tauto.
Qed.

Lemma send_auto_reply_outcomes_witness :
  "shop_b" ∈ clients Demo.configured /\
  result (send_auto_reply (env := Demo.env) "shop_b" (PyStr "t1") "Thanks!") Demo.configured
  = Ok (true, None).
Proof.
  assert (Hin : "shop_b" ∈ clients Demo.configured).
  { apply demo_sessions; [reflexivity | right; left; reflexivity]. }
  split; [exact Hin |].
  destruct (send_auto_reply_outcomes (env := Demo.env) "shop_b" (PyStr "t1") "Thanks!"
              Demo.configured) as (_ & Hsent & _).
  unfold result. rewrite (Hsent _ Hin eq_refl). reflexivity.
Defined.

Lemma check_new_messages_failure_is_empty_witness :
  "shop_a" ∈ clients Demo.configured /\
  result (check_new_messages (env := Demo.env) "shop_a") Demo.configured = Ok [].
Proof.
  assert (Hin : "shop_a" ∈ clients Demo.configured).
  { apply demo_sessions; [reflexivity | left; reflexivity]. }
  split; [exact Hin |].
  destruct (check_new_messages_failure_is_empty (env := Demo.env) "shop_a" Demo.configured)
    as (_ & Hfault & _).
  unfold result. rewrite (Hfault _ _ Hin eq_refl). reflexivity.
Defined.

Lemma reply_template_missing_or_faulty_witness :
  Demo.store (Some "T9") = None /\
  result (_get_reply_template (env := Demo.env) (Some "T9") Demo.hello) Demo.configured
  = Ok None.
Proof.
  split; [reflexivity |].
  destruct (reply_template_missing_or_faulty (env := Demo.env) (Some "T9") Demo.hello
              Demo.configured) as (_ & _ & Hmissing & _).
  unfold result. rewrite (Hmissing _ eq_refl). reflexivity.
Defined.

Lemma process_message_condition_fails_witness :
  message_text Demo.great = Some "Great store!" /\
  _process_message (env := Demo.env) "shop_b" Demo.great (Demo.config "T1" [("ends_with", "?")])
    Demo.configured
  = (Ok tt, Demo.configured).
Proof.
  split; [reflexivity |].
  apply (process_message_condition_fails (env := Demo.env) "shop_b" Demo.great
           (Demo.config "T1" [("ends_with", "?")]) Demo.configured "Great store!");
    reflexivity.
Defined.

Lemma process_message_text_not_a_string_witness :
  message_text Demo.photo = None /\
  exists e,
    py_lower (env := Demo.env) (msg_get Demo.photo "text" (PyStr "")) = Raise e /\
    _process_message (env := Demo.env) "shop_b" Demo.photo (Demo.config "T1" []) Demo.configured
    = (Ok tt, add_event (Log ERROR ("Error checking reply conditions: " +:+ exn_str e))
                Demo.configured).
Proof.
  split; [reflexivity |].
  apply (process_message_text_not_a_string (env := Demo.env) "shop_b" Demo.photo
           (Demo.config "T1" []) Demo.configured).
  reflexivity.
Defined.

Lemma process_message_sends_template_witness :
  Demo.opens !! "thread_id" = Some (PyStr "t1") /\
  exists st' evs,
    _process_message (env := Demo.env) "shop_b" Demo.opens
      (Demo.config "T1" [("ends_with", "?")]) Demo.configured = (Ok tt, st') /\
    trace st' =
      trace Demo.configured ++
      [CallGetTemplate (Some "T1");
       CallSendAutoReply "shop_b" (PyStr "t1") "Thanks for asking!"] ++ evs /\
    Forall send_aftermath evs.
Proof.
  split; [reflexivity |].
  apply (process_message_sends_template (env := Demo.env) "shop_b" Demo.opens
           (Demo.config "T1" [("ends_with", "?")]) Demo.configured "What time do you open?"
           (Demo.template "T1" "Thanks for asking!") (world Demo.configured) (PyStr "t1"));
    first [reflexivity | discriminate].
Defined.

Lemma process_message_missing_thread_witness :
  Demo.orphan !! "thread_id" = None /\
  _process_message (env := Demo.env) "shop_b" Demo.orphan (Demo.config "T1" []) Demo.configured
  = (Ok tt, add_event (Log ERROR "Error processing message: 'thread_id'")
              (after_lookup (Some "T1") (world Demo.configured) Demo.configured)).
Proof.
  split; [reflexivity |].
  apply (process_message_missing_thread (env := Demo.env) "shop_b" Demo.orphan
           (Demo.config "T1" []) Demo.configured "Hi"
           (Demo.template "T1" "Thanks for asking!") (world Demo.configured));
    first [reflexivity | discriminate].
Defined.

Lemma process_message_empty_template_witness :
  content (Demo.template "T0" "") = "" /\
  _process_message (env := Backstage.blank_store) "shop_b" Demo.hello (Demo.config "T0" [])
    Backstage.blank
  = (Ok tt, after_lookup (env := Backstage.blank_store) (Some "T0") 0 Backstage.blank).
Proof.
  split; [reflexivity |].
  apply (process_message_empty_template (env := Backstage.blank_store) "shop_b" Demo.hello
           (Demo.config "T0" []) Backstage.blank "Hello" (Demo.template "T0" "") 0);
    reflexivity.
Defined.

Lemma tick_bookkeeping_witness :
  PyDict.get "shop_z" (active_configs Demo.polled) = None /\
  last_check_times (exec (_check_new_messages (env := Demo.env)) Demo.polled) !! "shop_z"
  = last_check_times Demo.polled !! "shop_z".
Proof.
  split; [reflexivity |].
  destruct (tick_bookkeeping (env := Demo.env) Demo.polled "shop_z") as (_ & _ & _ & _ & Hout).
  apply Hout. reflexivity.
Defined.

Lemma reenabled_account_waits_for_cooldown_witness :
  let st' := exec (update_config (env := Demo.env) "shop_b" Demo.disabled ;;
                   update_config "shop_b" (Demo.config "T1" [])) Demo.polled in
  last_check_times Demo.polled !! "shop_b" = Some 6000000 /\
  PyDict.get "shop_b" (active_configs st') = Some (Demo.config "T1" []) /\
  check_account "shop_b" (Demo.config "T1" []) st'
  = (Ok tt, set_world (snd (datetime_now (world st'))) st').
Proof.
  intros st'. split; [reflexivity |].
  apply (reenabled_account_waits_for_cooldown (env := Demo.env) "shop_b" Demo.disabled
           (Demo.config "T1" []) Demo.polled 6000000); reflexivity.
Defined.

Lemma update_config_idempotent_witness :
  active_configs (exec (update_config (env := Demo.env) "shop_b" Demo.disabled ;;
                        update_config "shop_b" Demo.disabled) Demo.configured)
  = active_configs (exec (update_config (env := Demo.env) "shop_b" Demo.disabled)
                      Demo.configured).
Proof.
  apply (update_config_idempotent (env := Demo.env) "shop_b" Demo.disabled Demo.configured).
  exact demo_configured_wf.
Defined.

Lemma update_config_iteration_order_witness :
  PyDict.keys (active_configs Demo.configured) = ["shop_a"; "shop_b"; "shop_c"] /\
  PyDict.keys (active_configs
                 (exec (update_config (env := Demo.env) "shop_a" Demo.disabled ;;
                        update_config "shop_a" (Demo.config "T2" [])) Demo.configured))
  = ["shop_b"; "shop_c"; "shop_a"].
Proof.
  split; [reflexivity |].
  destruct (update_config_iteration_order (env := Demo.env) "shop_a" (Demo.config "T2" [])
              Demo.disabled Demo.configured eq_refl eq_refl demo_configured_wf)
    as [_ Hmoved].
  rewrite Hmoved. reflexivity.
Defined.

Lemma stop_ends_loop_at_next_boundary_witness :
  is_running Backstage.late = true /\
  while_is_running (env := Demo.env) 4 (loop_body Demo.failing_tick) Backstage.late
  = (Ok Exited, exec (loop_body Demo.failing_tick) Backstage.late).
Proof.
  split; [reflexivity |].
  apply (stop_ends_loop_at_next_boundary (env := Demo.env) Demo.failing_tick 3 Backstage.late);
    first [reflexivity | left; reflexivity].
Defined.

Lemma prompt_ignores_reply_context_witness :
  _prepare_prompt (PyStr "Hello") (Some {[ "intent_analysis" := PyStr "question" ]})
  = _prepare_prompt (PyStr "Hello") None.
Proof.
  apply (proj1 (prompt_ignores_reply_context (PyStr "Hello")
                  {[ "intent_analysis" := PyStr "question" ]}
                  {| intent_analysis := PyNone; template_guide := "" |}));
    reflexivity.
Defined.

Lemma template_without_placeholders_unchanged_witness :
  FileParser.process_template_variables (env := Demo.env) "Thanks for asking!" Backstage.ann
  = "Thanks for asking!".
Proof.
  apply (template_without_placeholders_unchanged (env := Demo.env) "Thanks for asking!"
           Backstage.ann).
  intros key value [H | [H | []]]; inversion H; reflexivity.
Defined.

Lemma template_variables_ignore_key_case_witness :
  FileParser.process_template_variables (env := Demo.env) "Hi {name}!" [("Name", PyStr "Ann")]
  = FileParser.process_template_variables (env := Demo.env) "Hi {name}!"
      [("NAME", PyStr "Ann")].
Proof.
  apply (template_variables_ignore_key_case (env := Demo.env) "Hi {name}!"
           [("Name", PyStr "Ann")] [("NAME", PyStr "Ann")]).
  reflexivity.
Defined.

Lemma login_lockout_witness :
  login_attempts Backstage.locked !! "shop_b" = Some 3 /\
  login (services := Backstage.services) (Backstage.account "shop_b" "secret") Backstage.locked
  = (Ok (false, Some "Maximum login attempts exceeded"), Backstage.locked) /\
  Nat.iter 5 (fun s' => snd (login (services := Backstage.services)
                               (Backstage.account "shop_b" "secret") s'))
           Backstage.locked
  = Backstage.locked.
Proof.
  split; [reflexivity |].
  apply (login_lockout (services := Backstage.services) (Backstage.account "shop_b" "secret")
           Backstage.locked 3 5).
  - reflexivity.
  - unfold settings.MAX_RETRIES. lia.
Defined.

Lemma login_counts_failures_witness :
  failures "shop_a" Backstage.sessions = 0 /\
  exists r s',
    login (services := Backstage.services) (Backstage.account "shop_a" "secret")
      Backstage.sessions = (Ok r, s') /\
    (forall other, other <> "shop_a" ->
       login_attempts s' !! other = login_attempts Backstage.sessions !! other) /\
    (fst r = true ->
     snd r = None /\ failures "shop_a" s' = 0 /\ "shop_a" ∈ clients (core s')) /\
    (fst r = false -> failures "shop_a" s' = failures "shop_a" Backstage.sessions + 1).
Proof.
  split; [reflexivity |].
  apply (login_counts_failures (services := Backstage.services)
           (Backstage.account "shop_a" "secret") Backstage.sessions).
  reflexivity.
Defined.

Lemma failed_login_leaves_session_witness :
  exists s',
    login (services := Backstage.services) (Backstage.account "shop_z" "wrong")
      Backstage.sessions
    = (Ok (false, Some "Login failed for shop_z: bad password"), s') /\
    "shop_z" ∈ clients (core s') /\
    failures "shop_z" s' = 1.
Proof.
  apply (failed_login_leaves_session (services := Backstage.services)
           (Backstage.account "shop_z" "wrong") Backstage.sessions
           (OtherException "bad password") (world Demo.configured)
           (world Demo.configured + 2000000)); reflexivity.
Defined.

Lemma logout_outcomes_witness :
  "shop_b" ∈ clients Demo.configured /\
  exists st',
    logout (services := Backstage.services) "shop_b" Demo.configured = (Ok tt, st') /\
    ("shop_b" ∉ clients st') /\
    (forall other, other <> "shop_b" ->
       (other ∈ clients st' <-> other ∈ clients Demo.configured)).
Proof.
  assert (Hin : "shop_b" ∈ clients Demo.configured).
  { apply demo_sessions; [reflexivity | right; left; reflexivity]. }
  split; [exact Hin |].
  destruct (logout_outcomes (services := Backstage.services) "shop_b" Demo.configured)
    as (_ & Hout & _).
  exact (Hout _ Hin eq_refl).
Defined.

Lemma send_dm_outcomes_witness :
  ("shop_z" ∉ clients Demo.configured) /\
  send_dm (services := Backstage.services) "shop_z" "ann" "Hi Ann!" Demo.configured
  = (Ok (false, Some "Client not logged in"), Demo.configured).
Proof.
  assert (Hout : "shop_z" ∉ clients Demo.configured).
  { apply demo_no_session; [reflexivity | discriminate ..]. }
  split; [exact Hout |].
  destruct (send_dm_outcomes (services := Backstage.services) "shop_z" "ann" "Hi Ann!"
              Demo.configured) as (Hgate & _).
  exact (Hgate Hout).
Defined.

Lemma configure_auto_reply_rejections_witness :
  Database.get_account "shop_z" Backstage.accounts_file = None /\
  configure_auto_reply (services := Backstage.services) "shop_z" (Demo.config "T1" [])
    Demo.configured
  = (Ok (models.HTTPException 404 "Account not found"), Demo.configured).
Proof.
  split; [reflexivity |].
  destruct (configure_auto_reply_rejections (services := Backstage.services) "shop_z"
              (Demo.config "T1" []) Demo.configured) as (Hmissing & _).
  exact (Hmissing _ eq_refl).
Defined.

Lemma configure_auto_reply_without_template_check_witness :
  let config := {| is_enabled := true; template_id := None; conditions := [] |} in
  Database.get_account "shop_a" Backstage.accounts_file
  = Some (Backstage.account "shop_a" "secret") /\
  configure_auto_reply (services := Backstage.services) "shop_a" config Demo.fresh
  = (Ok (models.Respond {| models.success := true;
                           models.message := "Auto-reply enabled for shop_a" |}),
     exec (update_config "shop_a" config) Demo.fresh) /\
  PyDict.get "shop_a" (active_configs (exec (update_config (env := Demo.env) "shop_a" config)
                                         Demo.fresh))
  = Some config.
Proof.
  intros config. split; [reflexivity |]. split; [| reflexivity].
  apply (configure_auto_reply_without_template_check (services := Backstage.services)
           "shop_a" config Demo.fresh (Backstage.account "shop_a" "secret")
           (world Demo.fresh)).
  - reflexivity.
  - right. reflexivity.
Defined.

Lemma add_account_round_trip_witness :
  let file' := snd (Database.add_account (Backstage.account "shop_c" "secret")
                      Backstage.accounts_file) in
  Database.get_account "shop_c" Backstage.accounts_file = None /\
  Database.get_account "shop_c" file' = Some (Backstage.account "shop_c" "secret") /\
  Database.get_account "shop_a" file' = Database.get_account "shop_a" Backstage.accounts_file.
Proof.
  intros file'. split; [reflexivity |].
  destruct (add_account_round_trip (Backstage.account "shop_c" "secret")
              Backstage.accounts_file) as (_ & Hnew & _).
  destruct (Hnew eq_refl) as (_ & Hfound & Hothers & _).
  split; [exact Hfound | apply Hothers; discriminate].
Defined.

Lemma delete_account_removes_witness :
  let file' := snd (Database.delete_account "shop_b" Backstage.accounts_file) in
  fst (Database.delete_account "shop_b" Backstage.accounts_file) = true /\
  Database.get_account "shop_a" file' = Database.get_account "shop_a" Backstage.accounts_file.
Proof.
  intros file'.
  destruct (delete_account_removes "shop_b" Backstage.accounts_file)
    as (Hreport & _ & Hothers & _).
  split; [apply Hreport; discriminate | apply Hothers; discriminate].
Defined.

Lemma accounts_stay_unique_witness :
  Database.unique_usernames Backstage.accounts_file /\
  Database.unique_usernames
    (snd (Database.add_account (Backstage.account "shop_c" "secret") Backstage.accounts_file)) /\
  Database.unique_usernames (snd (Database.delete_account "shop_a" Backstage.accounts_file)).
Proof.
  assert (Huniq : Database.unique_usernames Backstage.accounts_file).
  { unfold Database.unique_usernames. cbn.
    constructor; [intros [H | []]; discriminate |].
    constructor; [intros [] | constructor]. }
  split; [exact Huniq |].
  apply (accounts_stay_unique (Backstage.account "shop_c" "secret") "shop_a"
           Backstage.accounts_file Huniq).
Defined.

Lemma recipient_without_username_aborts_witness :
  PyDict.get "username" Backstage.nameless = None /\
  b_for_each [Backstage.nameless; Backstage.ann]
    (process_recipient (services := Backstage.services) "c1" "shop_a" "Hi {name}!")
    Backstage.backend
  = (Raise (Exception (KeyError "'username'")),
     mkBackend Backstage.sessions {[ "c1" := campaigns.count_failed Backstage.campaign ]}).
Proof.
  split; [reflexivity |].
  destruct (recipient_without_username_aborts (services := Backstage.services)
              "c1" "shop_a" "Hi {name}!" Backstage.nameless [Backstage.ann]
              Backstage.backend Backstage.campaign eq_refl eq_refl) as [_ Hloop].
  rewrite Hloop. reflexivity.
Defined.

Lemma bulk_campaign_completes_or_fails_witness :
  active_campaigns Backstage.backend !! "c1" = Some Backstage.campaign /\
  exists s' c',
    process_bulk_dms (services := Backstage.services) "c1" [Backstage.ann; Backstage.ghost]
      Backstage.greeting (Some "shop_a") Backstage.backend = (Ok tt, s') /\
    active_campaigns s' = <[ "c1" := c' ]> (active_campaigns Backstage.backend) /\
    campaigns.end_time c' <> None /\
    campaigns.status c' = "completed" /\
    campaigns.sent_messages c' = 1 /\ campaigns.failed_messages c' = 1.
Proof.
  split; [reflexivity |].
  destruct (proj2 (bulk_campaign_completes_or_fails (services := Backstage.services)
                     "c1" [Backstage.ann; Backstage.ghost] Backstage.greeting (Some "shop_a")
                     Backstage.backend) Backstage.campaign eq_refl)
    as (s' & c' & Hrun & Hmap & Hend & _).
  - intros recipient [<- | [<- | []]]; discriminate.
  - exists s', c'. split; [exact Hrun |]. split; [exact Hmap |]. split; [exact Hend |].
    assert (Hs' : s' = snd (process_bulk_dms (services := Backstage.services) "c1"
                              [Backstage.ann; Backstage.ghost] Backstage.greeting
                              (Some "shop_a") Backstage.backend)) by (rewrite Hrun; reflexivity).
    assert (Hc' : active_campaigns s' !! "c1" = Some c')
      by (rewrite Hmap; apply lookup_insert_eq).
    rewrite Hs' in Hc'. vm_compute in Hc'. inversion Hc'. repeat split.
Defined.

Lemma template_variable_substituted_witness :
  FileParser.process_template_variables (env := Demo.env) "Hi {name}!" [("Name", PyStr "Ann")]
  = "Hi Ann!".
Proof.
  apply (template_variable_substituted (env := Demo.env) "Hi " "!" "Name" (PyStr "Ann"));
    reflexivity.
Defined.
